(** * Timer / alarm subsystem of the voice-assistant tool collection

    A shallow embedding of [timer_alarm.py]: the process-wide
    [TimerAlarmManager] registry, the two firing callbacks, and the tool
    entry points [set_timer], [set_alarm], [check_timers_alarms] and
    [cancel_timer_alarm].

    Modelling choices.
    - A finite Python float is modelled by the rational ([Q]) it denotes:
      [time.time()] returns such a value, [int(...)] truncates it, an
      arithmetic operation on floats is the exact operation followed by
      the rounding [fl] to binary64, and the conversion of an [int] that
      is too large raises [OverflowError].
    - [datetime.datetime] values are records of a proleptic day ordinal and
      a time of day, ordered lexicographically as Python orders them; a
      date outside [date.min .. date.max] raises [OverflowError].
    - A Python [dict] is an association list in insertion order.
    - The singleton manager, the futures handed to the connection's event
      loop, the clock and everything observable (messages sent, chat turns
      submitted, log lines, sleeper threads) live in one [World] that is
      threaded through a state-and-exception monad.
    - Every tool entry point and every callback runs to completion without
      interleaving; the event loop is stepped explicitly with [loop_step]. *)

From Stdlib Require Import List String Ascii Bool ZArith QArith Lia Lqa.
From Stdlib Require Import Qround Qabs Qpower.
From Stdlib Require Import DecimalString DecimalPos DecimalZ.
Import ListNotations.

Local Open Scope list_scope.
Local Open Scope string_scope.

(* ------------------------------------------------------------------ *)
(** ** Python primitives *)

(** [str(n)] for a Python [int]. *)
Definition py_str (n : Z) : string := NilZero.string_of_int (Z.to_int n).

(** [int(x)] for a float: truncation toward zero. *)
Definition py_int (x : Q) : Z := Z.quot (Qnum x) (Zpos (Qden x)).

(** The integer nearest to [q], the even one of two that are equally
    near. *)
Definition round_half_even (q : Q) : Z :=
  let f := Qfloor q in
  match Qcompare (q - inject_Z f) (1 # 2) with
  | Lt => f
  | Gt => (f + 1)%Z
  | Eq => if Z.even f then f else (f + 1)%Z
  end.

(** The exponent of a rational other than zero: the [e] with
    [2^e <= |q| < 2^(e+1)]. *)
Definition ilog2 (q : Q) : Z :=
  let e := (Z.log2 (Z.abs (Qnum q)) - Z.log2 (Zpos (Qden q)))%Z in
  if Qle_bool (2 ^ e) (Qabs q) then e else (e - 1)%Z.

(** Rounding to binary64: to the nearest value with 53 significant bits,
    ties to even, in steps of [2^-1074] below [2^-1022].  [fl] has no
    largest exponent; a result above [float_max] stands for what binary64
    rounds to infinity.  The conversion of an [int] checks for it; a sum
    or difference of the source reaches it only from a clock reading of
    [2^970] seconds or more, and [time.time()], made from a count of
    nanoseconds in 64 bits, stays below [2^34]. *)
Definition fl (q : Q) : Q :=
  if Qeq_bool q 0 then 0
  else
    let k := (Z.max (ilog2 q) (-1022) - 52)%Z in
    Qred (inject_Z (round_half_even (q / 2 ^ k)) * 2 ^ k).

(** [sys.float_info.max]. *)
Definition float_max : Q := inject_Z (2 ^ 1024 - 2 ^ 971).

(** An [int] that [float(n)] converts, rather than raising
    [OverflowError]. *)
Definition float_range (n : Z) : bool :=
  Qle_bool (Qabs (fl (inject_Z n))) float_max.

(** [f"{n:02d}"]: zero padding to width two. *)
Definition fmt_02d (n : Z) : string :=
  let s := py_str n in
  if (String.length s <? 2)%nat then "0" ++ s else s.

(** Truthiness of an optional string ([None] and [""] are falsy). *)
Definition truthy (s : option string) : bool :=
  match s with
  | Some (String _ _) => true
  | _ => false
  end.

(** [x in xs] for a list of strings. *)
Definition str_in (x : string) (xs : list string) : bool :=
  existsb (String.eqb x) xs.

(** [sep.join(parts)]. *)
Fixpoint join (sep : string) (parts : list string) : string :=
  match parts with
  | [] => ""
  | [p] => p
  | p :: rest => p ++ sep ++ join sep rest
  end.

(** [s.startswith(p)]. *)
Fixpoint startswith (p s : string) : bool :=
  match p, s with
  | EmptyString, _ => true
  | String a p', String b s' => Ascii.eqb a b && startswith p' s'
  | String _ _, EmptyString => false
  end.

(** [s.replace(old, new)] for a non-empty [old]: a left-to-right scan
    that, after a match, skips the rest of the matched occurrence. *)
Fixpoint replace_from (old new s : string) (skip : nat) : string :=
  match s with
  | EmptyString => EmptyString
  | String c rest =>
      match skip with
      | S k => replace_from old new rest k
      | O =>
          if startswith old s
          then new ++ replace_from old new rest (String.length old - 1)
          else String c (replace_from old new rest 0)
      end
  end.

Definition replace (old new s : string) : string := replace_from old new s 0.

(** [s.strip()] restricted to the blanks this module can produce. *)
Fixpoint lstrip (s : string) : string :=
  match s with
  | String " " rest => lstrip rest
  | _ => s
  end.

Fixpoint rstrip (s : string) : string :=
  match s with
  | EmptyString => EmptyString
  | String c rest =>
      match rstrip rest with
      | EmptyString => if Ascii.eqb c " " then EmptyString else String c EmptyString
      | r => String c r
      end
  end.

Definition strip (s : string) : string := rstrip (lstrip s).

(* ------------------------------------------------------------------ *)
(** ** Dictionaries in insertion order *)

Section Dict.
Context {V : Type}.

Definition dict := list (string * V).

(** [d.get(k)]; [k in d] is [dict_mem]. *)
Fixpoint dict_get (k : string) (d : dict) : option V :=
  match d with
  | [] => None
  | (k', v) :: rest => if String.eqb k k' then Some v else dict_get k rest
  end.

Definition dict_mem (k : string) (d : dict) : bool :=
  match dict_get k d with Some _ => true | None => false end.

(** [d[k] = v]: overwrite in place, or append a new key. *)
Fixpoint dict_set (k : string) (v : V) (d : dict) : dict :=
  match d with
  | [] => [(k, v)]
  | (k', v') :: rest =>
      if String.eqb k k' then (k, v) :: rest else (k', v') :: dict_set k v rest
  end.

(** The effect of [del d[k]] on a dictionary that holds [k]. *)
Definition dict_del (k : string) (d : dict) : dict :=
  filter (fun kv => negb (String.eqb k (fst kv))) d.

Definition dict_keys (d : dict) : list string := map fst d.

(** Keys of a Python dictionary are pairwise distinct. *)
Definition dict_wf (d : dict) : Prop := NoDup (dict_keys d).
End Dict.

Arguments dict V : clear implicits.

(* ------------------------------------------------------------------ *)
(** ** Calendar values *)

Module datetime.
(** [date] is the proleptic day ordinal, the rest is the time of day. *)
Record t := mk
  { date : Z; hour : Z; minute : Z; second : Z; microsecond : Z }.

(** [datetime.datetime.combine(d, datetime.time(h, m))]. *)
Definition combine (d h m : Z) : t := mk d h m 0 0.

(** Microseconds since midnight. *)
Definition tod (a : t) : Z :=
  ((hour a * 3600 + minute a * 60 + second a) * 1000000 + microsecond a)%Z.

(** [a < b] on naive datetimes: by date, then by time of day. *)
Definition ltb (a b : t) : bool :=
  ((date a <? date b) || ((date a =? date b) && (tod a <? tod b)))%Z.

(** [(a - b).total_seconds()]. *)
Definition diff_seconds (a b : t) : Q :=
  inject_Z ((date a - date b) * 86400)
  + ((tod a - tod b) # 1000000).

(** A clock reading is well formed when its fields are in range. *)
Definition valid (a : t) : Prop :=
  (0 <= hour a <= 23 /\ 0 <= minute a <= 59 /\ 0 <= second a <= 59
   /\ 0 <= microsecond a <= 999999)%Z.

(** [date.min.toordinal()] and [date.max.toordinal()]: the first day of
    year 1 and the last day of year 9999. *)
Definition min_ordinal : Z := 1.
Definition max_ordinal : Z := 3652059.

(** The day ordinal is one of a [date]. *)
Definition in_range (d : Z) : bool := ((min_ordinal <=? d) && (d <=? max_ordinal))%Z.

(** The largest magnitude of the days of a [timedelta]. *)
Definition max_delta_days : Z := 999999999.
End datetime.

(* ------------------------------------------------------------------ *)
(** ** Registry entries, connection, futures *)

Module Timer.
Record t := mk
  { duration : Z; start_time : Q; end_time : Q;
    label : option string; task : option nat }.
Definition with_task (x : t) (h : option nat) : t :=
  mk (duration x) (start_time x) (end_time x) (label x) h.
End Timer.

Module Alarm.
Record t := mk
  { hour : Z; minute : Z; day_offset : Z; time : datetime.t;
    label : option string; task : option nat }.
Definition with_task (x : t) (h : option nat) : t :=
  mk (hour x) (minute x) (day_offset x) (time x) (label x) h.
End Alarm.

(** The exceptions of the subsystem, all of them subclasses of
  [Exception]. *)
Inductive Exn :=
| KeyError (key : string)
| ValueError (msg : string)
| ConnectionError (msg : string)
| OverflowError (msg : string)
| OSError (msg : string).

(** [str(e)]. *)
Definition exn_str (e : Exn) : string :=
match e with
| KeyError k => "'" ++ k ++ "'"
| ValueError m => m
| ConnectionError m => m
| OverflowError m => m
| OSError m => m
end.

(** What a call comes to: a value, or an exception. *)
Inductive Outcome (A : Type) :=
| Ok (a : A)
| Raised (e : Exn).
Arguments Ok {A} a.
Arguments Raised {A} e.

(** The two conversational entry points of a connection. *)
Inductive ChatMethod := chat | chat_with_function_calling.

(** The connection, an external collaborator.  [websocket] is [None] when
  the attribute is missing and [Some b] when it is present with
  truthiness [b]; [send_stt_message] and [executor_submit] say whether
  the call raises; [send_suspends] says whether [await
  send_stt_message(...)] yields to the event loop before it returns or
  raises, as a send that waits for the socket does. *)
Record Conn := mkConn
{ websocket : option bool;
  use_function_call_mode : bool;
  send_stt_message : string -> option Exn;
  executor_submit : ChatMethod -> string -> option Exn;
  send_suspends : bool }.

(** [hasattr(conn, 'websocket') and conn.websocket]. *)
Definition has_websocket (conn : Conn) : bool :=
match websocket conn with Some b => b | None => false end.

Inductive Coroutine :=
| TimerCallback (conn : Conn) (timer_id : string) (label : option string)
| AlarmCallback (conn : Conn) (alarm_id : string) (label : option string).

(** The future [run_coroutine_threadsafe] returns, with the task behind
  it.  [Pending]: the loop has not turned on it.  [Finished]: the
  coroutine has run.  [Cancelled]: [cancel()] came before the loop
  turned; the loop will still start the task, whose cancellation is
  queued behind its first step.  [CancelledStarted]: cancelled, and the
  loop has since run that first step. *)
Inductive FutureState := Pending | Finished | Cancelled | CancelledStarted.

Record Future := mkFuture { coro : Coroutine; fstate : FutureState }.

(** [fut.done()]. *)
Definition done (f : Future) : bool :=
match fstate f with Pending => false | _ => true end.

(** Everything the subsystem makes observable outside the registry.
  [SttInterrupted] is a send that was begun and cancelled where it
  waited; whether its text went out is not known. *)
Inductive Event :=
| SttMessage (message : string)
| SttInterrupted (message : string)
| Submitted (method : ChatMethod) (message : string)
| LogInfo (line : string)
| LogError (line : string)
| ThreadStarted (sleep_seconds : Q).

(** One reading of the system clock, as [time.time()] and as
  [datetime.datetime.now()] see it: [epoch] is the value of the float
  [time.time()] returns. *)
Record Reading := mkReading { epoch : Q; local_now : datetime.t }.

Inductive Action := RESPONSE | REQLLM.

Record ActionResponse := mkActionResponse
{ action : Action; result : string; response : string }.

(* ------------------------------------------------------------------ *)
(** ** The world and its monad *)

(** [timers] and [alarms] are the two dictionaries of the singleton
    [TimerAlarmManager]; [futures] are the futures created on the
    connection's event loop, a firing handle being an index into that
    list; [clock] is the sequence of clock readings the process will
    observe and [ticks] counts the readings already consumed;
    [localtime] is the platform's [time.localtime], reduced to the local
    (hour, minute, second) it gives for an epoch instant; it raises for
    the instants the platform cannot convert. *)
Record World := mkWorld
  { timers : dict Timer.t;
    alarms : dict Alarm.t;
    futures : list Future;
    trace : list Event;
    clock : nat -> Reading;
    ticks : nat;
    localtime : Q -> Outcome (Z * Z * Z) }.

Definition with_timers (w : World) (d : dict Timer.t) : World :=
  mkWorld d (alarms w) (futures w) (trace w) (clock w) (ticks w) (localtime w).
Definition with_alarms (w : World) (d : dict Alarm.t) : World :=
  mkWorld (timers w) d (futures w) (trace w) (clock w) (ticks w) (localtime w).
Definition with_futures (w : World) (fs : list Future) : World :=
  mkWorld (timers w) (alarms w) fs (trace w) (clock w) (ticks w) (localtime w).
Definition with_trace (w : World) (tr : list Event) : World :=
  mkWorld (timers w) (alarms w) (futures w) tr (clock w) (ticks w) (localtime w).
Definition with_ticks (w : World) (n : nat) : World :=
  mkWorld (timers w) (alarms w) (futures w) (trace w) (clock w) n (localtime w).

(** A computation changes the world and returns or raises; what it did
    before raising stays done. *)
Definition M (A : Type) : Type := World -> Outcome A * World.

Definition ret {A} (a : A) : M A := fun w => (Ok a, w).

Definition raise {A} (e : Exn) : M A := fun w => (Raised e, w).

Definition bind {A B} (m : M A) (k : A -> M B) : M B :=
  fun w =>
    match m w with
    | (Ok a, w') => k a w'
    | (Raised e, w') => (Raised e, w')
    end.

(** [try: body except Exception as e: handler(e)]. *)
Definition try_except {A} (body : M A) (handler : Exn -> M A) : M A :=
  fun w =>
    match body w with
    | (Ok a, w') => (Ok a, w')
    | (Raised e, w') => handler e w'
    end.

Declare Scope monad_scope.
Delimit Scope monad_scope with monad.
Notation "x <- m ;; k" := (bind m (fun x => k))
  (at level 61, m at next level, right associativity) : monad_scope.
Notation "m ;; k" := (bind m (fun _ => k))
  (at level 61, right associativity) : monad_scope.
Notation "' pat <- m ;; k" := (bind m (fun x => match x with pat => k end))
  (at level 61, pat pattern, m at next level, right associativity) : monad_scope.
Local Open Scope monad_scope.

Definition gets {A} (f : World -> A) : M A := fun w => (Ok (f w), w).
Definition modify (f : World -> World) : M unit := fun w => (Ok tt, f w).

(** [time.time()]. *)
Definition time_time : M Q :=
  fun w => (Ok (epoch (clock w (ticks w))), with_ticks w (S (ticks w))).

(** [datetime.datetime.now()]. *)
Definition datetime_now : M datetime.t :=
  fun w => (Ok (local_now (clock w (ticks w))), with_ticks w (S (ticks w))).

(** [time.strftime("%H:%M:%S", time.localtime(t))]. *)
Definition strftime_HMS (t : Q) : M string :=
  tm <- gets localtime ;;
  match tm t with
  | Ok (h, m, s) => ret (fmt_02d h ++ ":" ++ fmt_02d m ++ ":" ++ fmt_02d s)
  | Raised e => raise e
  end.

(** [x + n] and [x - y] for a float [x], an [int] [n] and a float [y]:
    the [int] is converted first. *)
Definition float_of_int (n : Z) : M Q :=
  if float_range n then ret (fl (inject_Z n))
  else raise (OverflowError "int too large to convert to float").

Definition float_add_int (x : Q) (n : Z) : M Q :=
  y <- float_of_int n ;;
  ret (fl (x + y)).

Definition float_sub (x y : Q) : Q := fl (x - y).

(** [datetime.timedelta(days=n)]: the days go through a C [int]. *)
Definition timedelta_days (n : Z) : M Z :=
  if negb ((- 2 ^ 31 <=? n) && (n <? 2 ^ 31))%Z then
    raise (OverflowError "Python int too large to convert to C int")
  else if (datetime.max_delta_days <? Z.abs n)%Z then
    raise (OverflowError ("days=" ++ py_str n ++ "; must have magnitude <= 999999999"))
  else ret n.

(** [d + delta] for a [date] and a [timedelta] of whole days. *)
Definition date_add (d delta : Z) : M Z :=
  if datetime.in_range (d + delta) then ret (d + delta)%Z
  else raise (OverflowError "date value out of range").

(** An argument of [datetime.time(...)], converted to a C [int]. *)
Definition c_int (n : Z) : M Z :=
  if negb ((- 2 ^ 63 <=? n) && (n <? 2 ^ 63))%Z then
    raise (OverflowError "Python int too large to convert to C long")
  else if (2 ^ 31 <=? n)%Z then
    raise (OverflowError "signed integer is greater than maximum")
  else if (n <? - 2 ^ 31)%Z then
    raise (OverflowError "signed integer is less than minimum")
  else ret n.

(** [datetime.time(hour, minute)]: both arguments are converted, then
    checked. *)
Definition datetime_time (hour minute : Z) : M (Z * Z) :=
  h <- c_int hour ;;
  m <- c_int minute ;;
  if negb ((0 <=? h) && (h <=? 23))%Z then raise (ValueError "hour must be in 0..23")
  else if negb ((0 <=? m) && (m <=? 59))%Z then
    raise (ValueError "minute must be in 0..59")
  else ret (h, m).

Definition emit (e : Event) : M unit :=
  modify (fun w => with_trace w ((trace w ++ [e])%list)).

Definition logger_info (line : string) : M unit := emit (LogInfo line).
Definition logger_error (line : string) : M unit := emit (LogError line).

(** [d[k]] on the manager's dictionaries, raising [KeyError]. *)
Definition timers_item (timer_id : string) : M Timer.t :=
  d <- gets timers ;;
  match dict_get timer_id d with
  | Some timer => ret timer
  | None => raise (KeyError timer_id)
  end.

Definition alarms_item (alarm_id : string) : M Alarm.t :=
  d <- gets alarms ;;
  match dict_get alarm_id d with
  | Some alarm => ret alarm
  | None => raise (KeyError alarm_id)
  end.

(** [del manager.timers[timer_id]] and [del manager.alarms[alarm_id]]. *)
Definition del_timer (timer_id : string) : M unit :=
  timers_item timer_id ;;
  modify (fun w => with_timers w (dict_del timer_id (timers w))).

Definition del_alarm (alarm_id : string) : M unit :=
  alarms_item alarm_id ;;
  modify (fun w => with_alarms w (dict_del alarm_id (alarms w))).

(** Replace the [i]-th element of a list, if there is one. *)
Fixpoint list_update {A} (i : nat) (x : A) (l : list A) : list A :=
  match l, i with
  | [], _ => []
  | _ :: rest, O => x :: rest
  | y :: rest, S j => y :: list_update j x rest
  end.

(** [if task and not task.done(): task.cancel()] for a stored handle. *)
Definition cancel_task (task : option nat) : M unit :=
  match task with
  | None => ret tt
  | Some h =>
      fs <- gets futures ;;
      match nth_error fs h with
      | Some f =>
          if done f then ret tt
          else modify (fun w =>
                 with_futures w (list_update h (mkFuture (coro f) Cancelled) (futures w)))
      | None => ret tt
      end
  end.

(** [asyncio.run_coroutine_threadsafe(coro, conn.loop)]: the coroutine is
    handed to the loop, runnable at once, and its future is returned. *)
Definition run_coroutine_threadsafe (c : Coroutine) : M nat :=
  fs <- gets futures ;;
  modify (fun w => with_futures w ((futures w ++ [mkFuture c Pending])%list)) ;;
  ret (List.length fs).

(** [threading.Thread(target=delayed_execution, daemon=True).start()],
    where [delayed_execution] only sleeps. *)
Definition start_sleeper_thread (seconds : Q) : M unit :=
  emit (ThreadStarted seconds).

(* ------------------------------------------------------------------ *)
(** ** TimerAlarmManager *)

(** [for k, v in list(d.items()): body(k, v)]. *)
Fixpoint for_each {V} (items : list (string * V)) (body : string -> V -> M unit)
  : M unit :=
  match items with
  | [] => ret tt
  | (k, v) :: rest => body k v ;; for_each rest body
  end.

Definition add_timer (duration : Z) (label : option string) : M string :=
  now <- time_time ;;
  ts <- gets timers ;;
  let timer_id :=
    "timer_" ++ py_str (py_int now) ++ "_" ++ py_str (Z.of_nat (List.length ts)) in
  start_time <- time_time ;;
  end_time <- float_add_int start_time duration ;;
  modify (fun w =>
    with_timers w
      (dict_set timer_id (Timer.mk duration start_time end_time label None)
         (timers w))) ;;
  ret timer_id.

Definition add_alarm (hour minute day_offset : Z) (label : option string)
  : M string :=
  t <- time_time ;;
  al <- gets alarms ;;
  let alarm_id :=
    "alarm_" ++ py_str (py_int t) ++ "_" ++ py_str (Z.of_nat (List.length al)) in
  now <- datetime_now ;;
  delta <- timedelta_days day_offset ;;
  target_date <- date_add (datetime.date now) delta ;;
  '(h, m) <- datetime_time hour minute ;;
  let target_time := datetime.combine target_date h m in
  target_time <-
    (if datetime.ltb target_time now && (day_offset =? 0)%Z then
       delta <- timedelta_days 1 ;;
       target_date <- date_add (datetime.date now) delta ;;
       '(h, m) <- datetime_time hour minute ;;
       ret (datetime.combine target_date h m)
     else ret target_time) ;;
  modify (fun w =>
    with_alarms w
      (dict_set alarm_id (Alarm.mk hour minute day_offset target_time label None)
         (alarms w))) ;;
  ret alarm_id.

Definition cancel_timer (timer_id : option string) : M bool :=
  match timer_id with
  | None =>
      ts <- gets timers ;;
      for_each ts (fun tid timer => cancel_task (Timer.task timer)) ;;
      modify (fun w => with_timers w []) ;;
      ts' <- gets timers ;;
      ret (0 <? List.length ts')%nat
  | Some timer_id =>
      ts <- gets timers ;;
      match dict_get timer_id ts with
      | Some timer =>
          cancel_task (Timer.task timer) ;;
          del_timer timer_id ;;
          ret true
      | None => ret false
      end
  end.

Definition cancel_alarm (alarm_id : option string) : M bool :=
  match alarm_id with
  | None =>
      al <- gets alarms ;;
      for_each al (fun aid alarm => cancel_task (Alarm.task alarm)) ;;
      modify (fun w => with_alarms w []) ;;
      al' <- gets alarms ;;
      ret (0 <? List.length al')%nat
  | Some alarm_id =>
      al <- gets alarms ;;
      match dict_get alarm_id al with
      | Some alarm =>
          cancel_task (Alarm.task alarm) ;;
          del_alarm alarm_id ;;
          ret true
      | None => ret false
      end
  end.

(** The body of the loop of [get_timers], over the snapshot
    [list(self.timers.items())]; the clock is read once per entry. *)
Fixpoint get_timers_scan (items : list (string * Timer.t))
    (active_timers : dict Timer.t) : M (dict Timer.t) :=
  match items with
  | [] => ret active_timers
  | (timer_id, timer) :: rest =>
      now <- time_time ;;
      match (Timer.end_time timer ?= now)%Q with
      | Gt => get_timers_scan rest (dict_set timer_id timer active_timers)
      | _ =>
          cancel_task (Timer.task timer) ;;
          del_timer timer_id ;;
          get_timers_scan rest active_timers
      end
  end.

Definition get_timers : M (dict Timer.t) :=
  ts <- gets timers ;;
  get_timers_scan ts [].

Definition get_alarms : M (dict Alarm.t) := gets alarms.

(* ------------------------------------------------------------------ *)
(** ** Firing callbacks *)

Definition deliver (conn : Conn) (message : string) : M unit :=
  match send_stt_message conn message with
  | Some e => raise e
  | None => emit (SttMessage message)
  end.

Definition submit (conn : Conn) (method : ChatMethod) (message : string)
  : M unit :=
  match executor_submit conn method message with
  | Some e => raise e
  | None => emit (Submitted method message)
  end.

(** The [if hasattr(conn, 'websocket') and conn.websocket:] block shared
    by the two callbacks. *)
Definition notify (conn : Conn) (message : string) : M unit :=
  if has_websocket conn then
    deliver conn message ;;
    if use_function_call_mode conn
    then submit conn chat_with_function_calling message
    else submit conn chat message
  else ret tt.

(** The reminder texts built by the callbacks ([if label: ... else: ...]). *)
Definition timer_message (label : option string) : string :=
  match label with
  | Some (String c l) => "您设置的 " ++ String c l ++ " 计时器时间到了！"
  | _ => "您设置的计时器时间到了！"
  end.

Definition alarm_message (alarm : Alarm.t) (label : option string) : string :=
  match label with
  | Some (String c l) => "您设置的" ++ String c l ++ "闹钟时间到了！"
  | _ => "闹钟时间到了！现在是" ++ py_str (Alarm.hour alarm) ++ "点"
           ++ py_str (Alarm.minute alarm) ++ "分。"
  end.

Definition timer_callback (conn : Conn) (timer_id : string)
    (label : option string) : M unit :=
  try_except
    (ts <- gets timers ;;
     match dict_get timer_id ts with
     | Some timer =>
         let message := timer_message label in
         notify conn message ;;
         del_timer timer_id ;;
         logger_info ("计时器 " ++ timer_id ++ " 已触发: " ++ message)
     | None => ret tt
     end)
    (fun e => logger_error ("计时器回调出错: " ++ exn_str e)).

Definition alarm_callback (conn : Conn) (alarm_id : string)
    (label : option string) : M unit :=
  try_except
    (al <- gets alarms ;;
     match dict_get alarm_id al with
     | Some alarm =>
         let message := alarm_message alarm label in
         notify conn message ;;
         del_alarm alarm_id ;;
         logger_info ("闹钟 " ++ alarm_id ++ " 已触发: " ++ message)
     | None => ret tt
     end)
    (fun e => logger_error ("闹钟回调出错: " ++ exn_str e)).

(** The first step of a callback whose future was cancelled before the
    loop turned.  The loop starts the task all the same, and delivers the
    cancellation where the coroutine first waits, as a [CancelledError],
    which is not an [Exception]: no handler of the callback sees it.  The
    one place a callback can wait is its send.  When the send is not
    reached or does not wait, the whole callback has run before the
    cancellation arrives. *)
Definition timer_callback_cancelled (conn : Conn) (timer_id : string)
    (label : option string) : M unit :=
  ts <- gets timers ;;
  match dict_get timer_id ts with
  | Some timer =>
      if has_websocket conn && send_suspends conn
      then emit (SttInterrupted (timer_message label))
      else timer_callback conn timer_id label
  | None => timer_callback conn timer_id label
  end.

Definition alarm_callback_cancelled (conn : Conn) (alarm_id : string)
    (label : option string) : M unit :=
  al <- gets alarms ;;
  match dict_get alarm_id al with
  | Some alarm =>
      if has_websocket conn && send_suspends conn
      then emit (SttInterrupted (alarm_message alarm label))
      else alarm_callback conn alarm_id label
  | None => alarm_callback conn alarm_id label
  end.

(* ------------------------------------------------------------------ *)
(** ** Formatting *)

Definition nl : string := String "010"%char EmptyString.

Definition format_time_duration (seconds : Z) : string :=
  if (seconds <? 60)%Z then py_str seconds ++ "秒"
  else if (seconds <? 3600)%Z then
    let minutes := (seconds / 60)%Z in
    let seconds := (seconds mod 60)%Z in
    if (seconds =? 0)%Z then py_str minutes ++ "分钟"
    else py_str minutes ++ "分钟" ++ py_str seconds ++ "秒"
  else
    let hours := (seconds / 3600)%Z in
    let minutes := ((seconds mod 3600) / 60)%Z in
    let seconds := (seconds mod 60)%Z in
    if ((minutes =? 0) && (seconds =? 0))%Z then py_str hours ++ "小时"
    else if (seconds =? 0)%Z then py_str hours ++ "小时" ++ py_str minutes ++ "分钟"
    else py_str hours ++ "小时" ++ py_str minutes ++ "分钟" ++ py_str seconds ++ "秒".

Definition format_day_text (day_offset : Z) : string :=
  if (day_offset =? 0)%Z then "今天"
  else if (day_offset =? 1)%Z then "明天"
  else if (day_offset =? 2)%Z then "后天"
  else py_str day_offset ++ "天后".

(** [f"{label}"] for an optional string. *)
Definition fmt_opt (label : option string) : string :=
  match label with Some l => l | None => "None" end.

(** The value substituted for the [{label}] placeholder. *)
Definition label_or_empty (label : option string) : string :=
  match label with Some (String c l) => String c l | _ => "" end.

(** [f" ({label})" if label else ""]. *)
Definition label_text (label : option string) : string :=
  match label with Some (String c l) => " (" ++ String c l ++ ")" | _ => "" end.

(* ------------------------------------------------------------------ *)
(** ** Tool entry points: set_timer, set_alarm *)

Definition set_timer (conn : Conn) (duration : Z)
    (response_success response_failure : string) (label : option string)
  : M ActionResponse :=
  try_except
    (if (duration <=? 0)%Z then
       ret (mkActionResponse RESPONSE "无效的持续时间"
              "计时器的持续时间必须大于0秒。")
     else
       timer_id <- add_timer duration label ;;
       now <- time_time ;;
       end_time <- float_add_int now duration ;;
       end_time_str <- strftime_HMS end_time ;;
       let duration_text := format_time_duration duration in
       task <- run_coroutine_threadsafe (TimerCallback conn timer_id label) ;;
       start_sleeper_thread (inject_Z duration) ;;
       timer <- timers_item timer_id ;;
       modify (fun w =>
         with_timers w
           (dict_set timer_id (Timer.with_task timer (Some task)) (timers w))) ;;
       logger_info ("已设置计时器: " ++ timer_id ++ ", 持续时间: " ++ duration_text
                      ++ ", 标签: " ++ fmt_opt label) ;;
       let response := replace "{duration}" duration_text response_success in
       let response := replace "{end_time}" end_time_str response in
       let response :=
         if truthy label then replace "{label}" (label_or_empty label) response
         else replace "{label}" "" (replace "{label}" "" response) in
       ret (mkActionResponse RESPONSE ("计时器已设置: " ++ duration_text) response))
    (fun e =>
       logger_error ("设置计时器错误: " ++ exn_str e) ;;
       ret (mkActionResponse RESPONSE ("错误: " ++ exn_str e) response_failure)).

Definition set_alarm (conn : Conn) (hour minute : Z)
    (response_success response_failure : string) (day_offset : Z)
    (label : option string) : M ActionResponse :=
  try_except
    (if negb ((0 <=? hour) && (hour <=? 23))%Z then
       ret (mkActionResponse RESPONSE "无效的小时" "小时必须在0到23之间。")
     else if negb ((0 <=? minute) && (minute <=? 59))%Z then
       ret (mkActionResponse RESPONSE "无效的分钟" "分钟必须在0到59之间。")
     else if (day_offset <? 0)%Z then
       ret (mkActionResponse RESPONSE "无效的天数偏移" "天数偏移必须大于或等于0。")
     else
       alarm_id <- add_alarm hour minute day_offset label ;;
       alarm <- alarms_item alarm_id ;;
       now <- datetime_now ;;
       let time_diff := fl (datetime.diff_seconds (Alarm.time alarm) now) in
       task <- run_coroutine_threadsafe (AlarmCallback conn alarm_id label) ;;
       start_sleeper_thread time_diff ;;
       alarm <- alarms_item alarm_id ;;
       modify (fun w =>
         with_alarms w
           (dict_set alarm_id (Alarm.with_task alarm (Some task)) (alarms w))) ;;
       let time_str := fmt_02d hour ++ ":" ++ fmt_02d minute in
       let day_str := format_day_text day_offset in
       logger_info ("已设置闹钟: " ++ alarm_id ++ ", 时间: " ++ day_str ++ " "
                      ++ time_str ++ ", 标签: " ++ fmt_opt label) ;;
       let response := replace "{time}" time_str response_success in
       let response := replace "{day}" day_str response in
       let response :=
         if truthy label then replace "{label}" (label_or_empty label) response
         else replace "{label}" "" (replace "{label}" "" response) in
       ret (mkActionResponse RESPONSE ("闹钟已设置: " ++ day_str ++ " " ++ time_str)
              response))
    (fun e =>
       logger_error ("设置闹钟错误: " ++ exn_str e) ;;
       ret (mkActionResponse RESPONSE ("错误: " ++ exn_str e) response_failure)).

(* ------------------------------------------------------------------ *)
(** ** The connection's event loop *)

Definition run_coroutine (c : Coroutine) : M unit :=
  match c with
  | TimerCallback conn timer_id label => timer_callback conn timer_id label
  | AlarmCallback conn alarm_id label => alarm_callback conn alarm_id label
  end.

Definition run_cancelled (c : Coroutine) : M unit :=
  match c with
  | TimerCallback conn timer_id label => timer_callback_cancelled conn timer_id label
  | AlarmCallback conn alarm_id label => alarm_callback_cancelled conn alarm_id label
  end.

(** One turn of the loop on the future with handle [h].  A pending future
    runs its coroutine to the end and becomes finished.  A future
    cancelled before the loop turned has its task started and cancelled
    at its first wait.  A future the loop has already turned on is left
    alone.  Nothing in a future records a delay, so every pending future
    is runnable. *)
Definition loop_step (h : nat) : M unit :=
  fs <- gets futures ;;
  match nth_error fs h with
  | Some f =>
      match fstate f with
      | Pending =>
          run_coroutine (coro f) ;;
          modify (fun w =>
            with_futures w (list_update h (mkFuture (coro f) Finished) (futures w)))
      | Cancelled =>
          run_cancelled (coro f) ;;
          modify (fun w =>
            with_futures w
              (list_update h (mkFuture (coro f) CancelledStarted) (futures w)))
      | Finished | CancelledStarted => ret tt
      end
  | None => ret tt
  end.

(* ------------------------------------------------------------------ *)
(** ** Tool entry points: check_timers_alarms, cancel_timer_alarm *)

(** The loop over [enumerate(active_timers.items(), 1)]; the clock is
    read once per entry and an entry with nothing remaining is skipped
    (its number is used up all the same). *)
Fixpoint timer_listing (items : list (string * Timer.t)) (i : Z)
    (timer_text : string) : M string :=
  match items with
  | [] => ret timer_text
  | (timer_id, timer) :: rest =>
      now <- time_time ;;
      let remaining := float_sub (Timer.end_time timer) now in
      if Qle_bool remaining 0 then timer_listing rest (i + 1)%Z timer_text
      else
        let remaining_text := format_time_duration (py_int remaining) in
        end_time_str <- strftime_HMS (Timer.end_time timer) ;;
        timer_listing rest (i + 1)%Z
          (timer_text ++ py_str i ++ ". 剩余" ++ remaining_text
             ++ label_text (Timer.label timer) ++ "，将在" ++ end_time_str
             ++ "提醒" ++ nl)
  end.

(** The loop over [enumerate(alarms.items(), 1)]. *)
Fixpoint alarm_listing (items : list (string * Alarm.t)) (i : Z)
    (alarm_text : string) : M string :=
  match items with
  | [] => ret alarm_text
  | (alarm_id, alarm) :: rest =>
      let target_time := Alarm.time alarm in
      now <- datetime_now ;;
      let days_diff := (datetime.date target_time - datetime.date now)%Z in
      let day_text := format_day_text days_diff in
      let time_str := fmt_02d (Alarm.hour alarm) ++ ":" ++ fmt_02d (Alarm.minute alarm) in
      alarm_listing rest (i + 1)%Z
        (alarm_text ++ py_str i ++ ". " ++ day_text ++ " " ++ time_str
           ++ label_text (Alarm.label alarm) ++ nl)
  end.

Definition check_timers_alarms (conn : Conn) (check_type : string)
    (response_success response_failure : string) : M ActionResponse :=
  try_except
    (let result := [] in
     let summary_text := "" in
     '(result, summary_text) <-
       (if str_in check_type ["timer"; "all"] then
          active_timers <- get_timers ;;
          timer_text <-
            (match active_timers with
             | _ :: _ => timer_listing active_timers 1 ("当前计时器:" ++ nl)
             | [] => ret "没有正在进行的计时器。"
             end) ;;
          ret ((result ++ [timer_text])%list,
               summary_text ++ "计时器: "
                 ++ py_str (Z.of_nat (List.length active_timers)) ++ "个 ")
        else ret (result, summary_text)) ;;
     '(result, summary_text) <-
       (if str_in check_type ["alarm"; "all"] then
          alarms <- get_alarms ;;
          alarm_text <-
            (match alarms with
             | _ :: _ => alarm_listing alarms 1 ("当前闹钟:" ++ nl)
             | [] => ret "没有设置的闹钟。"
             end) ;;
          ret ((result ++ [alarm_text])%list,
               summary_text ++ "闹钟: "
                 ++ py_str (Z.of_nat (List.length alarms)) ++ "个")
        else ret (result, summary_text)) ;;
     match result with
     | [] =>
         ret (mkActionResponse RESPONSE "没有找到计时器或闹钟"
                "您当前没有设置任何计时器或闹钟。")
     | _ :: _ =>
         ret (mkActionResponse RESPONSE (strip summary_text)
                (join (nl ++ nl) result))
     end)
    (fun e =>
       logger_error ("查询计时器和闹钟错误: " ++ exn_str e) ;;
       ret (mkActionResponse RESPONSE ("错误: " ++ exn_str e) response_failure)).

(** [message += " "] when a first part is already there. *)
Definition spaced (message : string) : string :=
  match message with EmptyString => message | _ => message ++ " " end.

Definition cancel_timer_alarm (conn : Conn) (cancel_type : string)
    (response_success response_failure : string)
    (timer_id alarm_id : option string) : M ActionResponse :=
  try_except
    (let result := false in
     let message := "" in
     '(result, message) <-
       (if str_in cancel_type ["timer"; "all"] then
          active_timers <- get_timers ;;
          let timer_count := List.length active_timers in
          result <- cancel_timer timer_id ;;
          ret (result,
               if result then
                 if truthy timer_id then message ++ "已取消1个计时器。"
                 else message ++ "已取消所有计时器，共"
                        ++ py_str (Z.of_nat timer_count) ++ "个。"
               else if (timer_count =? 0)%nat then
                 message ++ "没有正在进行的计时器。"
               else message ++ "未找到指定的计时器。")
        else ret (result, message)) ;;
     '(result, message) <-
       (if str_in cancel_type ["alarm"; "all"] then
          alarms <- get_alarms ;;
          let alarm_count := List.length alarms in
          alarm_result <- cancel_alarm alarm_id ;;
          let result := result || alarm_result in
          ret (result,
               if alarm_result then
                 if truthy alarm_id then message ++ "已取消1个闹钟。"
                 else message ++ "已取消所有闹钟，共"
                        ++ py_str (Z.of_nat alarm_count) ++ "个。"
               else if (alarm_count =? 0)%nat then
                 spaced message ++ "没有设置的闹钟。"
               else spaced message ++ "未找到指定的闹钟。")
        else ret (result, message)) ;;
     if result then ret (mkActionResponse RESPONSE "取消成功" message)
     else ret (mkActionResponse RESPONSE "没有找到计时器或闹钟" message))
    (fun e =>
       logger_error ("取消计时器和闹钟错误: " ++ exn_str e) ;;
       ret (mkActionResponse RESPONSE ("错误: " ++ exn_str e) response_failure)).

(* ------------------------------------------------------------------ *)
(** ** Vocabulary of the statements *)

(** What [cancel_task] leaves of the futures. *)
Definition cancel_in (task : option nat) (fs : list Future) : list Future :=
  match task with
  | None => fs
  | Some h =>
      match nth_error fs h with
      | Some f => if done f then fs else list_update h (mkFuture (coro f) Cancelled) fs
      | None => fs
      end
  end.

Definition handle_eqb (task : option nat) (h : nat) : bool :=
  match task with Some h' => Nat.eqb h' h | None => false end.

(** The state of the future behind a handle. *)
Definition state_of (fs : list Future) (h : nat) : option FutureState :=
  option_map fstate (nth_error fs h).

(** The events of a trace that reach the user or the conversation. *)
Definition is_notification (e : Event) : bool :=
  match e with
  | SttMessage _ | Submitted _ _ => true
  | _ => false
  end.

Definition notifications (tr : list Event) : list Event :=
  filter is_notification tr.

(** The world after a computation, and its outcome. *)
Definition after {A} (m : M A) (w : World) : World := snd (m w).
Definition outcome {A} (m : M A) (w : World) : Outcome A := fst (m w).

(* ------------------------------------------------------------------ *)
(** ** Sample worlds *)

(** A clock that starts at epoch second 100 and advances an eighth of a
    second per reading, so that every reading is a binary64 value; local
    time is 08:00 on day 738000. *)
Definition sample_clock (n : nat) : Reading :=
  mkReading (100 + (Z.of_nat n # 8))%Q
    (datetime.mk 738000 8 0 0 (Z.of_nat n * 125000)).

(** A platform in the zone UTC whose [localtime] converts the instants
    of magnitude below [2^55] seconds. *)
Definition sample_localtime (t : Q) : Outcome (Z * Z * Z) :=
  if Qle_bool (inject_Z (2 ^ 55)) (Qabs t) then
    Raised (OSError "[Errno 75] Value too large for defined data type")
  else
    let s := Qfloor t in Ok ((s / 3600) mod 24, (s mod 3600) / 60, s mod 60)%Z.

Definition empty_world : World :=
  mkWorld [] [] [] [] sample_clock 0 sample_localtime.

(** A live connection, and one whose notification channel is closed. *)
Definition conn_up : Conn :=
  mkConn (Some true) false (fun _ => None) (fun _ _ => None) false.

Definition conn_closed : Conn :=
  mkConn (Some true) false
    (fun _ => Some (ConnectionError "connection closed")) (fun _ _ => None) false.

Definition conn_no_socket : Conn :=
  mkConn None false (fun _ => None) (fun _ _ => None) false.

(** Two running timers and one alarm, set through the entry points. *)
Definition busy_world : World := Eval vm_compute in
  after (set_timer conn_up 300 "" "" (Some "tea") ;;
         set_timer conn_up 600 "" "" None ;;
         set_alarm conn_up 7 0 "" "" 0 None) empty_world.

Definition tea_timer : Timer.t :=
  Timer.mk 300 (801 # 8) (3201 # 8) (Some "tea") (Some 0%nat).

(** The dates [add_alarm] computes exist: the offset is one a
    [timedelta] takes, today + day_offset is a date, and so is tomorrow
    where the target rolls over to it.  Otherwise [add_alarm] raises
    [OverflowError]. *)
Definition target_exists (now : datetime.t) (hour minute day_offset : Z) : bool :=
  (Z.abs day_offset <=? datetime.max_delta_days)%Z
  && datetime.in_range (datetime.date now + day_offset)
  && (negb (datetime.ltb
              (datetime.combine (datetime.date now + day_offset) hour minute) now
            && (day_offset =? 0)%Z)
      || datetime.in_range (datetime.date now + 1)).

(** What the [OverflowError] of [add_alarm] says. *)
Definition overflow_message (day_offset : Z) : string :=
  if (Z.abs day_offset <=? datetime.max_delta_days)%Z then "date value out of range"
  else if ((- 2 ^ 31 <=? day_offset) && (day_offset <? 2 ^ 31))%Z
       then "days=" ++ py_str day_offset ++ "; must have magnitude <= 999999999"
       else "Python int too large to convert to C int".

(** The response template after substitution. *)
Definition timer_response (response_success duration_text end_time_str : string)
    (label : option string) : string :=
  let response := replace "{duration}" duration_text response_success in
  let response := replace "{end_time}" end_time_str response in
  if truthy label then replace "{label}" (label_or_empty label) response
  else replace "{label}" "" (replace "{label}" "" response).

(* ------------------------------------------------------------------ *)
(** ** The scan of get_timers, as pure functions *)

(** The test [timer["end_time"] > time.time()] fails. *)
Definition is_expired (now : Q) (timer : Timer.t) : bool :=
  match (Timer.end_time timer ?= now)%Q with Gt => false | _ => true end.

(** The entries of a snapshot the scan keeps, and those it finds expired,
    when the first reading it takes is the [n]-th of the clock. *)
Fixpoint scan_active (clk : nat -> Reading) (n : nat)
    (items : list (string * Timer.t)) : list (string * Timer.t) :=
  match items with
  | [] => []
  | (k, t) :: rest =>
      if is_expired (epoch (clk n)) t then scan_active clk (S n) rest
      else (k, t) :: scan_active clk (S n) rest
  end.

Fixpoint scan_expired (clk : nat -> Reading) (n : nat)
    (items : list (string * Timer.t)) : list (string * Timer.t) :=
  match items with
  | [] => []
  | (k, t) :: rest =>
      if is_expired (epoch (clk n)) t then (k, t) :: scan_expired clk (S n) rest
      else scan_expired clk (S n) rest
  end.

Definition set_all (entries : list (string * Timer.t)) (d : dict Timer.t)
  : dict Timer.t :=
  fold_left (fun d kt => dict_set (fst kt) (snd kt) d) entries d.

Definition del_all (entries : list (string * Timer.t)) (d : dict Timer.t)
  : dict Timer.t :=
  fold_left (fun d kt => dict_del (fst kt) d) entries d.

Definition cancel_all (entries : list (string * Timer.t)) (fs : list Future)
  : list Future :=
  fold_left (fun fs kt => cancel_in (Timer.task (snd kt)) fs) entries fs.

(** One line of the timer listing: its number, the timer, and the clock
    reading its remaining time was computed from.  A timer whose end
    [localtime] does not convert has no line: the listing raises. *)
Definition timer_line (tm : Q -> Outcome (Z * Z * Z)) (line : Z * Timer.t * Q)
  : string :=
  let '(i, timer, now) := line in
  match tm (Timer.end_time timer) with
  | Ok (h, m, s) =>
      py_str i ++ ". 剩余"
        ++ format_time_duration (py_int (float_sub (Timer.end_time timer) now))
        ++ label_text (Timer.label timer) ++ "，将在"
        ++ (fmt_02d h ++ ":" ++ fmt_02d m ++ ":" ++ fmt_02d s) ++ "提醒" ++ nl
  | Raised _ => ""
  end.

(** The lines [timer_listing] writes for a snapshot. *)
Fixpoint listed (clk : nat -> Reading) (n : nat)
    (items : list (string * Timer.t)) (i : Z) : list (Z * Timer.t * Q) :=
  match items with
  | [] => []
  | (k, t) :: rest =>
      let now := epoch (clk n) in
      if Qle_bool (float_sub (Timer.end_time t) now) 0 then listed clk (S n) rest (i + 1)
      else (i, t, now) :: listed clk (S n) rest (i + 1)
  end.

(** The exception of the first line whose end [localtime] does not
    convert, where the listing stops. *)
Fixpoint first_unconverted (tm : Q -> Outcome (Z * Z * Z))
    (lines : list (Z * Timer.t * Q)) : option Exn :=
  match lines with
  | [] => None
  | (i, timer, now) :: rest =>
      match tm (Timer.end_time timer) with
      | Ok _ => first_unconverted tm rest
      | Raised e => Some e
      end
  end.

(** The concatenation of the lines of a listing. *)
Fixpoint lines_text (lines : list string) : string :=
  match lines with
  | [] => ""
  | l :: rest => l ++ lines_text rest
  end.

(** A world whose clock has long passed the end of its one timer, set on
    a connection that had closed: the callback ran, failed to deliver,
    and left the entry. *)
Definition late_clock (n : nat) : Reading :=
  mkReading (if (n <? 3)%nat then 100 + (Z.of_nat n # 8) else 500 + (Z.of_nat n # 8))%Q
    (datetime.mk 738000 8 (if (n <? 3)%nat then 0 else 6) 0 (Z.of_nat n * 125000)).

Definition stale_world : World := Eval vm_compute in
  after (set_timer conn_closed 5 "" "" (Some "tea") ;;
         loop_step 0 ;;
         set_timer conn_up 600 "" "" (Some "eggs") ;;
         set_alarm conn_up 7 0 "" "" 0 None)
    (mkWorld [] [] [] [] late_clock 0 sample_localtime).

(** A world in which a timer of 2^60 seconds was asked for, on a platform
    whose [localtime] does not convert its end: the entry is registered,
    without a task. *)
Definition unconverted_world : World := Eval vm_compute in
  after (set_timer conn_up (2 ^ 60) "ok" "failed" (Some "tea")) empty_world.

(** A world in which tea was set and cancelled before the loop turned,
    and eggs then got the same id. *)
Definition reused_world : World := Eval vm_compute in
  after (set_timer conn_up 300 "" "" (Some "tea") ;;
         cancel_timer (Some "timer_100_0") ;;
         set_timer conn_up 600 "" "" (Some "eggs")) empty_world.

(* ------------------------------------------------------------------ *)
(** ** Vocabulary of the further statements *)

(** The character occurs in the string. *)
Fixpoint str_mem (c : ascii) (s : string) : bool :=
  match s with
  | EmptyString => false
  | String a rest => Ascii.eqb c a || str_mem c rest
  end.

(** The characters [str] produces for an integer. *)
Definition is_int_char (a : ascii) : bool :=
  existsb (Ascii.eqb a)
    ["0"; "1"; "2"; "3"; "4"; "5"; "6"; "7"; "8"; "9"; "-"]%char.

Fixpoint str_forall (p : ascii -> bool) (s : string) : bool :=
  match s with
  | EmptyString => true
  | String a rest => p a && str_forall p rest
  end.

(** The second and the count an id is built from. *)
Definition timer_id_of (second : Z) (count : nat) : string :=
  "timer_" ++ py_str second ++ "_" ++ py_str (Z.of_nat count).

Definition alarm_id_of (second : Z) (count : nat) : string :=
  "alarm_" ++ py_str second ++ "_" ++ py_str (Z.of_nat count).

(** What holds of every registered timer: a positive duration that a
    float holds, an end that is the binary64 sum of start and duration,
    and, unless [set_timer] failed after registering it and left it
    without a task, a firing handle to a future of the loop whose
    coroutine is the timer callback for this very id and label. *)
Definition timer_inv (fs : list Future) (id : string) (t : Timer.t) : Prop :=
  (0 < Timer.duration t)%Z
  /\ float_range (Timer.duration t) = true
  /\ Timer.end_time t = fl (Timer.start_time t + fl (inject_Z (Timer.duration t)))
  /\ (Timer.task t = None
      \/ exists h f conn,
           Timer.task t = Some h /\ nth_error fs h = Some f
           /\ coro f = TimerCallback conn id (Timer.label t)).

(** What holds of every registered alarm: fields in range, a target at
    hour:minute sharp on a date of the calendar, and a firing handle to
    the alarm callback for this id and label. *)
Definition alarm_inv (fs : list Future) (id : string) (a : Alarm.t) : Prop :=
  (0 <= Alarm.hour a <= 23)%Z /\ (0 <= Alarm.minute a <= 59)%Z
  /\ (0 <= Alarm.day_offset a <= datetime.max_delta_days)%Z
  /\ datetime.in_range (datetime.date (Alarm.time a)) = true
  /\ datetime.hour (Alarm.time a) = Alarm.hour a
  /\ datetime.minute (Alarm.time a) = Alarm.minute a
  /\ datetime.second (Alarm.time a) = 0%Z
  /\ datetime.microsecond (Alarm.time a) = 0%Z
  /\ exists h f conn,
       Alarm.task a = Some h /\ nth_error fs h = Some f
       /\ coro f = AlarmCallback conn id (Alarm.label a).

Definition registry_inv (w : World) : Prop :=
  dict_wf (timers w) /\ dict_wf (alarms w)
  /\ (forall id t, dict_get id (timers w) = Some t -> timer_inv (futures w) id t)
  /\ (forall id a, dict_get id (alarms w) = Some a -> alarm_inv (futures w) id a).

(** A computation keeps a property of the world, whether it returns or
    raises. *)
Definition keeps (P : World -> Prop) {A} (m : M A) : Prop :=
  forall w, P w -> P (snd (m w)).

(** The futures of [fs] are still there in [fs'], with their coroutines. *)
Definition futures_extend (fs fs' : list Future) : Prop :=
  forall h f, nth_error fs h = Some f ->
              exists f', nth_error fs' h = Some f' /\ coro f' = coro f.

(** What the process can be asked to do: the four tools, and a turn of
    the connection's loop on one future. *)
Inductive Op :=
| OpSetTimer (conn : Conn) (duration : Z)
    (response_success response_failure : string) (label : option string)
| OpSetAlarm (conn : Conn) (hour minute : Z)
    (response_success response_failure : string) (day_offset : Z)
    (label : option string)
| OpCheck (conn : Conn) (check_type response_success response_failure : string)
| OpCancel (conn : Conn) (cancel_type response_success response_failure : string)
    (timer_id alarm_id : option string)
| OpLoopStep (h : nat).

Definition step (w : World) (op : Op) : World :=
  match op with
  | OpSetTimer conn duration rs rf label =>
      after (set_timer conn duration rs rf label) w
  | OpSetAlarm conn hour minute rs rf day_offset label =>
      after (set_alarm conn hour minute rs rf day_offset label) w
  | OpCheck conn check_type rs rf =>
      after (check_timers_alarms conn check_type rs rf) w
  | OpCancel conn cancel_type rs rf timer_id alarm_id =>
      after (cancel_timer_alarm conn cancel_type rs rf timer_id alarm_id) w
  | OpLoopStep h => after (loop_step h) w
  end.

Definition run (ops : list Op) (w : World) : World := fold_left step ops w.

(** A live connection whose executor refuses work. *)
Definition conn_submit_fails : Conn :=
  mkConn (Some true) false (fun _ => None)
    (fun _ _ => Some (ConnectionError "executor shut down")) false.

(** A freshly started process. *)
Definition fresh_world (clk : nat -> Reading) (tm : Q -> Outcome (Z * Z * Z)) : World :=
  mkWorld [] [] [] [] clk 0 tm.

(** The alarm template after substitution. *)
Definition alarm_response (response_success time_str day_str : string)
    (label : option string) : string :=
  let response := replace "{time}" time_str response_success in
  let response := replace "{day}" day_str response in
  if truthy label then replace "{label}" (label_or_empty label) response
  else replace "{label}" "" (replace "{label}" "" response).

(** One line of the alarm listing, and the lines [alarm_listing] writes
    for a snapshot when its first reading is the [n]-th of the clock. *)
Definition alarm_line (line : Z * Alarm.t * datetime.t) : string :=
  let '(i, alarm, now) := line in
  py_str i ++ ". "
    ++ format_day_text (datetime.date (Alarm.time alarm) - datetime.date now)
    ++ " " ++ (fmt_02d (Alarm.hour alarm) ++ ":" ++ fmt_02d (Alarm.minute alarm))
    ++ label_text (Alarm.label alarm) ++ nl.

Fixpoint alarm_lines (clk : nat -> Reading) (n : nat)
    (items : list (string * Alarm.t)) (i : Z) : list (Z * Alarm.t * datetime.t) :=
  match items with
  | [] => []
  | (k, a) :: rest =>
      (i, a, local_now (clk n)) :: alarm_lines clk (S n) rest (i + 1)
  end.

(* ================================================================== *)
(** * Rounding *)

Lemma round_half_even_near (q : Q) :
  (q - (1 # 2) <= inject_Z (round_half_even q) <= q + (1 # 2))%Q.
Proof.
  unfold round_half_even.
  pose proof (Qfloor_le q) as Hlo. pose proof (Qlt_floor q) as Hhi.
  rewrite inject_Z_plus in Hhi. change (inject_Z 1) with 1%Q in Hhi.
  destruct (Qcompare (q - inject_Z (Qfloor q)) (1 # 2)) eqn:E.
  - apply Qeq_alt in E. destruct (Z.even (Qfloor q));
      rewrite ?inject_Z_plus; change (inject_Z 1) with 1%Q; lra.
  - apply Qlt_alt in E. lra.
  - apply Qgt_alt in E. rewrite inject_Z_plus. change (inject_Z 1) with 1%Q. lra.
Qed.

Lemma round_half_even_nonpos (q : Q) :
  (q <= 0)%Q -> (round_half_even q <= 0)%Z.
Proof.
  intros Hq. pose proof (round_half_even_near q) as [_ Hhi].
  assert (H : (inject_Z (round_half_even q) < inject_Z 1)%Q)
    by (change (inject_Z 1) with 1%Q; lra).
  rewrite <- Zlt_Qlt in H. lia.
Qed.

Lemma round_half_even_nonneg (q : Q) :
  (0 <= q)%Q -> (0 <= round_half_even q)%Z.
Proof.
  intros Hq. pose proof (round_half_even_near q) as [Hlo _].
  assert (H : (inject_Z (-1) < inject_Z (round_half_even q))%Q)
    by (change (inject_Z (-1)) with (-1)%Q; lra).
  rewrite <- Zlt_Qlt in H. lia.
Qed.

Lemma pow2_pos (k : Z) : (0 < 2 ^ k)%Q.
Proof. now apply Qpower_0_lt. Qed.

(** Rounding keeps the sign, in the wide sense. *)
Lemma fl_nonpos (q : Q) : (q <= 0)%Q -> (fl q <= 0)%Q.
Proof.
  intros Hq. unfold fl. destruct (Qeq_bool q 0); [lra|].
  set (k := (Z.max (ilog2 q) (-1022) - 52)%Z).
  rewrite Qred_correct. pose proof (pow2_pos k) as Hk.
  assert (Hd : (q / 2 ^ k <= 0)%Q).
  { unfold Qdiv. rewrite <- (Qmult_0_l (/ 2 ^ k)).
    apply Qmult_le_compat_r; [exact Hq|]. apply Qlt_le_weak. now apply Qinv_lt_0_compat. }
  apply round_half_even_nonpos in Hd.
  rewrite Zle_Qle in Hd.
  setoid_replace 0%Q with (0 * 2 ^ k)%Q by ring.
  apply Qmult_le_compat_r; [exact Hd | lra].
Qed.

Lemma fl_nonneg (q : Q) : (0 <= q)%Q -> (0 <= fl q)%Q.
Proof.
  intros Hq. unfold fl. destruct (Qeq_bool q 0); [lra|].
  set (k := (Z.max (ilog2 q) (-1022) - 52)%Z).
  rewrite Qred_correct. pose proof (pow2_pos k) as Hk.
  assert (Hd : (0 <= q / 2 ^ k)%Q).
  { unfold Qdiv. rewrite <- (Qmult_0_l (/ 2 ^ k)).
    apply Qmult_le_compat_r; [exact Hq|]. apply Qlt_le_weak. now apply Qinv_lt_0_compat. }
  apply round_half_even_nonneg in Hd.
  rewrite Zle_Qle in Hd.
  setoid_replace 0%Q with (0 * 2 ^ k)%Q by ring.
  apply Qmult_le_compat_r; [exact Hd | lra].
Qed.

Lemma pow2_inject (n : Z) : (0 <= n)%Z -> 2 ^ n == inject_Z (2 ^ n).
Proof. intros Hn. symmetry. now apply (Zpower_Qpower 2 n). Qed.

Lemma ilog2_le (q : Q) : ~ q == 0 -> 2 ^ ilog2 q <= Qabs q.
Proof.
  intros Hq. unfold ilog2.
  set (n := Z.abs (Qnum q)). set (d := Zpos (Qden q)).
  destruct (Qle_bool (2 ^ (Z.log2 n - Z.log2 d)) (Qabs q)) eqn:E.
  - now apply Qle_bool_iff.
  - clear E.
    assert (Hn : (0 < n)%Z).
    { subst n. destruct q as [[|p|p] dq]; cbn; try lia. exfalso. apply Hq. reflexivity. }
    assert (Hd : (0 < d)%Z) by (subst d; lia).
    pose proof (Z.log2_spec n Hn) as [Hn1 _].
    pose proof (Z.log2_spec d Hd) as [_ Hd2].
    pose proof (Z.log2_nonneg n) as Ha. pose proof (Z.log2_nonneg d) as Hb.
    replace (Z.log2 n - Z.log2 d - 1)%Z with (Z.log2 n - Z.succ (Z.log2 d))%Z by lia.
    rewrite Qpower_minus by discriminate.
    rewrite (pow2_inject (Z.log2 n)) by lia.
    rewrite (pow2_inject (Z.succ (Z.log2 d))) by lia.
    set (A := (2 ^ Z.log2 n)%Z) in *. set (B := (2 ^ Z.succ (Z.log2 d))%Z) in *.
    assert (HB : (0 < B)%Z) by lia.
    apply Qle_shift_div_r.
    + change 0 with (inject_Z 0). now rewrite <- Zlt_Qlt.
    + destruct q as [qn qd]. unfold Qabs, Qle, Qmult, inject_Z. cbn.
      subst n d. cbn in *. nia.
Qed.

Lemma fl_value (q : Q) :
  ~ q == 0 ->
  let k := (Z.max (ilog2 q) (-1022) - 52)%Z in
  fl q == inject_Z (round_half_even (q / 2 ^ k)) * 2 ^ k.
Proof.
  intros Hq k. unfold fl.
  destruct (Qeq_bool q 0) eqn:E; [apply Qeq_bool_iff in E; contradiction|].
  apply Qred_correct.
Qed.

Lemma ulp_le (q : Q) :
  ~ q == 0 ->
  2 ^ (Z.max (ilog2 q) (-1022) - 52) <= Qabs q \/ Z.max (ilog2 q) (-1022) = (-1022)%Z.
Proof.
  intros Hq. destruct (Z.max_spec (ilog2 q) (-1022)) as [[Hlt ->]|[Hle ->]].
  - now right.
  - left. apply Qle_trans with (2 ^ ilog2 q); [|now apply ilog2_le].
    apply Qpower_le_compat_l; [lia | lra].
Qed.

(** A positive number a float can tell from zero rounds to a positive
    float. *)
Lemma fl_pos (q : Q) : 2 ^ (-1074) <= q -> 0 < fl q.
Proof.
  intros Hq. pose proof (pow2_pos (-1074)) as Hmin.
  assert (Hne : ~ q == 0) by lra.
  rewrite (fl_value q Hne). cbv zeta.
  set (k := (Z.max (ilog2 q) (-1022) - 52)%Z).
  pose proof (pow2_pos k) as Hk.
  assert (Hle : 2 ^ k <= q).
  { destruct (ulp_le q Hne) as [H|H].
    - fold k in H. rewrite Qabs_pos in H by lra. exact H.
    - subst k. rewrite H. exact Hq. }
  assert (Hdiv : 1 <= q / 2 ^ k).
  { apply Qle_shift_div_l; [exact Hk | lra]. }
  pose proof (round_half_even_near (q / 2 ^ k)) as [Hlo _].
  assert (Hm : (0 < round_half_even (q / 2 ^ k))%Z).
  { rewrite Zlt_Qlt. change (inject_Z 0) with 0. lra. }
  rewrite Zlt_Qlt in Hm. change (inject_Z 0) with 0 in Hm.
  apply Qmult_lt_0_compat; assumption.
Qed.

(** The error of a rounding: half a unit in the last place. *)
Lemma fl_error (q : Q) :
  Qabs (fl q - q) <= Qabs q * 2 ^ (-53) + 2 ^ (-1075).
Proof.
  pose proof (pow2_pos (-53)) as H53. pose proof (pow2_pos (-1075)) as H1075.
  pose proof (Qabs_nonneg q) as Hq0.
  destruct (Qeq_dec q 0) as [Hz|Hne].
  - assert (E : fl q == 0).
    { unfold fl. destruct (Qeq_bool q 0) eqn:E; [reflexivity|].
      apply Qeq_bool_neq in E. contradiction. }
    rewrite E, Hz. setoid_replace (0 - 0) with 0 by ring.
    change (Qabs 0) with 0. nra.
  - rewrite (fl_value q Hne). cbv zeta.
    set (k := (Z.max (ilog2 q) (-1022) - 52)%Z).
    pose proof (pow2_pos k) as Hk.
    pose proof (round_half_even_near (q / 2 ^ k)) as [Hlo Hhi].
    set (m := inject_Z (round_half_even (q / 2 ^ k))) in *.
    assert (Hq : q == (q / 2 ^ k) * 2 ^ k) by (field; lra).
    assert (Herr : Qabs (m * 2 ^ k - q) <= 2 ^ k * (1 # 2)).
    { apply Qabs_Qle_condition. split.
      - rewrite Hq at 1. nra.
      - rewrite Hq at 1. nra. }
    apply Qle_trans with (1 := Herr).
    destruct (Z.max_spec (ilog2 q) (-1022)) as [[Hlt E]|[Hle E]].
    + assert (Ek : 2 ^ k * (1 # 2) == 2 ^ (-1075)).
      { subst k. rewrite E. reflexivity. }
      rewrite Ek. nra.
    + assert (Ek : 2 ^ k * (1 # 2) == 2 ^ ilog2 q * 2 ^ (-53)).
      { subst k. rewrite E.
        replace (ilog2 q - 52)%Z with (ilog2 q + (-52))%Z by lia.
        rewrite Qpower_plus by discriminate.
        setoid_replace (2 ^ (-53)) with (2 ^ (-52) * (1 # 2)) by reflexivity.
        ring. }
      rewrite Ek. pose proof (ilog2_le q Hne). nra.
Qed.

(** A difference of floats that comes out positive is positive. *)
Lemma float_sub_pos (x y : Q) : (0 < float_sub x y)%Q -> (y < x)%Q.
Proof.
  unfold float_sub. intros H. apply Qnot_le_lt. intros Hle.
  assert (Hd : (x - y <= 0)%Q) by lra.
  apply fl_nonpos in Hd. lra.
Qed.

(** The end of a timer is its start plus its duration, up to the two
    roundings of the sum. *)
Lemma float_sum_error (s : Q) (d : Z) :
  (0 < d)%Z ->
  (Qabs (fl (s + fl (inject_Z d)) - s - inject_Z d)
   <= (Qabs s + 3 * inject_Z d + 1) * 2 ^ (-53))%Q.
Proof.
  intros Hd.
  assert (Hd0 : (0 < inject_Z d)%Q)
    by (change 0%Q with (inject_Z 0); now rewrite <- Zlt_Qlt).
  pose proof (fl_error (inject_Z d)) as H1.
  pose proof (fl_error (s + fl (inject_Z d))) as H2.
  pose proof (Qabs_triangle s (fl (inject_Z d))) as H3.
  rewrite (Qabs_pos (inject_Z d)) in H1 by lra.
  assert (Hu : (0 < 2 ^ (-53) <= 1)%Q) by (split; [reflexivity | discriminate]).
  assert (He : (0 < 2 ^ (-1075) /\ 3 * 2 ^ (-1075) <= 2 ^ (-53))%Q)
    by (split; [reflexivity | discriminate]).
  set (u := (2 ^ (-53))%Q) in *. set (eta := (2 ^ (-1075))%Q) in *.
  set (x := fl (inject_Z d)) in *. set (y := fl (s + x)) in *.
  pose proof (Qabs_nonneg s) as Hs0.
  assert (Hx : (Qabs x <= inject_Z d + inject_Z d * u + eta)%Q).
  { apply Qabs_Qle_condition. apply Qabs_Qle_condition in H1. lra. }
  apply Qabs_Qle_condition in H1. apply Qabs_Qle_condition in H2.
  set (ax := Qabs x) in *. set (asx := Qabs (s + x)) in *. set (as' := Qabs s) in *.
  apply Qabs_Qle_condition. split; nra.
Qed.

(* ================================================================== *)
(** * Facts about dictionaries *)

Section DictFacts.
Context {V : Type}.
Implicit Types (d : dict V) (k : string) (v : V).

Lemma dict_get_set_same k v d : dict_get k (dict_set k v d) = Some v.
Proof.
  induction d as [|[k' v'] d IH]; simpl.
  - now rewrite String.eqb_refl.
  - destruct (String.eqb k k') eqn:E; simpl; rewrite ?String.eqb_refl; auto.
    now rewrite E.
Qed.

Lemma dict_get_set_other k k' v d :
  k' <> k -> dict_get k' (dict_set k v d) = dict_get k' d.
Proof.
  intros Hne. induction d as [|[k0 v0] d IH]; simpl.
  - destruct (String.eqb k' k) eqn:E; auto.
    apply String.eqb_eq in E. contradiction.
  - destruct (String.eqb k k0) eqn:E; simpl.
    + apply String.eqb_eq in E. subst k0.
      destruct (String.eqb k' k) eqn:E'; auto.
      apply String.eqb_eq in E'. contradiction.
    + destruct (String.eqb k' k0); auto.
Qed.

Lemma dict_get_del_same k d : dict_get k (dict_del k d) = None.
Proof.
  induction d as [|[k' v'] d IH]; simpl; auto.
  destruct (String.eqb k k') eqn:E; simpl; auto.
  now rewrite E.
Qed.

Lemma dict_get_del_other k k' d :
  k' <> k -> dict_get k' (dict_del k d) = dict_get k' d.
Proof.
  intros Hne. induction d as [|[k0 v0] d IH]; simpl; auto.
  destruct (String.eqb k k0) eqn:E; simpl.
  - apply String.eqb_eq in E. subst k0.
    destruct (String.eqb k' k) eqn:E'; auto.
    apply String.eqb_eq in E'. contradiction.
  - destruct (String.eqb k' k0); auto.
Qed.

Lemma dict_get_In k v d : dict_get k d = Some v -> In (k, v) d.
Proof.
  induction d as [|[k' v'] d IH]; simpl; [discriminate|].
  destruct (String.eqb k k') eqn:E.
  - apply String.eqb_eq in E. intros [= ->]. subst. now left.
  - intros H. right. auto.
Qed.

Lemma dict_get_None_keys k d : dict_get k d = None <-> ~ In k (dict_keys d).
Proof.
  induction d as [|[k' v'] d IH]; simpl.
  - tauto.
  - destruct (String.eqb k k') eqn:E.
    + apply String.eqb_eq in E. subst. split; [discriminate|]. tauto.
    + apply String.eqb_neq in E. rewrite IH. split.
      * intros H [H1|H1]; [congruence|tauto].
      * tauto.
Qed.

Lemma In_dict_get k v d : dict_wf d -> In (k, v) d -> dict_get k d = Some v.
Proof.
  unfold dict_wf. induction d as [|[k' v'] d IH]; simpl; [tauto|].
  intros Hnd [H|H].
  - injection H as -> ->. now rewrite String.eqb_refl.
  - inversion Hnd as [|? ? Hni Hnd']; subst.
    destruct (String.eqb k k') eqn:E; auto.
    apply String.eqb_eq in E. subst k'.
    exfalso. apply Hni. change k with (fst (k, v)). now apply in_map.
Qed.

Lemma dict_del_absent k d : dict_get k d = None -> dict_del k d = d.
Proof.
  induction d as [|[k' v'] d IH]; simpl; auto.
  destruct (String.eqb k k') eqn:E; [discriminate|].
  simpl. intros H. now rewrite IH.
Qed.

Lemma dict_set_length_fresh k v d :
  dict_get k d = None -> List.length (dict_set k v d) = S (List.length d).
Proof.
  induction d as [|[k' v'] d IH]; simpl; auto.
  destruct (String.eqb k k') eqn:E; [discriminate|].
  simpl. intros H. now rewrite IH.
Qed.

Lemma dict_set_length_present k v v0 d :
  dict_get k d = Some v0 -> List.length (dict_set k v d) = List.length d.
Proof.
  induction d as [|[k' v'] d IH]; simpl; [discriminate|].
  destruct (String.eqb k k') eqn:E; simpl; auto.
Qed.

Lemma dict_keys_del k d :
  dict_keys (dict_del k d) = filter (fun k' => negb (String.eqb k k')) (dict_keys d).
Proof.
  induction d as [|[k' v'] d IH]; simpl; auto.
  destruct (String.eqb k k'); simpl; now rewrite IH.
Qed.

Lemma dict_wf_del k d : dict_wf d -> dict_wf (dict_del k d).
Proof.
  unfold dict_wf. rewrite dict_keys_del. apply NoDup_filter.
Qed.

Lemma dict_keys_set_present k v d :
  In k (dict_keys d) -> dict_keys (dict_set k v d) = dict_keys d.
Proof.
  induction d as [|[k' v'] d IH]; simpl; [tauto|].
  destruct (String.eqb k k') eqn:E; simpl.
  - apply String.eqb_eq in E. now subst.
  - apply String.eqb_neq in E. intros [H|H]; [congruence|]. now rewrite IH.
Qed.

Lemma dict_keys_set_fresh k v d :
  ~ In k (dict_keys d) -> dict_keys (dict_set k v d) = (dict_keys d ++ [k])%list.
Proof.
  induction d as [|[k' v'] d IH]; simpl; auto.
  destruct (String.eqb k k') eqn:E; simpl.
  - apply String.eqb_eq in E. subst. tauto.
  - intros H. rewrite IH; tauto.
Qed.

(** Assignment keeps the keys of a dictionary pairwise distinct. *)
Lemma dict_wf_set k v d : dict_wf d -> dict_wf (dict_set k v d).
Proof.
  unfold dict_wf. intros Hnd.
  destruct (in_dec string_dec k (dict_keys d)) as [Hin|Hni].
  - now rewrite dict_keys_set_present.
  - rewrite dict_keys_set_fresh by assumption.
    apply NoDup_app; auto.
    + constructor; [tauto | constructor].
    + intros x Hx [<-|[]]. tauto.
Qed.
End DictFacts.

(* ================================================================== *)
(** * Facts about the primitive operations *)

(** Run the straight-line part of a monadic computation. *)
Ltac mrun :=
  repeat (progress
    (unfold bind, gets, modify, ret, raise, time_time, datetime_now, strftime_HMS,
       run_coroutine_threadsafe, start_sleeper_thread, logger_info, logger_error,
       emit, timers_item, alarms_item, with_timers, with_alarms, with_ticks,
       with_futures, with_trace;
     cbn [fst snd timers alarms futures trace clock ticks localtime])).

Lemma with_futures_id w : with_futures w (futures w) = w.
Proof. now destruct w. Qed.

Lemma cancel_task_run task w :
  cancel_task task w = (Ok tt, with_futures w (cancel_in task (futures w))).
Proof.
  unfold cancel_task, cancel_in.
  destruct task as [h|]; unfold ret, bind, gets, modify; simpl.
  - destruct (nth_error (futures w) h) as [f|]; simpl;
      [destruct (done f)|]; simpl; now rewrite ?with_futures_id.
  - now rewrite with_futures_id.
Qed.

Lemma del_timer_present timer_id timer w :
  dict_get timer_id (timers w) = Some timer ->
  del_timer timer_id w = (Ok tt, with_timers w (dict_del timer_id (timers w))).
Proof.
  intros H. unfold del_timer, timers_item, bind, gets, modify, ret. simpl.
  now rewrite H.
Qed.

Lemma del_alarm_present alarm_id alarm w :
  dict_get alarm_id (alarms w) = Some alarm ->
  del_alarm alarm_id w = (Ok tt, with_alarms w (dict_del alarm_id (alarms w))).
Proof.
  intros H. unfold del_alarm, alarms_item, bind, gets, modify, ret. simpl.
  now rewrite H.
Qed.

Lemma nth_error_list_update_other {A} (i j : nat) (x : A) (l : list A) :
  i <> j -> nth_error (list_update i x l) j = nth_error l j.
Proof.
  revert i j. induction l as [|y l IH]; intros [|i] [|j] Hne; simpl; auto;
    congruence.
Qed.

Lemma nth_error_list_update_same {A} (i : nat) (x y : A) (l : list A) :
  nth_error l i = Some y -> nth_error (list_update i x l) i = Some x.
Proof.
  revert i. induction l as [|z l IH]; intros [|i]; simpl; try discriminate; auto.
Qed.

(** Cancelling a handle touches no other handle. *)
Lemma cancel_in_other task fs h :
  task <> Some h -> nth_error (cancel_in task fs) h = nth_error fs h.
Proof.
  intros Hne. unfold cancel_in. destruct task as [h'|]; auto.
  destruct (nth_error fs h') as [f|] eqn:E; auto.
  destruct (done f); auto.
  apply nth_error_list_update_other. congruence.
Qed.

(** A pending future behind the cancelled handle becomes cancelled; any
    other state stays what it was. *)
Lemma cancel_in_state task fs h :
  state_of (cancel_in task fs) h =
    match state_of fs h with
    | Some Pending => Some (if handle_eqb task h then Cancelled else Pending)
    | s => s
    end.
Proof.
  unfold state_of, handle_eqb. destruct task as [h'|].
  - destruct (Nat.eqb h' h) eqn:E.
    + apply Nat.eqb_eq in E. subst h'. unfold cancel_in.
      destruct (nth_error fs h) as [f|] eqn:Ef; simpl.
      * unfold done. destruct (fstate f) eqn:Es; simpl; rewrite ?Ef; simpl;
          rewrite ?Es; auto.
        now rewrite (nth_error_list_update_same _ _ f).
      * now rewrite Ef.
    + apply Nat.eqb_neq in E. rewrite cancel_in_other by congruence.
      destruct (nth_error fs h) as [f|]; simpl; auto. now destruct (fstate f).
  - simpl. destruct (nth_error fs h) as [f|]; simpl; auto. now destruct (fstate f).
Qed.

(** Running a list of cancellations. *)
Lemma for_each_cancel {V} (task_of : V -> option nat) (items : list (string * V)) w :
  for_each items (fun _ v => cancel_task (task_of v)) w =
    (Ok tt,
     with_futures w
       (fold_left (fun fs kv => cancel_in (task_of (snd kv)) fs) items (futures w))).
Proof.
  revert w. induction items as [|[k v] items IH]; intros w; simpl.
  - unfold ret. now rewrite with_futures_id.
  - unfold bind. rewrite cancel_task_run. rewrite IH. now destruct w.
Qed.

(* ================================================================== *)
(** * Cancelling one entry by id *)

Lemma cancel_timer_present id timer w :
  dict_get id (timers w) = Some timer ->
  cancel_timer (Some id) w =
    (Ok true,
     with_timers (with_futures w (cancel_in (Timer.task timer) (futures w)))
       (dict_del id (timers w))).
Proof.
  intros H. unfold cancel_timer, bind, gets, ret. simpl. rewrite H.
  rewrite cancel_task_run.
  now rewrite (del_timer_present id timer) by exact H.
Qed.

Lemma cancel_timer_absent id w :
  dict_get id (timers w) = None -> cancel_timer (Some id) w = (Ok false, w).
Proof.
  intros H. unfold cancel_timer, bind, gets, ret. simpl. now rewrite H.
Qed.

Lemma cancel_alarm_present id alarm w :
  dict_get id (alarms w) = Some alarm ->
  cancel_alarm (Some id) w =
    (Ok true,
     with_alarms (with_futures w (cancel_in (Alarm.task alarm) (futures w)))
       (dict_del id (alarms w))).
Proof.
  intros H. unfold cancel_alarm, bind, gets, ret. simpl. rewrite H.
  rewrite cancel_task_run.
  now rewrite (del_alarm_present id alarm) by exact H.
Qed.

Lemma cancel_alarm_absent id w :
  dict_get id (alarms w) = None -> cancel_alarm (Some id) w = (Ok false, w).
Proof.
  intros H. unfold cancel_alarm, bind, gets, ret. simpl. now rewrite H.
Qed.

(** C8.  Cancelling a timer (an alarm) by an id the registry holds returns
    [True], removes that id, leaves the lookup of every other id, the
    dictionary of the other kind and every future but the entry's own as
    they were; cancelling an id the registry does not hold returns
    [False] without raising and leaves the whole world as it was. *)
Theorem cancel_by_id_frame (w : World) (id : string) :
  match dict_get id (timers w) with
  | Some timer =>
      let w' := after (cancel_timer (Some id)) w in
      outcome (cancel_timer (Some id)) w = Ok true
      /\ timers w' = dict_del id (timers w)
      /\ dict_get id (timers w') = None
      /\ (forall k, k <> id -> dict_get k (timers w') = dict_get k (timers w))
      /\ alarms w' = alarms w
      /\ (forall h, Timer.task timer <> Some h ->
            nth_error (futures w') h = nth_error (futures w) h)
  | None => cancel_timer (Some id) w = (Ok false, w)
  end
  /\
  match dict_get id (alarms w) with
  | Some alarm =>
      let w' := after (cancel_alarm (Some id)) w in
      outcome (cancel_alarm (Some id)) w = Ok true
      /\ alarms w' = dict_del id (alarms w)
      /\ dict_get id (alarms w') = None
      /\ (forall k, k <> id -> dict_get k (alarms w') = dict_get k (alarms w))
      /\ timers w' = timers w
      /\ (forall h, Alarm.task alarm <> Some h ->
            nth_error (futures w') h = nth_error (futures w) h)
  | None => cancel_alarm (Some id) w = (Ok false, w)
  end.
Proof.
  split.
  - destruct (dict_get id (timers w)) as [timer|] eqn:E.
    + unfold after, outcome. rewrite (cancel_timer_present id timer w E). simpl.
      repeat split.
      * apply dict_get_del_same.
      * intros k Hk. now apply dict_get_del_other.
      * intros h Hh. now apply cancel_in_other.
    + now apply cancel_timer_absent.
  - destruct (dict_get id (alarms w)) as [alarm|] eqn:E.
    + unfold after, outcome. rewrite (cancel_alarm_present id alarm w E). simpl.
      repeat split.
      * apply dict_get_del_same.
      * intros k Hk. now apply dict_get_del_other.
      * intros h Hh. now apply cancel_in_other.
    + now apply cancel_alarm_absent.
Qed.

(** Cancelling the same id a second time finds nothing. *)
Corollary cancel_timer_twice (w : World) (id : string) :
  outcome (cancel_timer (Some id)) (after (cancel_timer (Some id)) w) = Ok false.
Proof.
  unfold outcome, after.
  destruct (dict_get id (timers w)) as [timer|] eqn:E.
  - rewrite (cancel_timer_present id timer w E). cbn [fst snd].
    rewrite cancel_timer_absent; auto. simpl. apply dict_get_del_same.
  - rewrite (cancel_timer_absent id w E). cbn [fst snd].
    now rewrite cancel_timer_absent.
Qed.

(* ================================================================== *)
(** * The firing callbacks *)

Lemma notifications_log tr line :
  notifications (tr ++ [LogInfo line]) = notifications tr
  /\ notifications (tr ++ [LogError line]) = notifications tr.
Proof.
  unfold notifications. rewrite !filter_app. simpl. now rewrite app_nil_r.
Qed.

Lemma notify_no_websocket conn message w :
  has_websocket conn = false -> notify conn message w = (Ok tt, w).
Proof. intros H. unfold notify. now rewrite H. Qed.

Lemma notify_send_raises conn message e w :
  has_websocket conn = true -> send_stt_message conn message = Some e ->
  notify conn message w = (Raised e, w).
Proof.
  intros H He. unfold notify, deliver, bind, raise. now rewrite H, He.
Qed.

Lemma notify_submit_raises conn message e w :
  has_websocket conn = true -> send_stt_message conn message = None ->
  executor_submit conn
    (if use_function_call_mode conn then chat_with_function_calling else chat)
    message = Some e ->
  notify conn message w =
    (Raised e, with_trace w (trace w ++ [SttMessage message])%list).
Proof.
  intros H Hs He. unfold notify, deliver, submit, bind, raise, emit, modify.
  rewrite H, Hs. destruct (use_function_call_mode conn); now rewrite He.
Qed.

Lemma timer_callback_no_websocket conn id label timer w :
  has_websocket conn = false ->
  dict_get id (timers w) = Some timer ->
  timer_callback conn id label w =
    (Ok tt,
     with_trace (with_timers w (dict_del id (timers w)))
       (trace w ++ [LogInfo ("计时器 " ++ id ++ " 已触发: " ++ timer_message label)])%list).
Proof.
  intros Hws H. unfold timer_callback, try_except, bind, gets. simpl. rewrite H.
  rewrite notify_no_websocket by exact Hws.
  now rewrite (del_timer_present id timer) by exact H.
Qed.

Lemma alarm_callback_no_websocket conn id label alarm w :
  has_websocket conn = false ->
  dict_get id (alarms w) = Some alarm ->
  alarm_callback conn id label w =
    (Ok tt,
     with_trace (with_alarms w (dict_del id (alarms w)))
       (trace w ++ [LogInfo ("闹钟 " ++ id ++ " 已触发: " ++ alarm_message alarm label)])%list).
Proof.
  intros Hws H. unfold alarm_callback, try_except, bind, gets. simpl. rewrite H.
  rewrite notify_no_websocket by exact Hws.
  now rewrite (del_alarm_present id alarm) by exact H.
Qed.

(** C9.  When the connection has no truthy [websocket], a callback whose
    entry is still registered returns normally, adds nothing but one
    info line to the trace (so no message is sent and none is submitted
    to the conversation), and removes the entry all the same. *)
Theorem callback_without_websocket_drops_entry
    (w : World) (conn : Conn) (id : string) (label : option string)
    (Hws : has_websocket conn = false) :
  (forall timer, dict_get id (timers w) = Some timer ->
     let w' := after (timer_callback conn id label) w in
     outcome (timer_callback conn id label) w = Ok tt
     /\ trace w' =
          (trace w ++ [LogInfo ("计时器 " ++ id ++ " 已触发: " ++ timer_message label)])%list
     /\ notifications (trace w') = notifications (trace w)
     /\ dict_get id (timers w') = None
     /\ (forall k, k <> id -> dict_get k (timers w') = dict_get k (timers w))
     /\ alarms w' = alarms w /\ futures w' = futures w)
  /\
  (forall alarm, dict_get id (alarms w) = Some alarm ->
     let w' := after (alarm_callback conn id label) w in
     outcome (alarm_callback conn id label) w = Ok tt
     /\ trace w' =
          (trace w ++ [LogInfo ("闹钟 " ++ id ++ " 已触发: " ++ alarm_message alarm label)])%list
     /\ notifications (trace w') = notifications (trace w)
     /\ dict_get id (alarms w') = None
     /\ (forall k, k <> id -> dict_get k (alarms w') = dict_get k (alarms w))
     /\ timers w' = timers w /\ futures w' = futures w).
Proof.
  split.
  - intros timer H. unfold after, outcome.
    rewrite (timer_callback_no_websocket conn id label timer w Hws H). simpl.
    repeat split.
    + apply notifications_log.
    + apply dict_get_del_same.
    + intros k Hk. now apply dict_get_del_other.
  - intros alarm H. unfold after, outcome.
    rewrite (alarm_callback_no_websocket conn id label alarm w Hws H). simpl.
    repeat split.
    + apply notifications_log.
    + apply dict_get_del_same.
    + intros k Hk. now apply dict_get_del_other.
Qed.

Lemma callback_without_websocket_witness :
  dict_mem "timer_100_0" (timers busy_world) = true
  /\ notifications
       (trace (after (timer_callback conn_no_socket "timer_100_0" (Some "tea")) busy_world))
     = notifications (trace busy_world)
  /\ dict_get "timer_100_0"
       (timers (after (timer_callback conn_no_socket "timer_100_0" (Some "tea")) busy_world))
     = None.
Proof.
  split; [reflexivity|].
  destruct (callback_without_websocket_drops_entry busy_world conn_no_socket
              "timer_100_0" (Some "tea") eq_refl) as [Ht _].
  destruct (Ht tea_timer eq_refl) as (_ & _ & Hn & Hg & _).
  split; [exact Hn | exact Hg].
Defined.

(** The claim of C3 fails where the send raises: the callback returns
    normally, but the timer is still registered afterwards. *)
Lemma delivery_failure_keeps_entry :
  dict_mem "timer_100_0" (timers busy_world) = true
  /\ has_websocket conn_closed = true
  /\ send_stt_message conn_closed (timer_message (Some "tea"))
     = Some (ConnectionError "connection closed")
  /\ outcome (timer_callback conn_closed "timer_100_0" (Some "tea")) busy_world = Ok tt
  /\ dict_mem "timer_100_0"
       (timers (after (timer_callback conn_closed "timer_100_0" (Some "tea")) busy_world))
     = true.
Proof. repeat split. Qed.

(** C3, amended.  When the send raises in a callback whose entry is still
    registered, the exception is caught and logged and the callback
    returns normally; the world is otherwise left as it was, the entry
    included. *)
Theorem delivery_failure_is_contained
    (w : World) (conn : Conn) (id : string) (label : option string) (e : Exn)
    (Hws : has_websocket conn = true) :
  (forall timer, dict_get id (timers w) = Some timer ->
     send_stt_message conn (timer_message label) = Some e ->
     timer_callback conn id label w =
       (Ok tt, with_trace w (trace w ++ [LogError ("计时器回调出错: " ++ exn_str e)])%list))
  /\
  (forall alarm, dict_get id (alarms w) = Some alarm ->
     send_stt_message conn (alarm_message alarm label) = Some e ->
     alarm_callback conn id label w =
       (Ok tt, with_trace w (trace w ++ [LogError ("闹钟回调出错: " ++ exn_str e)])%list)).
Proof.
  split.
  - intros timer H He. unfold timer_callback, try_except, bind, gets. simpl.
    rewrite H. now rewrite (notify_send_raises conn _ e) by assumption.
  - intros alarm H He. unfold alarm_callback, try_except, bind, gets. simpl.
    rewrite H. now rewrite (notify_send_raises conn _ e) by assumption.
Qed.

Lemma delivery_failure_witness :
  timer_callback conn_closed "timer_100_0" (Some "tea") busy_world =
    (Ok tt,
     with_trace busy_world
       (trace busy_world
          ++ [LogError ("计时器回调出错: " ++ exn_str (ConnectionError "connection closed"))])%list).
Proof.
  exact (proj1 (delivery_failure_is_contained busy_world conn_closed "timer_100_0"
                  (Some "tea") (ConnectionError "connection closed") eq_refl)
           tea_timer eq_refl eq_refl).
Defined.

(** X17.  When the message went out and handing it to the conversation
    raises, the timer callback catches and logs the exception and
    returns normally; the message stays sent, and the entry stays
    registered. *)
Lemma submit_failure_is_contained
    (w : World) (conn : Conn) (id : string) (label : option string) (e : Exn)
    (timer : Timer.t) :
  has_websocket conn = true ->
  dict_get id (timers w) = Some timer ->
  send_stt_message conn (timer_message label) = None ->
  executor_submit conn
    (if use_function_call_mode conn then chat_with_function_calling else chat)
    (timer_message label) = Some e ->
  timer_callback conn id label w =
    (Ok tt,
     with_trace w
       (trace w ++ [SttMessage (timer_message label);
                    LogError ("计时器回调出错: " ++ exn_str e)])%list).
Proof.
  intros Hws H Hs He. unfold timer_callback, try_except, bind, gets. simpl.
  rewrite H. rewrite (notify_submit_raises conn _ e) by assumption.
  unfold logger_error, emit, modify, with_trace. simpl.
  now rewrite <- app_assoc.
Qed.

(* ================================================================== *)
(** * Cancelling everything of a kind *)

Lemma cancel_timer_all w :
  cancel_timer None w =
    (Ok false,
     with_timers
       (with_futures w
          (fold_left (fun fs kv => cancel_in (Timer.task (snd kv)) fs) (timers w)
             (futures w)))
       []).
Proof.
  unfold cancel_timer, bind, gets. simpl.
  now rewrite (for_each_cancel Timer.task).
Qed.

Lemma cancel_alarm_all w :
  cancel_alarm None w =
    (Ok false,
     with_alarms
       (with_futures w
          (fold_left (fun fs kv => cancel_in (Alarm.task (snd kv)) fs) (alarms w)
             (futures w)))
       []).
Proof.
  unfold cancel_alarm, bind, gets. simpl.
  now rewrite (for_each_cancel Alarm.task).
Qed.

(** C1.  What the code does: [cancel_timer()] and [cancel_alarm()] empty
    their dictionary and then return [False] whatever it held, because the
    length is taken after [clear()].  With two running timers and one
    alarm, [cancel_timer_alarm('all')] removes all three but answers
    that the specified timer and alarm were not found; called again it
    answers that none are active. *)
Theorem cancel_all_returns_false :
  (forall w, outcome (cancel_timer None) w = Ok false
             /\ timers (after (cancel_timer None) w) = []
             /\ alarms (after (cancel_timer None) w) = alarms w)
  /\ (forall w, outcome (cancel_alarm None) w = Ok false
                /\ alarms (after (cancel_alarm None) w) = []
                /\ timers (after (cancel_alarm None) w) = timers w)
  /\ (let call := cancel_timer_alarm conn_up "all" "" "" None None in
      List.length (timers busy_world) = 2%nat
      /\ List.length (alarms busy_world) = 1%nat
      /\ outcome call busy_world =
           Ok (mkActionResponse RESPONSE "没有找到计时器或闹钟"
                 "未找到指定的计时器。 未找到指定的闹钟。")
      /\ timers (after call busy_world) = []
      /\ alarms (after call busy_world) = []
      /\ outcome call (after call busy_world) =
           Ok (mkActionResponse RESPONSE "没有找到计时器或闹钟"
                 "没有正在进行的计时器。 没有设置的闹钟。")).
Proof.
  split; [|split].
  - intros w. unfold outcome, after. rewrite cancel_timer_all. now simpl.
  - intros w. unfold outcome, after. rewrite cancel_alarm_all. now simpl.
  - vm_compute. repeat split.
Qed.

(* ================================================================== *)
(** * Generated ids *)

(** C7.  What the code does: the id is the current second and the current
    size of the dictionary, so it repeats.  Three timers are added within
    one second and the first is cancelled before the third is added: the
    third gets the id of the second, which is still registered and is
    overwritten.  Alarms behave the same way. *)
Theorem add_reuses_live_id :
  (let run :=
     (id1 <- add_timer 300 (Some "tea") ;;
      id2 <- add_timer 600 (Some "eggs") ;;
      cancel_timer (Some id1) ;;
      before <- gets timers ;;
      id3 <- add_timer 900 (Some "rice") ;;
      ret (id1, id2, id3, dict_mem id3 before)) in
   outcome run empty_world = Ok ("timer_100_0", "timer_100_1", "timer_100_1", true)
   /\ option_map Timer.label (dict_get "timer_100_1" (timers (after run empty_world)))
      = Some (Some "rice")
   /\ List.length (timers (after run empty_world)) = 1%nat)
  /\
  (let run :=
     (id1 <- add_alarm 7 0 0 None ;;
      id2 <- add_alarm 8 0 0 None ;;
      cancel_alarm (Some id1) ;;
      before <- gets alarms ;;
      id3 <- add_alarm 9 0 0 None ;;
      ret (id1, id2, id3, dict_mem id3 before)) in
   outcome run empty_world = Ok ("alarm_100_0", "alarm_100_1", "alarm_100_1", true)
   /\ List.length (alarms (after run empty_world)) = 1%nat).
Proof. vm_compute. repeat split. Qed.

(* ================================================================== *)
(** * Scheduling *)

(** C2.  What the code does: the callback is handed to the loop by
    [run_coroutine_threadsafe] with no delay at all; the computed delay
    only reaches a thread that sleeps and ends.  A five-minute timer set
    at epoch 100 ends at 400.125; its future is pending at once, and one
    turn of the loop, with the clock at 100.375, sends the "time is up"
    message, submits it to the conversation and removes the entry.  An
    alarm for 07:00 set at 08:00 is due the next day and fires in the
    same way at 08:00 today. *)
Theorem callback_runs_before_target :
  (let w1 := after (set_timer conn_up 300 "" "" (Some "tea")) empty_world in
   let w2 := after (loop_step 0) w1 in
   option_map Timer.end_time (dict_get "timer_100_0" (timers w1)) = Some (3201 # 8)
   /\ option_map Timer.task (dict_get "timer_100_0" (timers w1)) = Some (Some 0%nat)
   /\ state_of (futures w1) 0 = Some Pending
   /\ filter (fun e => match e with ThreadStarted _ => true | _ => false end) (trace w1)
      = [ThreadStarted 300]
   /\ outcome (loop_step 0) w1 = Ok tt
   /\ Qcompare (epoch (clock w2 (ticks w2))) (3201 # 8) = Lt
   /\ notifications (trace w2) =
        [SttMessage "您设置的 tea 计时器时间到了！";
         Submitted chat "您设置的 tea 计时器时间到了！"]
   /\ timers w2 = [])
  /\
  (let w1 := after (set_alarm conn_up 7 0 "" "" 0 None) empty_world in
   let w2 := after (loop_step 0) w1 in
   option_map Alarm.time (dict_get "alarm_100_0" (alarms w1))
     = Some (datetime.mk 738001 7 0 0 0)
   /\ state_of (futures w1) 0 = Some Pending
   /\ datetime.ltb (local_now (clock w2 (ticks w2))) (datetime.mk 738001 7 0 0 0) = true
   /\ notifications (trace w2) =
        [SttMessage "闹钟时间到了！现在是7点0分。";
         Submitted chat "闹钟时间到了！现在是7点0分。"]
   /\ alarms w2 = []).
Proof. vm_compute. repeat split. Qed.

(* ================================================================== *)
(** * Alarm target time *)

(** The order of naive datetimes is the order of instants on the local
    time line, for values whose time of day is in range. *)
Lemma datetime_ltb_instant (a b : datetime.t) :
  (0 <= datetime.tod a < 86400000000)%Z ->
  (0 <= datetime.tod b < 86400000000)%Z ->
  datetime.ltb a b = true <->
  (datetime.date a * 86400000000 + datetime.tod a
   < datetime.date b * 86400000000 + datetime.tod b)%Z.
Proof.
  intros Ha Hb. unfold datetime.ltb.
  rewrite orb_true_iff, andb_true_iff, !Z.ltb_lt, Z.eqb_eq. lia.
Qed.

Lemma datetime_valid_tod (a : datetime.t) :
  datetime.valid a -> (0 <= datetime.tod a < 86400000000)%Z.
Proof. unfold datetime.valid, datetime.tod. lia. Qed.

Lemma timedelta_days_run n w :
  timedelta_days n w =
    if (Z.abs n <=? datetime.max_delta_days)%Z then (Ok n, w)
    else (Raised (OverflowError
                    (if ((- 2 ^ 31 <=? n) && (n <? 2 ^ 31))%Z
                     then "days=" ++ py_str n ++ "; must have magnitude <= 999999999"
                     else "Python int too large to convert to C int")), w).
Proof.
  unfold timedelta_days, datetime.max_delta_days, raise, ret.
  destruct (Z.leb_spec (Z.abs n) 999999999) as [H|H].
  - replace ((- 2 ^ 31 <=? n) && (n <? 2 ^ 31))%Z with true
      by (symmetry; apply andb_true_iff; split; [apply Z.leb_le | apply Z.ltb_lt]; lia).
    replace (999999999 <? Z.abs n)%Z with false by (symmetry; apply Z.ltb_ge; lia).
    reflexivity.
  - destruct ((- 2 ^ 31 <=? n) && (n <? 2 ^ 31))%Z; [|reflexivity].
    replace (999999999 <? Z.abs n)%Z with true by (symmetry; apply Z.ltb_lt; lia).
    reflexivity.
Qed.

Lemma datetime_time_run hour minute w :
  (0 <= hour <= 23)%Z -> (0 <= minute <= 59)%Z ->
  datetime_time hour minute w = (Ok (hour, minute), w).
Proof.
  intros Hh Hm. unfold datetime_time, c_int, bind, raise, ret.
  replace ((- 2 ^ 63 <=? hour) && (hour <? 2 ^ 63))%Z with true
    by (symmetry; apply andb_true_iff; split; [apply Z.leb_le | apply Z.ltb_lt]; lia).
  replace (2 ^ 31 <=? hour)%Z with false by (symmetry; apply Z.leb_gt; lia).
  replace (hour <? - 2 ^ 31)%Z with false by (symmetry; apply Z.ltb_ge; lia).
  cbn [negb].
  replace ((- 2 ^ 63 <=? minute) && (minute <? 2 ^ 63))%Z with true
    by (symmetry; apply andb_true_iff; split; [apply Z.leb_le | apply Z.ltb_lt]; lia).
  replace (2 ^ 31 <=? minute)%Z with false by (symmetry; apply Z.leb_gt; lia).
  replace (minute <? - 2 ^ 31)%Z with false by (symmetry; apply Z.ltb_ge; lia).
  cbn [negb].
  replace ((0 <=? hour) && (hour <=? 23))%Z with true
    by (symmetry; apply andb_true_iff; split; apply Z.leb_le; lia).
  replace ((0 <=? minute) && (minute <=? 59))%Z with true
    by (symmetry; apply andb_true_iff; split; apply Z.leb_le; lia).
  reflexivity.
Qed.

(** What [add_alarm] does for an hour and a minute in range: it takes two
    clock readings, and then stores the alarm or raises, by
    [target_exists]. *)
Lemma add_alarm_cases hour minute day_offset label w :
  (0 <= hour <= 23)%Z -> (0 <= minute <= 59)%Z ->
  let now := local_now (clock w (S (ticks w))) in
  let alarm_id :=
    "alarm_" ++ py_str (py_int (epoch (clock w (ticks w)))) ++ "_"
      ++ py_str (Z.of_nat (List.length (alarms w))) in
  let naive := datetime.combine (datetime.date now + day_offset) hour minute in
  let target :=
    if datetime.ltb naive now && (day_offset =? 0)%Z
    then datetime.combine (datetime.date now + 1) hour minute else naive in
  if target_exists now hour minute day_offset then
    add_alarm hour minute day_offset label w =
      (Ok alarm_id,
       with_alarms (with_ticks w (S (S (ticks w))))
         (dict_set alarm_id (Alarm.mk hour minute day_offset target label None)
            (alarms w)))
  else
    add_alarm hour minute day_offset label w =
      (Raised (OverflowError (overflow_message day_offset)),
       with_ticks w (S (S (ticks w)))).
Proof.
  intros Hh Hm now alarm_id naive target. unfold target_exists, overflow_message.
  fold naive.
  assert (Hone : (Z.abs 1 <=? datetime.max_delta_days)%Z = true) by reflexivity.
  destruct (Z.abs day_offset <=? datetime.max_delta_days)%Z eqn:E1; cbn [andb].
  2: { unfold add_alarm, bind, gets, time_time, datetime_now.
       cbn [fst snd ticks clock alarms with_ticks].
       rewrite timedelta_days_run, E1. reflexivity. }
  destruct (datetime.in_range (datetime.date now + day_offset)) eqn:E2; cbn [andb].
  2: { unfold add_alarm, bind, gets, time_time, datetime_now, date_add, raise.
       cbn [fst snd ticks clock alarms with_ticks].
       rewrite timedelta_days_run, E1. cbv beta iota. fold now. rewrite E2.
       reflexivity. }
  destruct (datetime.ltb naive now && (day_offset =? 0)%Z) eqn:E3; cbn [negb orb].
  - destruct (datetime.in_range (datetime.date now + 1)) eqn:E4.
    + unfold add_alarm, bind, gets, time_time, datetime_now, date_add, raise, ret, modify.
      cbn [fst snd ticks clock alarms with_ticks].
      rewrite timedelta_days_run, E1. cbv beta iota. fold now. rewrite E2.
      rewrite datetime_time_run by assumption. cbv beta iota. fold naive.
      rewrite E3. rewrite timedelta_days_run, Hone. cbv beta iota. rewrite E4.
      rewrite datetime_time_run by assumption. subst target. reflexivity.
    + unfold add_alarm, bind, gets, time_time, datetime_now, date_add, raise, ret, modify.
      cbn [fst snd ticks clock alarms with_ticks].
      rewrite timedelta_days_run, E1. cbv beta iota. fold now. rewrite E2.
      rewrite datetime_time_run by assumption. cbv beta iota. fold naive.
      rewrite E3. rewrite timedelta_days_run, Hone. cbv beta iota. rewrite E4.
      reflexivity.
  - unfold add_alarm, bind, gets, time_time, datetime_now, date_add, raise, ret, modify.
    cbn [fst snd ticks clock alarms with_ticks].
    rewrite !timedelta_days_run, E1. cbv beta iota. fold now. rewrite E2.
    rewrite !datetime_time_run by assumption. cbv beta iota. fold naive.
    rewrite E3. subst target. reflexivity.
Qed.

Lemma add_alarm_run hour minute day_offset label w :
  (0 <= hour <= 23)%Z -> (0 <= minute <= 59)%Z ->
  let now := local_now (clock w (S (ticks w))) in
  let alarm_id :=
    "alarm_" ++ py_str (py_int (epoch (clock w (ticks w)))) ++ "_"
      ++ py_str (Z.of_nat (List.length (alarms w))) in
  let naive := datetime.combine (datetime.date now + day_offset) hour minute in
  let target :=
    if datetime.ltb naive now && (day_offset =? 0)%Z
    then datetime.combine (datetime.date now + 1) hour minute else naive in
  target_exists now hour minute day_offset = true ->
  add_alarm hour minute day_offset label w =
    (Ok alarm_id,
     with_alarms (with_ticks w (S (S (ticks w))))
       (dict_set alarm_id (Alarm.mk hour minute day_offset target label None)
          (alarms w))).
Proof.
  intros Hh Hm now alarm_id naive target He.
  pose proof (add_alarm_cases hour minute day_offset label w Hh Hm) as H.
  cbv zeta in H. fold now in H. rewrite He in H. exact H.
Qed.

Lemma add_alarm_overflow hour minute day_offset label w :
  (0 <= hour <= 23)%Z -> (0 <= minute <= 59)%Z ->
  target_exists (local_now (clock w (S (ticks w)))) hour minute day_offset = false ->
  add_alarm hour minute day_offset label w =
    (Raised (OverflowError (overflow_message day_offset)),
     with_ticks w (S (S (ticks w)))).
Proof.
  intros Hh Hm He.
  pose proof (add_alarm_cases hour minute day_offset label w Hh Hm) as H.
  cbv zeta in H. rewrite He in H. exact H.
Qed.

(** C4.  For an hour in 0..23 and a minute in 0..59, and a day offset
    that leads to a date of the calendar, [add_alarm] returns an id under
    which the registry then holds an alarm whose target is hour:minute on
    today + day_offset; except that with day_offset 0 and that instant
    before now, the target is hour:minute on today + 1.  With a
    day_offset other than 0 the date never moves, whatever the time of
    day.  Here now is the reading [datetime.now()] takes and today is
    its date.  Where the offset is beyond what a [timedelta] holds, or
    leads outside [date.min .. date.max], there is no target: [add_alarm]
    raises [OverflowError], "date value out of range" for an offset a
    [timedelta] holds, and stores nothing. *)
Theorem alarm_target_time
    (w : World) (hour minute day_offset : Z) (label : option string)
    (Hhour : (0 <= hour <= 23)%Z) (Hminute : (0 <= minute <= 59)%Z) :
  let now := local_now (clock w (S (ticks w))) in
  let today := datetime.date now in
  let w' := after (add_alarm hour minute day_offset label) w in
  (target_exists now hour minute day_offset = true ->
   exists alarm_id alarm,
     outcome (add_alarm hour minute day_offset label) w = Ok alarm_id
     /\ dict_get alarm_id (alarms w') = Some alarm
     /\ Alarm.hour alarm = hour /\ Alarm.minute alarm = minute
     /\ Alarm.day_offset alarm = day_offset
     /\ (day_offset = 0%Z ->
         datetime.ltb (datetime.combine today hour minute) now = true ->
         Alarm.time alarm = datetime.combine (today + 1) hour minute)
     /\ (day_offset = 0%Z ->
         datetime.ltb (datetime.combine today hour minute) now = false ->
         Alarm.time alarm = datetime.combine today hour minute)
     /\ (day_offset <> 0%Z ->
         Alarm.time alarm = datetime.combine (today + day_offset) hour minute))
  /\
  (target_exists now hour minute day_offset = false ->
   outcome (add_alarm hour minute day_offset label) w
   = Raised (OverflowError (overflow_message day_offset))
   /\ alarms w' = alarms w).
Proof.
  intros now today w'. subst w'. unfold after, outcome. split.
  - intros He.
    rewrite (add_alarm_run hour minute day_offset label w Hhour Hminute He).
    cbn [fst snd]. eexists. eexists. split; [reflexivity|].
    split; [unfold with_alarms; cbn [alarms]; apply dict_get_set_same|].
    cbn [Alarm.hour Alarm.minute Alarm.day_offset Alarm.time].
    fold now. fold today. repeat split.
    + intros -> Hlt. rewrite Z.add_0_r, Hlt. reflexivity.
    + intros -> Hlt. rewrite Z.add_0_r, Hlt. reflexivity.
    + intros Hne. apply Z.eqb_neq in Hne. rewrite Hne, andb_false_r. reflexivity.
  - intros He.
    rewrite (add_alarm_overflow hour minute day_offset label w Hhour Hminute He).
    cbn [fst snd]. split; reflexivity.
Qed.

Lemma alarm_target_time_witness :
  (* 07:00 asked at 08:00 is tomorrow's; 09:00 is today's; with one day of
     offset 07:00 is tomorrow's, not the day after; three million days
     ahead there is no date *)
  option_map Alarm.time
    (dict_get "alarm_100_0" (alarms (after (add_alarm 7 0 0 None) empty_world)))
  = Some (datetime.mk 738001 7 0 0 0)
  /\ option_map Alarm.time
       (dict_get "alarm_100_0" (alarms (after (add_alarm 9 0 0 None) empty_world)))
     = Some (datetime.mk 738000 9 0 0 0)
  /\ option_map Alarm.time
       (dict_get "alarm_100_0" (alarms (after (add_alarm 7 0 1 None) empty_world)))
     = Some (datetime.mk 738001 7 0 0 0)
  /\ alarms (after (add_alarm 7 0 3000000 None) empty_world) = [].
Proof.
  split; [|split; [|split]].
  - destruct (proj1 (alarm_target_time empty_world 7 0 0 None ltac:(lia) ltac:(lia))
                eq_refl)
      as (id & alarm & Hid & Hget & _ & _ & _ & Hroll & _ & _).
    vm_compute in Hid. injection Hid as <-. rewrite Hget. cbn [option_map].
    now rewrite (Hroll eq_refl eq_refl).
  - destruct (proj1 (alarm_target_time empty_world 9 0 0 None ltac:(lia) ltac:(lia))
                eq_refl)
      as (id & alarm & Hid & Hget & _ & _ & _ & _ & Hstay & _).
    vm_compute in Hid. injection Hid as <-. rewrite Hget. cbn [option_map].
    now rewrite (Hstay eq_refl eq_refl).
  - destruct (proj1 (alarm_target_time empty_world 7 0 1 None ltac:(lia) ltac:(lia))
                eq_refl)
      as (id & alarm & Hid & Hget & _ & _ & _ & _ & _ & Hoff).
    vm_compute in Hid. injection Hid as <-. rewrite Hget. cbn [option_map].
    now rewrite Hoff by discriminate.
  - exact (proj2 (proj2 (alarm_target_time empty_world 7 0 3000000 None
                           ltac:(lia) ltac:(lia)) eq_refl)).
Defined.

(** With no offset the target is never before now. *)
Lemma alarm_target_not_past (w : World) (hour minute : Z) (label : option string) :
  (0 <= hour <= 23)%Z -> (0 <= minute <= 59)%Z ->
  datetime.valid (local_now (clock w (S (ticks w)))) ->
  forall alarm_id alarm,
    outcome (add_alarm hour minute 0 label) w = Ok alarm_id ->
    dict_get alarm_id (alarms (after (add_alarm hour minute 0 label) w)) = Some alarm ->
    datetime.ltb (Alarm.time alarm) (local_now (clock w (S (ticks w)))) = false.
Proof.
  intros Hh Hm Hv id alarm. unfold outcome, after.
  pose proof (add_alarm_cases hour minute 0 label w Hh Hm) as Hc. cbv zeta in Hc.
  destruct (target_exists _ hour minute 0);
    [|rewrite Hc; cbn [fst]; discriminate].
  rewrite Hc. cbn [fst snd].
  intros [= <-]. unfold with_alarms. cbn [alarms]. rewrite dict_get_set_same.
  intros [= <-]. cbn [Alarm.time]. rewrite Z.add_0_r, andb_true_r.
  set (now := local_now (clock w (S (ticks w)))) in *.
  destruct (datetime.ltb (datetime.combine (datetime.date now) hour minute) now) eqn:E;
    [|exact E].
  apply not_true_is_false. intros Hlt.
  apply datetime_ltb_instant in Hlt.
  - pose proof (datetime_valid_tod now Hv). cbn [datetime.date datetime.combine] in Hlt.
    unfold datetime.tod in Hlt at 1. cbn in Hlt. lia.
  - unfold datetime.tod, datetime.combine. cbn. lia.
  - now apply datetime_valid_tod.
Qed.

(* ================================================================== *)
(** * Setting a timer *)

Lemma float_add_int_run x n w :
  float_add_int x n w =
    if float_range n then (Ok (fl (x + fl (inject_Z n))), w)
    else (Raised (OverflowError "int too large to convert to float"), w).
Proof.
  unfold float_add_int, float_of_int, bind, ret, raise.
  now destruct (float_range n).
Qed.

Lemma add_timer_run duration label w :
  float_range duration = true ->
  let timer_id :=
    "timer_" ++ py_str (py_int (epoch (clock w (ticks w)))) ++ "_"
      ++ py_str (Z.of_nat (List.length (timers w))) in
  let start_time := epoch (clock w (S (ticks w))) in
  add_timer duration label w =
    (Ok timer_id,
     with_timers (with_ticks w (S (S (ticks w))))
       (dict_set timer_id
          (Timer.mk duration start_time (fl (start_time + fl (inject_Z duration)))
             label None)
          (timers w))).
Proof.
  intros Hr. unfold add_timer, bind, gets, time_time, modify, ret.
  cbn [fst snd ticks clock timers with_ticks].
  rewrite float_add_int_run, Hr. reflexivity.
Qed.

(** A duration beyond the floats: [add_timer] raises where it adds it to
    the start time, before it stores anything. *)
Lemma add_timer_overflow duration label w :
  float_range duration = false ->
  add_timer duration label w =
    (Raised (OverflowError "int too large to convert to float"),
     with_ticks w (S (S (ticks w)))).
Proof.
  intros Hr. unfold add_timer, bind, gets, time_time, modify, ret.
  cbn [fst snd ticks clock timers with_ticks].
  rewrite float_add_int_run, Hr. reflexivity.
Qed.

Lemma set_timer_run conn duration response_success response_failure label w hms :
  (0 < duration)%Z ->
  float_range duration = true ->
  let timer_id :=
    "timer_" ++ py_str (py_int (epoch (clock w (ticks w)))) ++ "_"
      ++ py_str (Z.of_nat (List.length (timers w))) in
  let start_time := epoch (clock w (S (ticks w))) in
  let timer :=
    Timer.mk duration start_time (fl (start_time + fl (inject_Z duration))) label None in
  let end_time := fl (epoch (clock w (S (S (ticks w)))) + fl (inject_Z duration)) in
  localtime w end_time = Ok hms ->
  let end_time_str :=
    let '(h, m, s) := hms in
    fmt_02d h ++ ":" ++ fmt_02d m ++ ":" ++ fmt_02d s in
  let duration_text := format_time_duration duration in
  let task := List.length (futures w) in
  set_timer conn duration response_success response_failure label w =
    (Ok (mkActionResponse RESPONSE ("计时器已设置: " ++ duration_text)
           (timer_response response_success duration_text end_time_str label)),
     mkWorld
       (dict_set timer_id (Timer.with_task timer (Some task))
          (dict_set timer_id timer (timers w)))
       (alarms w)
       (futures w ++ [mkFuture (TimerCallback conn timer_id label) Pending])%list
       (trace w ++ [ThreadStarted (inject_Z duration);
                    LogInfo ("已设置计时器: " ++ timer_id ++ ", 持续时间: "
                               ++ duration_text ++ ", 标签: " ++ fmt_opt label)])%list
       (clock w) (S (S (S (ticks w)))) (localtime w)).
Proof.
  intros Hpos Hr. cbv zeta. intros Hlt.
  unfold set_timer, try_except.
  assert (E : (duration <=? 0)%Z = false) by (apply Z.leb_gt; lia).
  rewrite E. unfold bind at 1. rewrite add_timer_run by exact Hr.
  mrun. rewrite float_add_int_run, Hr. mrun. rewrite Hlt. destruct hms as [[h m] s].
  mrun. rewrite dict_get_set_same. mrun.
  rewrite <- app_assoc. reflexivity.
Qed.

(** A duration beyond the floats: the failure answer, and nothing
    registered. *)
Lemma set_timer_overflow conn duration response_success response_failure label w :
  (0 < duration)%Z ->
  float_range duration = false ->
  set_timer conn duration response_success response_failure label w =
    (Ok (mkActionResponse RESPONSE "错误: int too large to convert to float"
           response_failure),
     mkWorld (timers w) (alarms w) (futures w)
       (trace w ++ [LogError "设置计时器错误: int too large to convert to float"])%list
       (clock w) (S (S (ticks w))) (localtime w)).
Proof.
  intros Hpos Hr. unfold set_timer, try_except.
  assert (E : (duration <=? 0)%Z = false) by (apply Z.leb_gt; lia).
  rewrite E. unfold bind at 1. rewrite add_timer_overflow by exact Hr.
  reflexivity.
Qed.

(** An end that [localtime] does not convert: the failure answer, after
    [add_timer] has stored the entry; it stays, without a task. *)
Lemma set_timer_unconverted conn duration response_success response_failure label w e :
  (0 < duration)%Z ->
  float_range duration = true ->
  let timer_id :=
    "timer_" ++ py_str (py_int (epoch (clock w (ticks w)))) ++ "_"
      ++ py_str (Z.of_nat (List.length (timers w))) in
  let start_time := epoch (clock w (S (ticks w))) in
  let timer :=
    Timer.mk duration start_time (fl (start_time + fl (inject_Z duration))) label None in
  let end_time := fl (epoch (clock w (S (S (ticks w)))) + fl (inject_Z duration)) in
  localtime w end_time = Raised e ->
  set_timer conn duration response_success response_failure label w =
    (Ok (mkActionResponse RESPONSE ("错误: " ++ exn_str e) response_failure),
     mkWorld (dict_set timer_id timer (timers w)) (alarms w) (futures w)
       (trace w ++ [LogError ("设置计时器错误: " ++ exn_str e)])%list
       (clock w) (S (S (S (ticks w)))) (localtime w)).
Proof.
  intros Hpos Hr. cbv zeta. intros Hlt.
  unfold set_timer, try_except.
  assert (E : (duration <=? 0)%Z = false) by (apply Z.leb_gt; lia).
  rewrite E. unfold bind at 1. rewrite add_timer_run by exact Hr.
  mrun. rewrite float_add_int_run, Hr. mrun. rewrite Hlt. reflexivity.
Qed.

Lemma set_timer_rejects conn duration response_success response_failure label w :
  (duration <= 0)%Z ->
  set_timer conn duration response_success response_failure label w =
    (Ok (mkActionResponse RESPONSE "无效的持续时间" "计时器的持续时间必须大于0秒。"), w).
Proof.
  intros Hle. unfold set_timer, try_except.
  assert (E : (duration <=? 0)%Z = true) by (apply Z.leb_le; lia).
  now rewrite E.
Qed.

(** The claim of C5 fails in three ways.  A duration beyond the floats
    gets the failure answer and no entry.  A long duration is stored with
    an end that is not start plus duration, neither exactly nor when the
    difference is taken in floats.  And a timer set when the generated id
    is still in use replaces the timer that has it: the registry holds
    one entry before and one after. *)
Lemma set_timer_not_always_one_entry :
  (outcome (set_timer conn_up (2 ^ 1024) "ok" "failed" None) empty_world
   = Ok (mkActionResponse RESPONSE "错误: int too large to convert to float" "failed")
   /\ timers (after (set_timer conn_up (2 ^ 1024) "ok" "failed" None) empty_world) = [])
  /\
  (let w1 := after (set_timer conn_up (2 ^ 50) "ok" "failed" None) empty_world in
   option_map response (match outcome (set_timer conn_up (2 ^ 50) "ok" "failed" None)
                                empty_world with
                        | Ok r => Some r
                        | Raised _ => None
                        end) = Some "ok"
   /\ option_map (fun t => (Timer.start_time t, Timer.end_time t))
        (dict_get "timer_100_0" (timers w1))
      = Some (801 # 8, inject_Z (2 ^ 50 + 100))
   /\ Qeq_bool (inject_Z (2 ^ 50 + 100) - (801 # 8)) (inject_Z (2 ^ 50)) = false
   /\ Qeq_bool (float_sub (inject_Z (2 ^ 50 + 100)) (801 # 8)) (inject_Z (2 ^ 50)) = false)
  /\
  (let before :=
     after (set_timer conn_up 300 "ok" "failed" (Some "tea") ;;
            set_timer conn_up 600 "ok" "failed" (Some "eggs") ;;
            cancel_timer (Some "timer_100_0")) empty_world in
   let call := set_timer conn_up 900 "ok" "failed" (Some "rice") in
   option_map Timer.label (dict_get "timer_100_1" (timers before)) = Some (Some "eggs")
   /\ List.length (timers before) = 1%nat
   /\ outcome call before
      = Ok (mkActionResponse RESPONSE "计时器已设置: 15分钟" "ok")
   /\ List.length (timers (after call before)) = 1%nat
   /\ option_map Timer.label (dict_get "timer_100_1" (timers (after call before)))
      = Some (Some "rice")).
Proof. vm_compute. repeat split. Qed.

(** C5, amended.  [set_timer] with a positive duration that a float
    holds, at a time when [localtime] converts the end it computes,
    returns the success response and writes one registry entry, under
    the generated id and a fresh firing handle.  The entry has the given
    duration and label, the second clock reading as its start, and as its
    end the binary64 sum of start and duration, which is start plus
    duration up to the two roundings of the sum.  The lookup of every other
    id is unchanged; the dictionary grows by exactly one when the id was
    not in use, and keeps its size when it was, the entry taking the
    place of the timer that had the id.  With a duration of zero or less
    it returns the validation error and the world is untouched. *)
Theorem set_timer_creates_one_entry
    (w : World) (conn : Conn) (duration : Z)
    (response_success response_failure : string) (label : option string) :
  let call := set_timer conn duration response_success response_failure label in
  let w' := after call w in
  let end_time := fl (epoch (clock w (S (S (ticks w)))) + fl (inject_Z duration)) in
  ((0 < duration)%Z ->
   float_range duration = true ->
   (exists hms, localtime w end_time = Ok hms) ->
   exists timer task response_text,
     let timer_id :=
       timer_id_of (py_int (epoch (clock w (ticks w)))) (List.length (timers w)) in
     outcome call w =
       Ok (mkActionResponse RESPONSE
             ("计时器已设置: " ++ format_time_duration duration) response_text)
     /\ dict_get timer_id (timers w') = Some timer
     /\ Timer.duration timer = duration
     /\ Timer.label timer = label
     /\ Timer.start_time timer = epoch (clock w (S (ticks w)))
     /\ Timer.end_time timer = fl (Timer.start_time timer + fl (inject_Z duration))
     /\ (Qabs (Timer.end_time timer - Timer.start_time timer - inject_Z duration)
         <= (Qabs (Timer.start_time timer) + 3 * inject_Z duration + 1) * 2 ^ (-53))%Q
     /\ Timer.task timer = Some task
     /\ task = List.length (futures w)
     /\ futures w' =
          (futures w ++ [mkFuture (TimerCallback conn timer_id label) Pending])%list
     /\ (forall k, k <> timer_id -> dict_get k (timers w') = dict_get k (timers w))
     /\ (dict_get timer_id (timers w) = None ->
         List.length (timers w') = S (List.length (timers w)))
     /\ (dict_get timer_id (timers w) <> None ->
         List.length (timers w') = List.length (timers w))
     /\ alarms w' = alarms w)
  /\
  ((duration <= 0)%Z ->
   call w =
     (Ok (mkActionResponse RESPONSE "无效的持续时间" "计时器的持续时间必须大于0秒。"), w)).
Proof.
  intros call w' end_time. subst w' call. split.
  - intros Hpos Hr [hms Hlt]. unfold after, outcome.
    rewrite (set_timer_run conn duration response_success response_failure label w hms
               Hpos Hr Hlt).
    cbn [fst snd timers alarms futures]. unfold timer_id_of.
    do 3 eexists. cbv zeta. split; [reflexivity|].
    split; [apply dict_get_set_same|].
    cbn [Timer.duration Timer.label Timer.end_time Timer.start_time Timer.task
           Timer.with_task].
    repeat split.
    + now apply float_sum_error.
    + intros k Hk. now rewrite !dict_get_set_other by exact Hk.
    + intros Hfresh.
      rewrite (dict_set_length_present _ _
                 (Timer.mk duration (epoch (clock w (S (ticks w))))
                    (fl (epoch (clock w (S (ticks w))) + fl (inject_Z duration)))
                    label None))
        by apply dict_get_set_same.
      now apply dict_set_length_fresh.
    + intros Hused.
      rewrite (dict_set_length_present _ _
                 (Timer.mk duration (epoch (clock w (S (ticks w))))
                    (fl (epoch (clock w (S (ticks w))) + fl (inject_Z duration)))
                    label None))
        by apply dict_get_set_same.
      destruct (dict_get _ (timers w)) as [old|] eqn:E; [|congruence].
      now apply (dict_set_length_present _ _ old).
  - intros Hle. now apply set_timer_rejects.
Qed.

Lemma set_timer_witness :
  (* five seconds of tea on an empty registry; then 0 and -5 *)
  List.length (timers (after (set_timer conn_up 5 "" "" (Some "tea")) empty_world)) = 1%nat
  /\ (exists timer,
        dict_get "timer_100_0"
          (timers (after (set_timer conn_up 5 "" "" (Some "tea")) empty_world))
        = Some timer
        /\ Timer.duration timer = 5%Z
        /\ Timer.start_time timer = (801 # 8)
        /\ Timer.end_time timer = (841 # 8))
  /\ set_timer conn_up 0 "" "" None empty_world =
       (Ok (mkActionResponse RESPONSE "无效的持续时间" "计时器的持续时间必须大于0秒。"),
        empty_world)
  /\ set_timer conn_up (-5) "" "" None empty_world =
       (Ok (mkActionResponse RESPONSE "无效的持续时间" "计时器的持续时间必须大于0秒。"),
        empty_world).
Proof.
  destruct (set_timer_creates_one_entry empty_world conn_up 5 "" "" (Some "tea"))
    as [Hok _].
  destruct (Hok ltac:(lia) eq_refl (ex_intro _ (0, 1, 45)%Z eq_refl))
    as (timer & task & txt & _ & Hget & Hdur & _ & Hstart & Hend & _ & _ & _ & _ & _
        & Hlen & _ & _).
  split; [|split; [|split]].
  - exact (Hlen eq_refl).
  - exists timer. split; [exact Hget|]. split; [exact Hdur|].
    split; [exact Hstart|]. rewrite Hend, Hstart. reflexivity.
  - exact (proj2 (set_timer_creates_one_entry empty_world conn_up 0 "" "" None)
             ltac:(lia)).
  - exact (proj2 (set_timer_creates_one_entry empty_world conn_up (-5) "" "" None)
             ltac:(lia)).
Defined.

(* ================================================================== *)
(** * Lazy pruning: facts about the scan *)

Lemma is_expired_false now timer :
  is_expired now timer = false <-> (now < Timer.end_time timer)%Q.
Proof.
  unfold is_expired. split.
  - intros H. apply Qgt_alt.
    destruct (Timer.end_time timer ?= now)%Q; congruence.
  - intros H. apply Qgt_alt in H. now rewrite H.
Qed.

Lemma scan_active_In clk items : forall n k t,
  In (k, t) (scan_active clk n items) ->
  exists i, nth_error items i = Some (k, t)
            /\ is_expired (epoch (clk (n + i)%nat)) t = false.
Proof.
  induction items as [|[k0 t0] items IH]; intros n k t; simpl; [tauto|].
  destruct (is_expired (epoch (clk n)) t0) eqn:E.
  - intros H. destruct (IH _ _ _ H) as (i & Hi & He).
    exists (S i). split; [exact Hi|]. now rewrite Nat.add_succ_r.
  - intros [H|H].
    + injection H as <- <-. exists 0%nat. split; [reflexivity|].
      now rewrite Nat.add_0_r.
    + destruct (IH _ _ _ H) as (i & Hi & He).
      exists (S i). split; [exact Hi|]. now rewrite Nat.add_succ_r.
Qed.

Lemma scan_partition clk items : forall n k t,
  In (k, t) items ->
  In (k, t) (scan_active clk n items) \/ In (k, t) (scan_expired clk n items).
Proof.
  induction items as [|[k0 t0] items IH]; intros n k t; simpl; [tauto|].
  destruct (is_expired (epoch (clk n)) t0); simpl; intros [H|H]; auto;
    destruct (IH (S n) _ _ H); auto.
Qed.

Lemma scan_active_incl clk items : forall n kt,
  In kt (scan_active clk n items) -> In kt items.
Proof.
  induction items as [|[k0 t0] items IH]; intros n kt; simpl; [tauto|].
  destruct (is_expired (epoch (clk n)) t0); simpl; intros H.
  - right. eauto.
  - destruct H; eauto.
Qed.

Lemma scan_expired_incl clk items : forall n kt,
  In kt (scan_expired clk n items) -> In kt items.
Proof.
  induction items as [|[k0 t0] items IH]; intros n kt; simpl; [tauto|].
  destruct (is_expired (epoch (clk n)) t0); simpl; intros H.
  - destruct H; eauto.
  - right. eauto.
Qed.

Lemma In_keys {V} (k : string) (d : dict V) :
  In k (dict_keys d) <-> exists v, In (k, v) d.
Proof.
  unfold dict_keys. rewrite in_map_iff. split.
  - intros ([k' v] & <- & H). now exists v.
  - intros (v & H). now exists (k, v).
Qed.

Lemma scan_active_wf clk items : forall n,
  dict_wf items -> dict_wf (scan_active clk n items).
Proof.
  unfold dict_wf.
  induction items as [|[k0 t0] items IH]; intros n Hnd; simpl; [constructor|].
  inversion Hnd as [|? ? Hni Hnd']; subst.
  destruct (is_expired (epoch (clk n)) t0); simpl; auto.
  constructor; auto.
  intros Hin. apply Hni. apply In_keys in Hin as (v & Hv).
  apply In_keys. exists v. eapply scan_active_incl; eauto.
Qed.

(** Under distinct keys no key is both kept and found expired. *)
Lemma scan_disjoint clk items : forall n k,
  dict_wf items ->
  In k (dict_keys (scan_active clk n items)) ->
  In k (dict_keys (scan_expired clk n items)) -> False.
Proof.
  unfold dict_wf.
  induction items as [|[k0 t0] items IH]; intros n k Hnd; simpl; [tauto|].
  inversion Hnd as [|? ? Hni Hnd']; subst.
  destruct (is_expired (epoch (clk n)) t0); simpl.
  - intros Ha [<-|He]; [|eauto].
    apply Hni. apply In_keys in Ha as (v & Hv).
    apply In_keys. exists v. eapply scan_active_incl; eauto.
  - intros [<-|Ha] He; [|eauto].
    apply Hni. apply In_keys in He as (v & Hv).
    apply In_keys. exists v. eapply scan_expired_incl; eauto.
Qed.

Lemma del_all_get_out entries : forall d k,
  ~ In k (dict_keys entries) -> dict_get k (del_all entries d) = dict_get k d.
Proof.
  unfold del_all.
  induction entries as [|[k0 t0] entries IH]; intros d k Hni; simpl; auto.
  simpl in Hni. rewrite IH by tauto.
  apply dict_get_del_other. intros ->. tauto.
Qed.

Lemma del_all_get_in entries : forall d k,
  In k (dict_keys entries) -> dict_get k (del_all entries d) = None.
Proof.
  induction entries as [|[k0 t0] entries IH]; intros d k; simpl; [tauto|].
  intros Hin.
  destruct (in_dec string_dec k (dict_keys entries)) as [Hk|Hk].
  - now apply IH.
  - destruct Hin as [<-|Hin]; [|contradiction].
    change (del_all ((k0, t0) :: entries) d) with (del_all entries (dict_del k0 d)).
    rewrite del_all_get_out by exact Hk. apply dict_get_del_same.
Qed.

Lemma set_all_get_out entries : forall d k,
  ~ In k (dict_keys entries) -> dict_get k (set_all entries d) = dict_get k d.
Proof.
  unfold set_all.
  induction entries as [|[k0 t0] entries IH]; intros d k Hni; simpl; auto.
  simpl in Hni. rewrite IH by tauto.
  apply dict_get_set_other. intros ->. tauto.
Qed.

Lemma set_all_get_in entries : forall d k t,
  dict_wf entries -> In (k, t) entries -> dict_get k (set_all entries d) = Some t.
Proof.
  unfold dict_wf.
  induction entries as [|[k0 t0] entries IH]; intros d k t Hnd; simpl; [tauto|].
  inversion Hnd as [|? ? Hni Hnd']; subst.
  change (set_all ((k0, t0) :: entries) d) with (set_all entries (dict_set k0 t0 d)).
  intros [H|H].
  - injection H as <- <-. rewrite set_all_get_out by exact Hni.
    apply dict_get_set_same.
  - now apply IH.
Qed.

Lemma set_all_get_inv entries : forall d k t,
  dict_get k (set_all entries d) = Some t ->
  In (k, t) entries \/ dict_get k d = Some t.
Proof.
  induction entries as [|[k0 t0] entries IH]; intros d k t; simpl; auto.
  change (set_all ((k0, t0) :: entries) d) with (set_all entries (dict_set k0 t0 d)).
  intros H. destruct (IH _ _ _ H) as [Hin|Hget]; auto.
  destruct (string_dec k k0) as [->|Hne].
  - rewrite dict_get_set_same in Hget. injection Hget as <-. auto.
  - rewrite dict_get_set_other in Hget by exact Hne. auto.
Qed.

(** A finished or cancelled future is left alone by cancellations. *)
Lemma cancel_all_settled entries : forall fs h s,
  state_of fs h = Some s -> s <> Pending ->
  state_of (cancel_all entries fs) h = Some s.
Proof.
  unfold cancel_all.
  induction entries as [|[k0 t0] entries IH]; intros fs h s Hs Hne; simpl; auto.
  apply IH; auto. rewrite cancel_in_state, Hs. now destruct s.
Qed.

(** A pending future whose handle one of the entries holds ends up
    cancelled. *)
Lemma cancel_all_pending entries : forall fs k t h,
  In (k, t) entries -> Timer.task t = Some h ->
  state_of fs h = Some Pending ->
  state_of (cancel_all entries fs) h = Some Cancelled.
Proof.
  induction entries as [|[k0 t0] entries IH]; intros fs k t h; simpl; [tauto|].
  change (cancel_all ((k0, t0) :: entries) fs)
    with (cancel_all entries (cancel_in (Timer.task t0) fs)).
  intros Hin Ht Hs.
  pose proof (cancel_in_state (Timer.task t0) fs h) as Hc. rewrite Hs in Hc.
  destruct (handle_eqb (Timer.task t0) h) eqn:E.
  - apply cancel_all_settled; [exact Hc | discriminate].
  - destruct Hin as [Hin|Hin].
    + injection Hin as -> ->. rewrite Ht in E. simpl in E.
      now rewrite Nat.eqb_refl in E.
    + eapply IH; eauto.
Qed.

(** Futures no entry holds are untouched. *)
Lemma cancel_all_frame entries : forall fs h,
  (forall k t, In (k, t) entries -> Timer.task t <> Some h) ->
  nth_error (cancel_all entries fs) h = nth_error fs h.
Proof.
  unfold cancel_all.
  induction entries as [|[k0 t0] entries IH]; intros fs h Hno; simpl; auto.
  rewrite IH by (intros k t Hin; apply (Hno k t); now right).
  apply cancel_in_other. apply (Hno k0 t0). now left.
Qed.

(* ================================================================== *)
(** * Lazy pruning: get_timers *)

Lemma get_timers_scan_run items : forall active w,
  dict_wf items ->
  (forall k, In k (dict_keys items) -> dict_get k (timers w) <> None) ->
  get_timers_scan items active w =
    (Ok (set_all (scan_active (clock w) (ticks w) items) active),
     mkWorld (del_all (scan_expired (clock w) (ticks w) items) (timers w))
       (alarms w)
       (cancel_all (scan_expired (clock w) (ticks w) items) (futures w))
       (trace w) (clock w) (ticks w + List.length items) (localtime w)).
Proof.
  induction items as [|[k t] items IH]; intros active w Hwf Hin.
  - simpl. unfold ret. rewrite Nat.add_0_r. now destruct w.
  - inversion Hwf as [|? ? Hni Hwf']; subst.
    assert (Hrest : forall d : dict Timer.t, (forall k', In k' (dict_keys items) ->
                      dict_get k' (dict_del k d) = dict_get k' d)).
    { intros d k' Hk'. apply dict_get_del_other. intros ->. contradiction. }
    cbn [get_timers_scan scan_active scan_expired]. unfold is_expired.
    unfold bind at 1. unfold time_time. cbn [fst snd].
    destruct (dict_get k (timers w)) as [t'|] eqn:Hk;
      [|exfalso; apply (Hin k); [now left | exact Hk]].
    destruct (Timer.end_time t ?= epoch (clock w (ticks w)))%Q.
    + (* expired: end_time equals the reading *)
      unfold bind. rewrite cancel_task_run.
      rewrite (del_timer_present k t') by exact Hk.
      rewrite IH; [|exact Hwf'|].
      * cbn. now rewrite Nat.add_succ_r.
      * intros k' Hk'. unfold with_timers, with_futures, with_ticks. cbn [timers].
        rewrite Hrest by exact Hk'. apply Hin. now right.
    + (* expired: end_time is before the reading *)
      unfold bind. rewrite cancel_task_run.
      rewrite (del_timer_present k t') by exact Hk.
      rewrite IH; [|exact Hwf'|].
      * cbn. now rewrite Nat.add_succ_r.
      * intros k' Hk'. unfold with_timers, with_futures, with_ticks. cbn [timers].
        rewrite Hrest by exact Hk'. apply Hin. now right.
    + (* still running *)
      rewrite IH; [|exact Hwf'|].
      * cbn. now rewrite Nat.add_succ_r.
      * intros k' Hk'. unfold with_ticks. cbn [timers]. apply Hin. now right.
Qed.

Lemma get_timers_run w :
  dict_wf (timers w) ->
  get_timers w =
    (Ok (set_all (scan_active (clock w) (ticks w) (timers w)) []),
     mkWorld (del_all (scan_expired (clock w) (ticks w) (timers w)) (timers w))
       (alarms w)
       (cancel_all (scan_expired (clock w) (ticks w) (timers w)) (futures w))
       (trace w) (clock w) (ticks w + List.length (timers w)) (localtime w)).
Proof.
  intros Hwf. unfold get_timers, bind, gets. cbn [fst snd].
  apply get_timers_scan_run; [exact Hwf|].
  intros k Hk Hnone. now apply dict_get_None_keys in Hnone.
Qed.

(** What [get_timers] returns and leaves behind, entry by entry. *)
Lemma get_timers_entries w (Hwf : dict_wf (timers w)) :
  let active := set_all (scan_active (clock w) (ticks w) (timers w)) [] in
  let expired := scan_expired (clock w) (ticks w) (timers w) in
  (forall k t, dict_get k active = Some t ->
     dict_get k (timers w) = Some t
     /\ exists i, (i < List.length (timers w))%nat
                  /\ (epoch (clock w (ticks w + i)) < Timer.end_time t)%Q)
  /\ (forall k t, dict_get k (timers w) = Some t -> dict_get k active = None ->
        In (k, t) expired)
  /\ (forall k, dict_get k (del_all expired (timers w)) = dict_get k active).
Proof.
  intros active expired. subst active expired.
  set (clk := clock w). set (n := ticks w). set (items := timers w) in *.
  split; [|split].
  - intros k t H. apply set_all_get_inv in H as [H|H]; [|discriminate].
    destruct (scan_active_In _ _ _ _ _ H) as (i & Hi & He).
    split.
    + apply In_dict_get; [exact Hwf|]. eapply nth_error_In; eauto.
    + exists i. split.
      * apply nth_error_Some. congruence.
      * now apply is_expired_false.
  - intros k t Hget Hnone.
    destruct (scan_partition clk items n k t (dict_get_In _ _ _ Hget)) as [Ha|He];
      [|exact He].
    rewrite (set_all_get_in _ [] k t) in Hnone; [discriminate| |exact Ha].
    now apply scan_active_wf.
  - intros k.
    destruct (in_dec string_dec k (dict_keys (scan_expired clk n items))) as [He|He].
    + rewrite del_all_get_in by exact He.
      rewrite set_all_get_out; [reflexivity|].
      intros Ha. exact (scan_disjoint clk items n k Hwf Ha He).
    + rewrite del_all_get_out by exact He.
      destruct (dict_get k items) as [t|] eqn:Hget.
      * destruct (scan_partition clk items n k t (dict_get_In _ _ _ Hget)) as [Ha|Hx].
        -- symmetry. apply set_all_get_in; [now apply scan_active_wf | exact Ha].
        -- exfalso. apply He. apply In_keys. now exists t.
      * rewrite set_all_get_out; [reflexivity|].
        intros Ha. apply In_keys in Ha as (t & Ht).
        apply scan_active_incl in Ht.
        apply dict_get_None_keys in Hget. apply Hget. apply In_keys. now exists t.
Qed.

(* ================================================================== *)
(** * Lazy pruning: the timer listing of check_timers_alarms *)

Lemma str_app_assoc (a b c : string) : (a ++ b) ++ c = a ++ (b ++ c).
Proof. induction a as [|x a IH]; simpl; [reflexivity | now rewrite IH]. Qed.

Lemma str_app_nil_r (a : string) : a ++ "" = a.
Proof. induction a as [|x a IH]; simpl; [reflexivity | now rewrite IH]. Qed.

Lemma timer_listing_cons k t items i text w :
  timer_listing ((k, t) :: items) i text w =
    let now := epoch (clock w (ticks w)) in
    let w1 := with_ticks w (S (ticks w)) in
    if Qle_bool (float_sub (Timer.end_time t) now) 0
    then timer_listing items (i + 1)%Z text w1
    else
      match localtime w (Timer.end_time t) with
      | Ok (h, m, s) =>
          timer_listing items (i + 1)%Z
            (text ++ py_str i ++ ". 剩余"
               ++ format_time_duration (py_int (float_sub (Timer.end_time t) now))
               ++ label_text (Timer.label t) ++ "，将在"
               ++ (fmt_02d h ++ ":" ++ fmt_02d m ++ ":" ++ fmt_02d s)
               ++ "提醒" ++ nl) w1
      | Raised e => (Raised e, w1)
      end.
Proof.
  cbn [timer_listing]. unfold bind at 1. unfold time_time. cbn [fst snd].
  cbv zeta. destruct (Qle_bool _ 0); [reflexivity|].
  mrun. now destruct (localtime w (Timer.end_time t)) as [[[h m] s]|e].
Qed.

Lemma timer_listing_run items : forall i text w,
  match first_unconverted (localtime w) (listed (clock w) (ticks w) items i) with
  | None =>
      timer_listing items i text w =
        (Ok (text ++ lines_text
                       (map (timer_line (localtime w))
                          (listed (clock w) (ticks w) items i))),
         with_ticks w (ticks w + List.length items))
  | Some e => exists n, timer_listing items i text w = (Raised e, with_ticks w n)
  end.
Proof.
  induction items as [|[k t] items IH]; intros i text w.
  - simpl. unfold ret. rewrite str_app_nil_r, Nat.add_0_r. now destruct w.
  - rewrite timer_listing_cons. cbv zeta. cbn [listed].
    destruct (Qle_bool (float_sub (Timer.end_time t) (epoch (clock w (ticks w)))) 0).
    + specialize (IH (i + 1)%Z text (with_ticks w (S (ticks w)))).
      unfold with_ticks in IH |- *.
      cbn [clock ticks localtime timers alarms futures trace List.length] in IH |- *.
      destruct (first_unconverted _ _) as [e|].
      * exact IH.
      * rewrite IH. now rewrite Nat.add_succ_r.
    + cbn [first_unconverted map lines_text timer_line].
      destruct (localtime w (Timer.end_time t)) as [[[h m] s]|e].
      * match goal with
        | |- context [timer_listing items (i + 1)%Z ?txt ?w1] =>
            specialize (IH (i + 1)%Z txt w1)
        end.
        unfold with_ticks in IH |- *.
        cbn [clock ticks localtime timers alarms futures trace List.length] in IH |- *.
        destruct (first_unconverted _ _) as [e|].
        -- exact IH.
        -- rewrite IH. rewrite Nat.add_succ_r. f_equal. f_equal.
           rewrite !str_app_assoc. reflexivity.
      * exists (S (ticks w)). reflexivity.
Qed.

(** Where the listing stops, [localtime] raised on a line it was about to
    write; and it stops whenever there is such a line. *)
Lemma first_unconverted_some_inv tm lines e :
  first_unconverted tm lines = Some e ->
  exists i t now, In (i, t, now) lines /\ tm (Timer.end_time t) = Raised e.
Proof.
  induction lines as [|[[i t] now] lines IH]; cbn [first_unconverted];
    [discriminate|].
  destruct (tm (Timer.end_time t)) as [hms|e'] eqn:E.
  - intros H. destruct (IH H) as (i' & t' & now' & Hin & Hr).
    exists i', t', now'. split; [now right | exact Hr].
  - intros [= <-]. exists i, t, now. split; [now left | exact E].
Qed.

Lemma first_unconverted_some tm lines i t now e :
  In (i, t, now) lines -> tm (Timer.end_time t) = Raised e ->
  exists e', first_unconverted tm lines = Some e'.
Proof.
  induction lines as [|[[i' t'] now'] lines IH]; cbn [first_unconverted];
    intros Hin Hr; [destruct Hin|].
  destruct (tm (Timer.end_time t')) as [hms|e'] eqn:E; [|now exists e'].
  destruct Hin as [H|H]; [|now apply IH].
  injection H as -> -> ->. congruence.
Qed.

Lemma listed_In clk items : forall n i0 i t now,
  In (i, t, now) (listed clk n items i0) ->
  exists j k, nth_error items j = Some (k, t)
              /\ now = epoch (clk (n + j)%nat)
              /\ (now < Timer.end_time t)%Q.
Proof.
  induction items as [|[k0 t0] items IH]; intros n i0 i t now; simpl; [tauto|].
  assert (Hrest : In (i, t, now) (listed clk (S n) items (i0 + 1)) ->
                  exists j k, nth_error ((k0, t0) :: items) j = Some (k, t)
                              /\ now = epoch (clk (n + j)%nat)
                              /\ (now < Timer.end_time t)%Q).
  { intros H. destruct (IH _ _ _ _ _ H) as (j & k & Hj & Hnow & Hlt).
    exists (S j), k. rewrite Nat.add_succ_r. auto. }
  destruct (Qle_bool (float_sub (Timer.end_time t0) (epoch (clk n))) 0) eqn:E;
    [exact Hrest|].
  intros [H|H]; [|auto].
  injection H as <- <- <-. exists 0%nat, k0. rewrite Nat.add_0_r.
  repeat split.
  apply float_sub_pos. apply Qnot_le_lt. intros Hle.
  apply Qle_bool_iff in Hle. congruence.
Qed.

Lemma dict_set_In_inv {V} (k k0 : string) (v v0 : V) (d : dict V) :
  In (k, v) (dict_set k0 v0 d) -> (k, v) = (k0, v0) \/ In (k, v) d.
Proof.
  induction d as [|[k1 v1] d IH]; simpl.
  - intros [H|[]]. now left.
  - destruct (String.eqb k0 k1); simpl; intros [H|H]; auto.
    destruct (IH H); auto.
Qed.

Lemma set_all_In_inv entries : forall d k t,
  In (k, t) (set_all entries d) -> In (k, t) entries \/ In (k, t) d.
Proof.
  induction entries as [|[k0 t0] entries IH]; intros d k t; simpl; auto.
  change (set_all ((k0, t0) :: entries) d) with (set_all entries (dict_set k0 t0 d)).
  intros H. destruct (IH _ _ _ H) as [Hin|Hin]; auto.
  apply dict_set_In_inv in Hin as [Heq|Hin]; auto.
Qed.

(** The answer of [check_timers_alarms('timer')]: the listing of the
    timers [get_timers] returned, or the failure answer when [localtime]
    raises on a listed timer.  The registry is pruned in either case. *)
Lemma check_timers_run conn response_success response_failure w :
  dict_wf (timers w) ->
  let active := set_all (scan_active (clock w) (ticks w) (timers w)) [] in
  let shown :=
    listed (clock w) (ticks w + List.length (timers w)) active 1 in
  exists r w',
    check_timers_alarms conn "timer" response_success response_failure w = (Ok r, w')
    /\ match active, first_unconverted (localtime w) shown with
       | [], _ => response r = "没有正在进行的计时器。"
       | _ :: _, None =>
           response r =
             ("当前计时器:" ++ nl)
               ++ lines_text (map (timer_line (localtime w)) shown)
       | _ :: _, Some e =>
           r = mkActionResponse RESPONSE ("错误: " ++ exn_str e) response_failure
       end
    /\ timers w' = del_all (scan_expired (clock w) (ticks w) (timers w)) (timers w).
Proof.
  intros Hwf active shown. unfold check_timers_alarms, try_except.
  change (str_in "timer" ["timer"; "all"]) with true.
  change (str_in "timer" ["alarm"; "all"]) with false.
  cbv iota. unfold bind at 1. unfold bind at 1. unfold bind at 1.
  rewrite (get_timers_run w Hwf). fold active.
  destruct active as [|kt rest] eqn:Ea.
  - unfold bind, ret. cbn [fst snd app]. do 2 eexists.
    split; [reflexivity|]. cbn [response join timers]. auto.
  - unfold bind at 1.
    match goal with
    | |- context [timer_listing ?items ?i ?txt ?w1] =>
        pose proof (timer_listing_run items i txt w1) as Hl
    end.
    cbn [clock ticks localtime] in Hl. fold shown in Hl.
    destruct (first_unconverted (localtime w) shown) as [e|].
    + destruct Hl as [n ->]. unfold bind, ret, logger_error, emit, modify.
      cbn [fst snd]. do 2 eexists. split; [reflexivity|].
      unfold with_ticks, with_trace. cbn [timers]. auto.
    + rewrite Hl. unfold bind, ret. cbn [fst snd app]. do 2 eexists.
      split; [reflexivity|]. unfold with_ticks.
      cbn [response join timers clock ticks localtime]. auto.
Qed.

(** C6.  On a registry with distinct ids, [get_timers] returns normally.
    Every timer it returns was registered and has an [end_time] later than
    the clock reading its scan took, hence later than the time of the call,
    [t0], whenever the clock does not run backwards.  Every registered
    timer it does not return is gone from the registry afterwards, and the
    future behind its handle, if it was pending, is cancelled.  The
    registry afterwards holds exactly the returned timers; alarms and
    trace are untouched.  [check_timers_alarms('timer')] answers that no
    timer is running, or with a listing that shows only registered timers
    whose [end_time] is later than the time of the call, or, where
    [localtime] raises on the end of such a timer, with the failure
    response and no listing. *)
Theorem get_timers_prunes_expired
    (w : World) (conn : Conn) (response_success response_failure : string)
    (Hwf : dict_wf (timers w)) :
  exists active,
    let w' := after get_timers w in
    outcome get_timers w = Ok active
    /\ (forall k t, dict_get k active = Some t ->
          dict_get k (timers w) = Some t
          /\ exists i, (i < List.length (timers w))%nat
                       /\ (epoch (clock w (ticks w + i)) < Timer.end_time t)%Q)
    /\ (forall k t, dict_get k (timers w) = Some t -> dict_get k active = None ->
          dict_get k (timers w') = None
          /\ forall h, Timer.task t = Some h ->
                       state_of (futures w) h = Some Pending ->
                       state_of (futures w') h = Some Cancelled)
    /\ (forall k, dict_get k (timers w') = dict_get k active)
    /\ alarms w' = alarms w /\ trace w' = trace w
    /\ (forall t0 : Q,
          (forall i, (t0 <= epoch (clock w (ticks w + i)))%Q) ->
          (forall k t, dict_get k active = Some t -> (t0 < Timer.end_time t)%Q)
          /\ exists r shown,
               outcome (check_timers_alarms conn "timer" response_success
                          response_failure) w = Ok r
               /\ (response r = "没有正在进行的计时器。" /\ shown = []
                   \/ response r =
                        ("当前计时器:" ++ nl)
                          ++ lines_text (map (timer_line (localtime w)) shown)
                   \/ (exists e t,
                         (exists k, dict_get k (timers w) = Some t)
                         /\ (t0 < Timer.end_time t)%Q
                         /\ localtime w (Timer.end_time t) = Raised e
                         /\ r = mkActionResponse RESPONSE ("错误: " ++ exn_str e)
                                  response_failure)
                      /\ shown = [])
               /\ forall i t now, In (i, t, now) shown ->
                    (exists k, dict_get k (timers w) = Some t)
                    /\ (t0 < Timer.end_time t)%Q).
Proof.
  destruct (get_timers_entries w Hwf) as (Hact & Hexp & Hreg).
  exists (set_all (scan_active (clock w) (ticks w) (timers w)) []).
  unfold after, outcome. rewrite (get_timers_run w Hwf). cbn [fst snd timers futures alarms trace].
  split; [reflexivity|]. split; [exact Hact|]. split; [|split; [exact Hreg|]].
  - intros k t Hget Hnone. pose proof (Hexp k t Hget Hnone) as Hin. split.
    + apply del_all_get_in. apply In_keys. now exists t.
    + intros h Hh Hp. eapply cancel_all_pending; eauto.
  - split; [reflexivity|]. split; [reflexivity|].
    intros t0 Hmono. split.
    + intros k t Hget. destruct (Hact k t Hget) as (_ & i & _ & Hlt).
      specialize (Hmono i). lra.
    + destruct (check_timers_run conn response_success response_failure w Hwf)
        as (r & w1 & Hrun & Hresp & _).
      rewrite Hrun. cbn [fst].
      destruct (set_all (scan_active (clock w) (ticks w) (timers w)) []) as [|kt rest] eqn:Ea.
      * exists r, []. split; [reflexivity|]. split; [now left|]. intros i t now [].
      * assert (Hlines : forall i t now,
                  In (i, t, now)
                    (listed (clock w) (ticks w + List.length (timers w)) (kt :: rest) 1) ->
                  (exists k, dict_get k (timers w) = Some t)
                  /\ (t0 < Timer.end_time t)%Q).
        { intros i t now Hin.
          destruct (listed_In _ _ _ _ _ _ _ Hin) as (j & k & Hj & Hnow & Hlt).
          apply nth_error_In in Hj. rewrite <- Ea in Hj.
          apply set_all_In_inv in Hj as [Hj|[]].
          apply scan_active_incl in Hj.
          split.
          - exists k. now apply In_dict_get.
          - specialize (Hmono (List.length (timers w) + j)%nat).
            rewrite Nat.add_assoc in Hmono. rewrite <- Hnow in Hmono. lra. }
        destruct (first_unconverted _ _) as [e|] eqn:Ef.
        { destruct (first_unconverted_some_inv _ _ _ Ef) as (i & t & now & Hin & Hr).
          destruct (Hlines i t now Hin) as [Hreg' Hlt].
          exists r, []. split; [reflexivity|].
          split; [right; right; split; [now exists e, t | reflexivity]|].
          intros i' t' now' []. }
        exists r. eexists. split; [reflexivity|]. split; [right; left; exact Hresp|].
        exact Hlines.
Qed.

Lemma stale_world_wf : dict_wf (timers stale_world).
Proof.
  unfold dict_wf. cbn. repeat constructor; cbn; intuition discriminate.
Defined.

Lemma get_timers_prunes_witness :
  exists active,
    outcome get_timers stale_world = Ok active
    /\ (forall k, dict_get k (timers (after get_timers stale_world)) = dict_get k active)
    /\ dict_mem "timer_100_0" (timers stale_world) = true
    /\ dict_mem "timer_100_0" (timers (after get_timers stale_world)) = false.
Proof.
  destruct (get_timers_prunes_expired stale_world conn_up "" "" stale_world_wf)
    as (active & Hout & _ & _ & Hreg & _).
  exists active. repeat split; assumption || reflexivity.
Defined.

(* ================================================================== *)
(** * cancel_timer_alarm('all') with one id *)

Lemma cancel_all_timer_id_run conn response_success response_failure id w :
  dict_wf (timers w) ->
  exists r w',
    cancel_timer_alarm conn "all" response_success response_failure (Some id) None w
      = (Ok r, w')
    /\ timers w' =
         dict_del id (del_all (scan_expired (clock w) (ticks w) (timers w)) (timers w))
    /\ alarms w' = [].
Proof.
  intros Hwf. unfold cancel_timer_alarm, try_except.
  change (str_in "all" ["timer"; "all"]) with true.
  change (str_in "all" ["alarm"; "all"]) with true.
  cbv iota. unfold bind, get_alarms, gets, ret.
  rewrite (get_timers_run w Hwf).
  set (w1 := mkWorld _ _ _ _ _ _ _).
  destruct (dict_get id (timers w1)) as [timer|] eqn:E.
  - rewrite (cancel_timer_present id timer w1 E).
    rewrite cancel_alarm_all. cbn [orb]. do 2 eexists.
    split; [reflexivity|]. split; reflexivity.
  - rewrite (cancel_timer_absent id w1 E).
    rewrite cancel_alarm_all. cbn [orb]. do 2 eexists.
    split; [reflexivity|]. cbn [timers alarms with_alarms with_futures].
    split; [|reflexivity]. symmetry. now apply dict_del_absent.
Qed.

Lemma cancel_all_alarm_id_run conn response_success response_failure id w :
  dict_wf (timers w) ->
  exists r w',
    cancel_timer_alarm conn "all" response_success response_failure None (Some id) w
      = (Ok r, w')
    /\ timers w' = []
    /\ alarms w' = dict_del id (alarms w).
Proof.
  intros Hwf. unfold cancel_timer_alarm, try_except.
  change (str_in "all" ["timer"; "all"]) with true.
  change (str_in "all" ["alarm"; "all"]) with true.
  cbv iota. unfold bind, get_alarms, gets, ret.
  rewrite (get_timers_run w Hwf).
  set (w1 := mkWorld _ _ _ _ _ _ _).
  rewrite cancel_timer_all.
  set (w2 := with_timers _ _).
  assert (Ha : alarms w2 = alarms w) by reflexivity.
  destruct (dict_get id (alarms w2)) as [alarm|] eqn:E.
  - rewrite (cancel_alarm_present id alarm w2 E). do 2 eexists.
    split; [reflexivity|]. split; [reflexivity|].
    cbn [alarms with_alarms]. now rewrite Ha.
  - rewrite (cancel_alarm_absent id w2 E). do 2 eexists.
    split; [reflexivity|]. split; [reflexivity|].
    rewrite Ha in *. symmetry. now apply dict_del_absent.
Qed.

(** The claim of C10 fails where another timer has expired: with the ids
    of a running timer and no alarm id, the expired timer, which was not
    named, is removed as well. *)
Lemma cancel_all_with_timer_id_prunes_others :
  dict_mem "timer_100_0" (timers stale_world) = true
  /\ dict_mem "timer_500_1" (timers stale_world) = true
  /\ outcome (cancel_timer_alarm conn_up "all" "" "" (Some "timer_500_1") None)
       stale_world
     = Ok (mkActionResponse RESPONSE "取消成功" "已取消1个计时器。 未找到指定的闹钟。")
  /\ dict_mem "timer_100_0"
       (timers (after (cancel_timer_alarm conn_up "all" "" "" (Some "timer_500_1") None)
                  stale_world))
     = false
  /\ alarms (after (cancel_timer_alarm conn_up "all" "" "" (Some "timer_500_1") None)
               stale_world)
     = [].
Proof. vm_compute. repeat split. Qed.

(** C10, amended.  With cancel_type 'all' and only a timer id, the call
    returns normally; it removes the named timer and, through the listing
    that precedes the cancellation, the timers found expired; every other
    timer stays: each timer whose [end_time] is later than the readings
    the clock gives during the scan, one per registered timer, and in
    general each timer [get_timers] alone would have left; every alarm
    is removed.  With only an alarm id, every timer is removed and only
    the named alarm. *)
Theorem cancel_all_with_one_id
    (w : World) (conn : Conn) (response_success response_failure : string)
    (id : string) (Hwf : dict_wf (timers w)) :
  (let call :=
     cancel_timer_alarm conn "all" response_success response_failure (Some id) None in
   let w' := after call w in
   (exists r, outcome call w = Ok r)
   /\ alarms w' = []
   /\ dict_get id (timers w') = None
   /\ (forall k, k <> id ->
         dict_get k (timers w') = dict_get k (timers (after get_timers w)))
   /\ (forall k t, k <> id -> dict_get k (timers w) = Some t ->
         (forall i, (i < List.length (timers w))%nat ->
                    (epoch (clock w (ticks w + i)) < Timer.end_time t)%Q) ->
         dict_get k (timers w') = Some t)
   /\ (forall k t, dict_get k (timers w') = Some t ->
         k <> id /\ dict_get k (timers w) = Some t))
  /\
  (let call :=
     cancel_timer_alarm conn "all" response_success response_failure None (Some id) in
   let w' := after call w in
   (exists r, outcome call w = Ok r)
   /\ timers w' = []
   /\ dict_get id (alarms w') = None
   /\ (forall k, k <> id -> dict_get k (alarms w') = dict_get k (alarms w))).
Proof.
  split.
  - intros call w'. subst call w'. unfold after, outcome.
    destruct (cancel_all_timer_id_run conn response_success response_failure id w Hwf)
      as (r & w' & Hrun & Ht & Ha).
    rewrite Hrun. cbn [fst snd]. rewrite Ht.
    rewrite (get_timers_run w Hwf). cbn [snd timers].
    destruct (get_timers_entries w Hwf) as (Hact & Hexp & Hreg).
    split; [now exists r|]. split; [exact Ha|].
    split; [apply dict_get_del_same|].
    split; [intros k Hk; now apply dict_get_del_other|].
    split.
    + intros k t Hk Hget Hlive. rewrite dict_get_del_other by exact Hk.
      rewrite Hreg.
      destruct (dict_get k (set_all (scan_active (clock w) (ticks w) (timers w)) []))
        as [t'|] eqn:E.
      * destruct (Hact k t' E) as (Hget' & _). congruence.
      * exfalso. pose proof (Hexp k t Hget E) as Hin.
        assert (Hx : exists j, (j < List.length (timers w))%nat
                               /\ is_expired (epoch (clock w (ticks w + j))) t = true).
        { clear - Hin. revert Hin. generalize (ticks w) as n.
          induction (timers w) as [|[k0 t0] items IH]; intros n; simpl; [tauto|].
          destruct (is_expired (epoch (clock w n)) t0) eqn:Ee.
          - intros [H|H].
            + injection H as <- <-. exists 0%nat. rewrite Nat.add_0_r.
              split; [lia | exact Ee].
            + destruct (IH _ H) as (j & Hlt & Hj). exists (S j).
              rewrite Nat.add_succ_r. split; [lia | exact Hj].
          - intros H. destruct (IH _ H) as (j & Hlt & Hj). exists (S j).
            rewrite Nat.add_succ_r. split; [lia | exact Hj]. }
        destruct Hx as (j & Hlt & Hj).
        pose proof (proj2 (is_expired_false _ _) (Hlive j Hlt)). congruence.
    + intros k t Hget.
      destruct (string_dec k id) as [->|Hne];
        [now rewrite dict_get_del_same in Hget|].
      split; [exact Hne|].
      rewrite dict_get_del_other in Hget by exact Hne. rewrite Hreg in Hget.
      now apply Hact.
  - intros call w'. subst call w'. unfold after, outcome.
    destruct (cancel_all_alarm_id_run conn response_success response_failure id w Hwf)
      as (r & w' & Hrun & Ht & Ha).
    rewrite Hrun. cbn [fst snd]. rewrite Ht, Ha.
    split; [now exists r|]. split; [reflexivity|].
    split; [apply dict_get_del_same|].
    intros k Hk. now apply dict_get_del_other.
Qed.

Lemma busy_world_wf : dict_wf (timers busy_world).
Proof.
  unfold dict_wf. cbn. repeat constructor; cbn; intuition discriminate.
Defined.

Lemma cancel_all_with_one_id_witness :
  (* the first of two running timers is named: the second stays *)
  dict_get "timer_100_0"
    (timers (after (cancel_timer_alarm conn_up "all" "" "" (Some "timer_100_0") None)
               busy_world)) = None
  /\ option_map Timer.duration
       (dict_get "timer_100_1"
          (timers (after (cancel_timer_alarm conn_up "all" "" "" (Some "timer_100_0") None)
                     busy_world))) = Some 600%Z
  /\ alarms (after (cancel_timer_alarm conn_up "all" "" "" (Some "timer_100_0") None)
               busy_world) = []
  /\ timers (after (cancel_timer_alarm conn_up "all" "" "" None (Some "alarm_100_0"))
               busy_world) = [].
Proof.
  destruct (cancel_all_with_one_id busy_world conn_up "" "" "timer_100_0"
              busy_world_wf) as [(_ & Ha & Hg & _ & Hstay & _) _].
  destruct (cancel_all_with_one_id busy_world conn_up "" "" "alarm_100_0"
              busy_world_wf) as [_ (_ & Ht & _)].
  split; [exact Hg|]. split; [|split; assumption].
  rewrite (Hstay "timer_100_1"
             (Timer.mk 600 (804 # 8) (1401 # 2) None (Some 1%nat))).
  - reflexivity.
  - discriminate.
  - reflexivity.
  - intros i Hi. cbn in Hi.
    destruct i as [|[|i]]; [reflexivity | reflexivity | lia].
Defined.

(* ================================================================== *)
(** * A pending callback fires on the next turn of the loop *)

Lemma notify_delivers conn message w :
  has_websocket conn = true ->
  send_stt_message conn message = None ->
  executor_submit conn
    (if use_function_call_mode conn then chat_with_function_calling else chat)
    message = None ->
  notify conn message w =
    (Ok tt,
     with_trace w
       (trace w ++ [SttMessage message;
                    Submitted (if use_function_call_mode conn
                               then chat_with_function_calling else chat) message])%list).
Proof.
  intros Hws Hs He. unfold notify, deliver, submit, bind, emit, modify.
  rewrite Hws, Hs. destruct (use_function_call_mode conn); rewrite He;
    unfold with_trace; cbn; now rewrite <- app_assoc.
Qed.

Lemma timer_callback_delivers conn id label timer w :
  has_websocket conn = true ->
  dict_get id (timers w) = Some timer ->
  send_stt_message conn (timer_message label) = None ->
  executor_submit conn
    (if use_function_call_mode conn then chat_with_function_calling else chat)
    (timer_message label) = None ->
  timer_callback conn id label w =
    (Ok tt,
     with_trace (with_timers w (dict_del id (timers w)))
       (trace w ++ [SttMessage (timer_message label);
                    Submitted (if use_function_call_mode conn
                               then chat_with_function_calling else chat)
                      (timer_message label);
                    LogInfo ("计时器 " ++ id ++ " 已触发: " ++ timer_message label)])%list).
Proof.
  intros Hws H Hs He. unfold timer_callback, try_except, bind, gets. cbn [fst snd].
  rewrite H. rewrite notify_delivers by assumption.
  rewrite (del_timer_present id timer) by exact H.
  unfold logger_info, emit, modify, with_trace, with_timers. cbn.
  now rewrite <- app_assoc.
Qed.

(** A pending timer callback on a live connection runs on the next turn
    of the loop: the message goes out, the entry is deleted, and the
    clock is not consulted ([ticks] and [clock] come out as they went in);
    nothing makes the turn wait for [end_time]. *)
Lemma loop_step_fires_pending_timer h conn id label timer w :
  nth_error (futures w) h = Some (mkFuture (TimerCallback conn id label) Pending) ->
  has_websocket conn = true ->
  dict_get id (timers w) = Some timer ->
  send_stt_message conn (timer_message label) = None ->
  executor_submit conn
    (if use_function_call_mode conn then chat_with_function_calling else chat)
    (timer_message label) = None ->
  loop_step h w =
    (Ok tt,
     mkWorld (dict_del id (timers w)) (alarms w)
       (list_update h (mkFuture (TimerCallback conn id label) Finished) (futures w))
       (trace w ++ [SttMessage (timer_message label);
                    Submitted (if use_function_call_mode conn
                               then chat_with_function_calling else chat)
                      (timer_message label);
                    LogInfo ("计时器 " ++ id ++ " 已触发: " ++ timer_message label)])%list
       (clock w) (ticks w) (localtime w)).
Proof.
  intros Hh Hws H Hs He. unfold loop_step, bind, gets. cbn [fst snd].
  rewrite Hh. cbn [done fstate coro run_coroutine].
  now rewrite (timer_callback_delivers conn id label timer w Hws H Hs He).
Qed.

(** X16.  Every timer that [set_timer] sets on a live connection is
    announced and removed by the first turn of the loop after it,
    whatever its duration and whatever the clock says: the turn returns
    normally, takes no clock reading, sends the reminder, hands it to the
    conversation and deletes the entry.  [set_timer] sets the timer when
    the duration is positive and one a float holds, and [localtime]
    converts the end. *)
Lemma set_timer_fires_at_once
    (w : World) (conn : Conn) (duration : Z)
    (response_success response_failure : string) (label : option string) :
  (0 < duration)%Z ->
  float_range duration = true ->
  (exists hms,
     localtime w (fl (epoch (clock w (S (S (ticks w)))) + fl (inject_Z duration)))
     = Ok hms) ->
  has_websocket conn = true ->
  send_stt_message conn (timer_message label) = None ->
  executor_submit conn
    (if use_function_call_mode conn then chat_with_function_calling else chat)
    (timer_message label) = None ->
  let w1 := after (set_timer conn duration response_success response_failure label) w in
  let w2 := after (loop_step (List.length (futures w))) w1 in
  exists timer_id timer,
    dict_get timer_id (timers w1) = Some timer
    /\ Timer.duration timer = duration
    /\ outcome (loop_step (List.length (futures w))) w1 = Ok tt
    /\ ticks w2 = ticks w1
    /\ dict_get timer_id (timers w2) = None
    /\ notifications (trace w2) =
         (notifications (trace w1)
            ++ [SttMessage (timer_message label);
                Submitted (if use_function_call_mode conn
                           then chat_with_function_calling else chat)
                  (timer_message label)])%list.
Proof.
  intros Hpos Hr [hms Hlt] Hws Hs He w1 w2. subst w2 w1. unfold after, outcome.
  rewrite (set_timer_run conn duration response_success response_failure label w hms
             Hpos Hr Hlt).
  cbn [fst snd].
  set (id := "timer_" ++ _).
  set (timer := Timer.with_task _ _).
  set (w1 := mkWorld _ _ _ _ _ _ _).
  assert (Hg : dict_get id (timers w1) = Some timer) by apply dict_get_set_same.
  assert (Hh : nth_error (futures w1) (List.length (futures w))
               = Some (mkFuture (TimerCallback conn id label) Pending)).
  { subst w1. cbn [futures]. rewrite nth_error_app2 by apply Nat.le_refl.
    now rewrite Nat.sub_diag. }
  rewrite (loop_step_fires_pending_timer _ conn id label timer w1 Hh Hws Hg Hs He).
  cbn [fst snd timers ticks trace].
  exists id, timer. repeat split; auto.
  - apply dict_get_del_same.
  - unfold notifications. rewrite filter_app. reflexivity.
Qed.

(* ================================================================== *)
(** * The registry keeps its ids distinct *)

Lemma del_all_wf entries : forall d, dict_wf d -> dict_wf (del_all entries d).
Proof.
  unfold del_all. induction entries as [|[k t] entries IH]; intros d Hwf; simpl; auto.
  apply IH. now apply dict_wf_del.
Qed.

Lemma cancel_timer_wf timer_id w :
  dict_wf (timers w) -> dict_wf (timers (after (cancel_timer timer_id) w)).
Proof.
  intros Hwf. unfold after. destruct timer_id as [id|].
  - destruct (dict_get id (timers w)) as [timer|] eqn:E.
    + rewrite (cancel_timer_present id timer w E). cbn. now apply dict_wf_del.
    + now rewrite (cancel_timer_absent id w E).
  - rewrite cancel_timer_all. cbn. constructor.
Qed.

Lemma get_timers_wf w :
  dict_wf (timers w) -> dict_wf (timers (after get_timers w)).
Proof.
  intros Hwf. unfold after. rewrite (get_timers_run w Hwf). cbn [snd timers].
  now apply del_all_wf.
Qed.

Lemma add_timer_wf duration label w :
  dict_wf (timers w) -> dict_wf (timers (after (add_timer duration label) w)).
Proof.
  intros Hwf. unfold after. destruct (float_range duration) eqn:Hr.
  - rewrite add_timer_run by exact Hr. cbn [snd].
    unfold with_timers. cbn [timers]. now apply dict_wf_set.
  - now rewrite add_timer_overflow by exact Hr.
Qed.

Lemma set_timer_wf conn duration response_success response_failure label w :
  dict_wf (timers w) ->
  dict_wf (timers (after (set_timer conn duration response_success
                            response_failure label) w)).
Proof.
  intros Hwf. unfold after. destruct (Z.ltb_spec 0 duration) as [Hpos|Hle].
  - destruct (float_range duration) eqn:Hr.
    + destruct (localtime w (fl (epoch (clock w (S (S (ticks w))))
                                 + fl (inject_Z duration)))) as [hms|e] eqn:Hlt.
      * rewrite (set_timer_run conn duration response_success response_failure label
                   w hms Hpos Hr Hlt).
        cbn [snd timers]. now do 2 apply dict_wf_set.
      * rewrite (set_timer_unconverted conn duration response_success response_failure
                   label w e Hpos Hr Hlt).
        cbn [snd timers]. now apply dict_wf_set.
    + now rewrite (set_timer_overflow conn duration response_success response_failure
                     label w Hpos Hr).
  - now rewrite (set_timer_rejects conn duration response_success response_failure
                   label w Hle).
Qed.

(* ================================================================== *)
(** * When two generated ids coincide *)

Lemma uint_chars (d : Decimal.uint) :
  str_forall is_int_char (NilEmpty.string_of_uint d) = true.
Proof. induction d; simpl; auto. Qed.

Lemma py_str_chars (n : Z) : str_forall is_int_char (py_str n) = true.
Proof.
  unfold py_str, NilZero.string_of_int, NilZero.string_of_uint.
  destruct (Z.to_int n) as [d|d]; destruct d; simpl; auto using uint_chars.
Qed.

Lemma py_str_inj (n m : Z) : py_str n = py_str m -> n = m.
Proof.
  unfold py_str. intros H. apply DecimalZ.to_int_inj.
  assert (Hnn : forall z, Z.to_int z <> Decimal.Pos Decimal.Nil
                          /\ Z.to_int z <> Decimal.Neg Decimal.Nil).
  { intros [|p|p]; simpl; split; try discriminate;
      intros [= E]; now apply DecimalPos.Unsigned.to_uint_nonnil in E. }
  pose proof (NilZero.isi (Z.to_int n) (proj1 (Hnn n)) (proj2 (Hnn n))) as Hn.
  pose proof (NilZero.isi (Z.to_int m) (proj1 (Hnn m)) (proj2 (Hnn m))) as Hm.
  rewrite H in Hn. congruence.
Qed.

(** Two texts cut at a separator neither head contains are cut at the
    same place. *)
Lemma split_at_sep (sep : ascii) (a a' b b' : string) :
  str_mem sep a = false -> str_mem sep a' = false ->
  a ++ String sep b = a' ++ String sep b' -> a = a' /\ b = b'.
Proof.
  revert a'. induction a as [|x a IH]; intros [|x' a']; simpl.
  - intros _ _ [= ->]. auto.
  - intros _ H [= <- _]. rewrite Ascii.eqb_refl in H. discriminate.
  - intros H _ [= -> _]. rewrite Ascii.eqb_refl in H. discriminate.
  - intros H H' [= <- E].
    apply orb_false_iff in H as [_ H]. apply orb_false_iff in H' as [_ H'].
    destruct (IH a' H H' E) as [-> ->]. auto.
Qed.

Lemma int_chars_no_underscore (s : string) :
  str_forall is_int_char s = true -> str_mem "_" s = false.
Proof.
  induction s as [|a s IH]; simpl; auto.
  intros H. apply andb_true_iff in H as [Ha Hs]. rewrite (IH Hs), orb_false_r.
  destruct (Ascii.eqb "_" a) eqn:E; auto.
  apply Ascii.eqb_eq in E. subst a. discriminate.
Qed.

Lemma id_parts_inj (prefix : string) (s s' : Z) (n n' : nat) :
  prefix ++ py_str s ++ "_" ++ py_str (Z.of_nat n)
  = prefix ++ py_str s' ++ "_" ++ py_str (Z.of_nat n') ->
  s = s' /\ n = n'.
Proof.
  induction prefix as [|c prefix IH]; simpl.
  - intros H.
    apply split_at_sep in H as [Hs Hn];
      try (apply int_chars_no_underscore, py_str_chars).
    apply py_str_inj in Hs. apply py_str_inj in Hn. split; [exact Hs | lia].
  - intros [= H]. auto.
Qed.

Lemma add_timer_returns_id duration label w id :
  outcome (add_timer duration label) w = Ok id ->
  id = timer_id_of (py_int (epoch (clock w (ticks w)))) (List.length (timers w)).
Proof.
  unfold outcome. destruct (float_range duration) eqn:Hr.
  - rewrite add_timer_run by exact Hr. cbn [fst]. now intros [= <-].
  - rewrite add_timer_overflow by exact Hr. discriminate.
Qed.

Lemma add_alarm_returns_id hour minute day_offset label w id :
  outcome (add_alarm hour minute day_offset label) w = Ok id ->
  id = alarm_id_of (py_int (epoch (clock w (ticks w)))) (List.length (alarms w)).
Proof.
  unfold outcome, add_alarm, timedelta_days, date_add, datetime_time, c_int,
    gets, time_time, datetime_now, raise, ret, modify, bind.
  cbn [fst snd ticks clock alarms with_ticks].
  repeat match goal with
         | |- context [if ?b then _ else _] => destruct b; cbn [fst snd negb]
         end;
    try discriminate; now intros [= <-].
Qed.

(** X1.  The id [add_timer] returns is built from the second of its first
    clock reading and the size of the timer dictionary, and two ids it
    returns, in whatever states, are the same exactly when both the
    second and the size are the same; likewise for [add_alarm].  Each
    returns an id unless it raises: [add_timer] raises for a duration
    beyond the floats, [add_alarm], for an hour and a minute in range,
    when there is no target date. *)
Theorem generated_ids_coincide_iff
    (w1 w2 : World) (d1 d2 : Z) (l1 l2 : option string) :
  let second w := py_int (epoch (clock w (ticks w))) in
  (forall id1 id2,
     outcome (add_timer d1 l1) w1 = Ok id1 ->
     outcome (add_timer d2 l2) w2 = Ok id2 ->
     (id1 = id2 <-> second w1 = second w2
                    /\ List.length (timers w1) = List.length (timers w2)))
  /\ (forall hour1 minute1 offset1 hour2 minute2 offset2 id1 id2,
        outcome (add_alarm hour1 minute1 offset1 l1) w1 = Ok id1 ->
        outcome (add_alarm hour2 minute2 offset2 l2) w2 = Ok id2 ->
        (id1 = id2 <-> second w1 = second w2
                       /\ List.length (alarms w1) = List.length (alarms w2)))
  /\ (float_range d1 = true ->
      outcome (add_timer d1 l1) w1
      = Ok (timer_id_of (second w1) (List.length (timers w1))))
  /\ (forall hour minute day_offset,
        (0 <= hour <= 23)%Z -> (0 <= minute <= 59)%Z ->
        target_exists (local_now (clock w1 (S (ticks w1)))) hour minute day_offset = true ->
        outcome (add_alarm hour minute day_offset l1) w1
        = Ok (alarm_id_of (second w1) (List.length (alarms w1)))).
Proof.
  intros second. split; [|split; [|split]].
  - intros id1 id2 H1 H2.
    apply add_timer_returns_id in H1. apply add_timer_returns_id in H2. subst id1 id2.
    split.
    + intros H. now apply (id_parts_inj "timer_") in H.
    + intros [E1 E2]. subst second. cbv beta in E1. now rewrite E1, E2.
  - intros hour1 minute1 offset1 hour2 minute2 offset2 id1 id2 H1 H2.
    apply add_alarm_returns_id in H1. apply add_alarm_returns_id in H2. subst id1 id2.
    split.
    + intros H. now apply (id_parts_inj "alarm_") in H.
    + intros [E1 E2]. subst second. cbv beta in E1. now rewrite E1, E2.
  - intros Hr. unfold outcome. now rewrite add_timer_run by exact Hr.
  - intros hour minute day_offset Hhour Hminute He. unfold outcome.
    now rewrite add_alarm_run by assumption.
Qed.

(* ================================================================== *)
(** * Setting an alarm *)

Lemma fmt_02d_length (n : Z) :
  (0 <= n <= 99)%Z -> String.length (fmt_02d n) = 2%nat.
Proof.
  intros Hn.
  assert (Hall : forallb (fun k => (String.length (fmt_02d (Z.of_nat k)) =? 2)%nat)
                   (seq 0 100) = true) by (vm_compute; reflexivity).
  rewrite forallb_forall in Hall.
  specialize (Hall (Z.to_nat n)). rewrite Z2Nat.id in Hall by lia.
  apply Nat.eqb_eq, Hall. apply in_seq. lia.
Qed.

Lemma set_alarm_run conn hour minute response_success response_failure
    day_offset label w :
  (0 <= hour <= 23)%Z -> (0 <= minute <= 59)%Z -> (0 <= day_offset)%Z ->
  let now := local_now (clock w (S (ticks w))) in
  target_exists now hour minute day_offset = true ->
  let alarm_id := alarm_id_of (py_int (epoch (clock w (ticks w))))
                    (List.length (alarms w)) in
  let naive := datetime.combine (datetime.date now + day_offset) hour minute in
  let target :=
    if datetime.ltb naive now && (day_offset =? 0)%Z
    then datetime.combine (datetime.date now + 1) hour minute else naive in
  let alarm := Alarm.mk hour minute day_offset target label None in
  let time_diff :=
    fl (datetime.diff_seconds target (local_now (clock w (S (S (ticks w)))))) in
  let time_str := fmt_02d hour ++ ":" ++ fmt_02d minute in
  let day_str := format_day_text day_offset in
  let task := List.length (futures w) in
  set_alarm conn hour minute response_success response_failure day_offset label w =
    (Ok (mkActionResponse RESPONSE ("闹钟已设置: " ++ day_str ++ " " ++ time_str)
           (alarm_response response_success time_str day_str label)),
     mkWorld (timers w)
       (dict_set alarm_id (Alarm.with_task alarm (Some task))
          (dict_set alarm_id alarm (alarms w)))
       (futures w ++ [mkFuture (AlarmCallback conn alarm_id label) Pending])%list
       (trace w ++ [ThreadStarted time_diff;
                    LogInfo ("已设置闹钟: " ++ alarm_id ++ ", 时间: " ++ day_str ++ " "
                               ++ time_str ++ ", 标签: " ++ fmt_opt label)])%list
       (clock w) (S (S (S (ticks w)))) (localtime w)).
Proof.
  intros Hh Hm Hd. cbv zeta. intros He. unfold set_alarm, try_except.
  assert (E1 : ((0 <=? hour) && (hour <=? 23))%Z = true)
    by (apply andb_true_iff; split; apply Z.leb_le; lia).
  assert (E2 : ((0 <=? minute) && (minute <=? 59))%Z = true)
    by (apply andb_true_iff; split; apply Z.leb_le; lia).
  assert (E3 : (day_offset <? 0)%Z = false) by (apply Z.ltb_ge; lia).
  rewrite E1, E2, E3. cbn [negb]. unfold bind at 1.
  rewrite (add_alarm_run hour minute day_offset label w Hh Hm He).
  mrun. rewrite dict_get_set_same. mrun. rewrite dict_get_set_same. mrun.
  rewrite <- app_assoc. reflexivity.
Qed.

(** No target date: the failure answer, and nothing registered. *)
Lemma set_alarm_overflow conn hour minute response_success response_failure
    day_offset label w :
  (0 <= hour <= 23)%Z -> (0 <= minute <= 59)%Z -> (0 <= day_offset)%Z ->
  target_exists (local_now (clock w (S (ticks w)))) hour minute day_offset = false ->
  set_alarm conn hour minute response_success response_failure day_offset label w =
    (Ok (mkActionResponse RESPONSE ("错误: " ++ overflow_message day_offset)
           response_failure),
     mkWorld (timers w) (alarms w) (futures w)
       (trace w ++ [LogError ("设置闹钟错误: " ++ overflow_message day_offset)])%list
       (clock w) (S (S (ticks w))) (localtime w)).
Proof.
  intros Hh Hm Hd He. unfold set_alarm, try_except.
  assert (E1 : ((0 <=? hour) && (hour <=? 23))%Z = true)
    by (apply andb_true_iff; split; apply Z.leb_le; lia).
  assert (E2 : ((0 <=? minute) && (minute <=? 59))%Z = true)
    by (apply andb_true_iff; split; apply Z.leb_le; lia).
  assert (E3 : (day_offset <? 0)%Z = false) by (apply Z.ltb_ge; lia).
  rewrite E1, E2, E3. cbn [negb]. unfold bind at 1.
  rewrite (add_alarm_overflow hour minute day_offset label w Hh Hm He).
  reflexivity.
Qed.

(** X2.  [set_alarm] checks the hour first, then the minute, then the day
    offset; the first one out of range decides the answer, and the world
    is left exactly as it was: no clock reading, no entry, no future, no
    log line. *)
Theorem set_alarm_rejects
    (w : World) (conn : Conn) (hour minute day_offset : Z)
    (response_success response_failure : string) (label : option string) :
  let call :=
    set_alarm conn hour minute response_success response_failure day_offset label in
  (~ (0 <= hour <= 23)%Z ->
   call w = (Ok (mkActionResponse RESPONSE "无效的小时" "小时必须在0到23之间。"), w))
  /\ ((0 <= hour <= 23)%Z -> ~ (0 <= minute <= 59)%Z ->
      call w = (Ok (mkActionResponse RESPONSE "无效的分钟" "分钟必须在0到59之间。"), w))
  /\ ((0 <= hour <= 23)%Z -> (0 <= minute <= 59)%Z -> (day_offset < 0)%Z ->
      call w =
        (Ok (mkActionResponse RESPONSE "无效的天数偏移" "天数偏移必须大于或等于0。"), w)).
Proof.
  intros call. subst call. unfold set_alarm, try_except. repeat split.
  - intros Hh.
    assert (E : ((0 <=? hour) && (hour <=? 23))%Z = false).
    { apply andb_false_iff. rewrite !Z.leb_gt. lia. }
    now rewrite E.
  - intros Hh Hm.
    assert (E1 : ((0 <=? hour) && (hour <=? 23))%Z = true)
      by (apply andb_true_iff; split; apply Z.leb_le; lia).
    assert (E2 : ((0 <=? minute) && (minute <=? 59))%Z = false).
    { apply andb_false_iff. rewrite !Z.leb_gt. lia. }
    now rewrite E1, E2.
  - intros Hh Hm Hd.
    assert (E1 : ((0 <=? hour) && (hour <=? 23))%Z = true)
      by (apply andb_true_iff; split; apply Z.leb_le; lia).
    assert (E2 : ((0 <=? minute) && (minute <=? 59))%Z = true)
      by (apply andb_true_iff; split; apply Z.leb_le; lia).
    assert (E3 : (day_offset <? 0)%Z = true) by (apply Z.ltb_lt; lia).
    now rewrite E1, E2, E3.
Qed.

Lemma set_alarm_rejects_witness :
  set_alarm conn_up 24 99 "" "" (-1) None busy_world
  = (Ok (mkActionResponse RESPONSE "无效的小时" "小时必须在0到23之间。"), busy_world)
  /\ set_alarm conn_up 7 60 "" "" (-1) None busy_world
     = (Ok (mkActionResponse RESPONSE "无效的分钟" "分钟必须在0到59之间。"), busy_world)
  /\ set_alarm conn_up 7 0 "" "" (-1) None busy_world
     = (Ok (mkActionResponse RESPONSE "无效的天数偏移" "天数偏移必须大于或等于0。"),
        busy_world).
Proof.
  split; [|split].
  - exact (proj1 (set_alarm_rejects busy_world conn_up 24 99 (-1) "" "" None)
             ltac:(lia)).
  - exact (proj1 (proj2 (set_alarm_rejects busy_world conn_up 7 60 (-1) "" "" None))
             ltac:(lia) ltac:(lia)).
  - exact (proj2 (proj2 (set_alarm_rejects busy_world conn_up 7 0 (-1) "" "" None))
             ltac:(lia) ltac:(lia) ltac:(lia)).
Defined.

(** X3.  With fields in range and a target date that exists, [set_alarm]
    answers with the day text and the time as five characters HH:MM, and
    leaves the timers alone.  It writes one alarm under the generated id,
    with the given fields and a firing handle to a new pending future
    that runs the alarm callback for that id; the lookup of every other
    alarm id is unchanged.  The one sleeper thread it starts is given the
    seconds, as a float, from the clock reading taken after the alarm was
    stored to the alarm's target. *)
Theorem set_alarm_creates_one_entry
    (w : World) (conn : Conn) (hour minute day_offset : Z)
    (response_success response_failure : string) (label : option string)
    (Hhour : (0 <= hour <= 23)%Z) (Hminute : (0 <= minute <= 59)%Z)
    (Hday : (0 <= day_offset)%Z)
    (Hdate : target_exists (local_now (clock w (S (ticks w)))) hour minute day_offset
             = true) :
  let call :=
    set_alarm conn hour minute response_success response_failure day_offset label in
  let w' := after call w in
  let time_str := fmt_02d hour ++ ":" ++ fmt_02d minute in
  exists alarm_id alarm task response_text,
    outcome call w =
      Ok (mkActionResponse RESPONSE
            ("闹钟已设置: " ++ format_day_text day_offset ++ " " ++ time_str)
            response_text)
    /\ String.length time_str = 5%nat
    /\ alarm_id = alarm_id_of (py_int (epoch (clock w (ticks w))))
                    (List.length (alarms w))
    /\ dict_get alarm_id (alarms w') = Some alarm
    /\ Alarm.hour alarm = hour /\ Alarm.minute alarm = minute
    /\ Alarm.day_offset alarm = day_offset /\ Alarm.label alarm = label
    /\ Alarm.task alarm = Some task
    /\ task = List.length (futures w)
    /\ futures w' =
         (futures w ++ [mkFuture (AlarmCallback conn alarm_id label) Pending])%list
    /\ (forall k, k <> alarm_id -> dict_get k (alarms w') = dict_get k (alarms w))
    /\ timers w' = timers w
    /\ filter (fun e => match e with ThreadStarted _ => true | _ => false end)
         (trace w')
       = (filter (fun e => match e with ThreadStarted _ => true | _ => false end)
            (trace w)
          ++ [ThreadStarted
                (fl (datetime.diff_seconds (Alarm.time alarm)
                       (local_now (clock w (S (S (ticks w)))))))])%list.
Proof.
  intros call w' time_str. subst call w' time_str. unfold after, outcome.
  rewrite (set_alarm_run conn hour minute response_success response_failure
             day_offset label w Hhour Hminute Hday Hdate).
  cbn [fst snd timers alarms futures trace].
  do 4 eexists. split; [reflexivity|].
  split.
  { assert (Hlen : forall a b, String.length (a ++ b)
                               = (String.length a + String.length b)%nat).
    { intros a b. induction a as [|c a IH]; simpl; auto. }
    rewrite Hlen. cbn [String.length append].
    rewrite !fmt_02d_length by lia. reflexivity. }
  split; [reflexivity|].
  split; [apply dict_get_set_same|].
  cbn [Alarm.hour Alarm.minute Alarm.day_offset Alarm.label Alarm.task Alarm.time
         Alarm.with_task].
  repeat split.
  - intros k Hk. now rewrite !dict_get_set_other by exact Hk.
  - rewrite filter_app. reflexivity.
Qed.

Lemma set_alarm_creates_witness :
  exists alarm_id alarm,
    dict_get alarm_id
      (alarms (after (set_alarm conn_up 7 5 "" "" 0 (Some "wake")) empty_world))
    = Some alarm
    /\ Alarm.hour alarm = 7%Z /\ Alarm.minute alarm = 5%Z
    /\ String.length (fmt_02d 7 ++ ":" ++ fmt_02d 5) = 5%nat.
Proof.
  destruct (set_alarm_creates_one_entry empty_world conn_up 7 5 0 "" "" (Some "wake")
              ltac:(lia) ltac:(lia) ltac:(lia) eq_refl)
    as (id & alarm & task & txt & _ & Hlen & _ & Hget & Hh & Hm & _).
  exists id, alarm. repeat split; assumption.
Defined.

(** X20.  With fields in range and a day offset that leads to no date of
    the calendar, [set_alarm] does not set an alarm: [add_alarm] raises
    [OverflowError] after its two clock readings, and the answer is the
    failure response, with the text of the exception as its result,
    "date value out of range" for every offset up to 999999999.  Nothing
    is registered, no future is created and no thread started; one error
    line is logged. *)
Theorem set_alarm_beyond_calendar
    (w : World) (conn : Conn) (hour minute day_offset : Z)
    (response_success response_failure : string) (label : option string)
    (Hhour : (0 <= hour <= 23)%Z) (Hminute : (0 <= minute <= 59)%Z)
    (Hday : (0 <= day_offset)%Z)
    (Hdate : target_exists (local_now (clock w (S (ticks w)))) hour minute day_offset
             = false) :
  let call :=
    set_alarm conn hour minute response_success response_failure day_offset label in
  let w' := after call w in
  outcome call w =
    Ok (mkActionResponse RESPONSE ("错误: " ++ overflow_message day_offset)
          response_failure)
  /\ ((day_offset <= 999999999)%Z ->
      overflow_message day_offset = "date value out of range")
  /\ alarms w' = alarms w /\ timers w' = timers w /\ futures w' = futures w
  /\ trace w' =
       (trace w ++ [LogError ("设置闹钟错误: " ++ overflow_message day_offset)])%list
  /\ ticks w' = S (S (ticks w)).
Proof.
  intros call w'. subst call w'. unfold after, outcome.
  rewrite (set_alarm_overflow conn hour minute response_success response_failure
             day_offset label w Hhour Hminute Hday Hdate).
  cbn [fst snd timers alarms futures trace ticks].
  repeat split.
  intros Hle. unfold overflow_message, datetime.max_delta_days.
  replace (Z.abs day_offset <=? 999999999)%Z with true
    by (symmetry; apply Z.leb_le; lia).
  reflexivity.
Qed.

Lemma set_alarm_beyond_calendar_witness :
  (* three million days from day 738000 *)
  outcome (set_alarm conn_up 7 0 "ok" "failed" 3000000 None) busy_world
  = Ok (mkActionResponse RESPONSE "错误: date value out of range" "failed")
  /\ alarms (after (set_alarm conn_up 7 0 "ok" "failed" 3000000 None) busy_world)
     = alarms busy_world.
Proof.
  destruct (set_alarm_beyond_calendar busy_world conn_up 7 0 3000000 "ok" "failed" None
              ltac:(lia) ltac:(lia) ltac:(lia) eq_refl)
    as (Hout & Hmsg & Ha & _).
  split; [|exact Ha]. rewrite Hout, (Hmsg ltac:(lia)). reflexivity.
Defined.

(** X4.  For fields in range, a clock reading with a time of day in
    range and a target date that exists, the target [add_alarm] stores is
    never before the reading it took when the day offset is zero or more,
    and it falls on today + day_offset or, only with offset zero, on
    tomorrow.  With a negative offset, which [set_alarm] refuses but
    [add_alarm] accepts, the target is before now. *)
Theorem alarm_target_never_before_now
    (w : World) (hour minute day_offset : Z) (label : option string)
    (Hhour : (0 <= hour <= 23)%Z) (Hminute : (0 <= minute <= 59)%Z)
    (Hnow : datetime.valid (local_now (clock w (S (ticks w)))))
    (Hdate : target_exists (local_now (clock w (S (ticks w)))) hour minute day_offset
             = true) :
  let now := local_now (clock w (S (ticks w))) in
  let w' := after (add_alarm hour minute day_offset label) w in
  exists alarm_id alarm,
    outcome (add_alarm hour minute day_offset label) w = Ok alarm_id
    /\ dict_get alarm_id (alarms w') = Some alarm
    /\ ((0 <= day_offset)%Z ->
        datetime.ltb (Alarm.time alarm) now = false
        /\ (datetime.date (Alarm.time alarm) = (datetime.date now + day_offset)%Z
            \/ day_offset = 0%Z
               /\ datetime.date (Alarm.time alarm) = (datetime.date now + 1)%Z))
    /\ ((day_offset < 0)%Z -> datetime.ltb (Alarm.time alarm) now = true).
Proof.
  intros now w'. subst w'. unfold after, outcome.
  rewrite (add_alarm_run hour minute day_offset label w Hhour Hminute Hdate).
  cbn [fst snd]. do 2 eexists. split; [reflexivity|].
  split; [unfold with_alarms; cbn [alarms]; apply dict_get_set_same|].
  cbn [Alarm.time]. fold now.
  pose proof (datetime_valid_tod now Hnow) as Htod.
  assert (Hc : forall d, (0 <= datetime.tod (datetime.combine d hour minute)
                          < 86400000000)%Z).
  { intros d. unfold datetime.tod, datetime.combine. cbn. lia. }
  assert (Hnot : forall d, (datetime.date now < d)%Z ->
                   datetime.ltb (datetime.combine d hour minute) now = false).
  { intros d Hd. apply not_true_is_false. intros Hlt.
    apply datetime_ltb_instant in Hlt; auto. specialize (Hc d).
    cbn [datetime.date datetime.combine] in Hlt. lia. }
  split.
  - intros Hd.
    destruct (datetime.ltb (datetime.combine (datetime.date now + day_offset) hour
                              minute) now) eqn:E;
      destruct (day_offset =? 0)%Z eqn:E0; cbn [andb].
    + split; [apply Hnot; lia|]. right. apply Z.eqb_eq in E0. auto.
    + (* a target before now with a positive offset cannot be *)
      apply Z.eqb_neq in E0. rewrite Hnot in E by lia. discriminate.
    + split; [exact E|]. now left.
    + split; [exact E|]. now left.
  - intros Hd.
    assert (E0 : (day_offset =? 0)%Z = false) by (apply Z.eqb_neq; lia).
    rewrite E0, andb_false_r.
    apply datetime_ltb_instant; auto.
    specialize (Hc (datetime.date now + day_offset)%Z).
    cbn [datetime.date datetime.combine]. lia.
Qed.

Lemma alarm_target_never_before_now_witness :
  exists alarm_id alarm,
    dict_get alarm_id (alarms (after (add_alarm 7 0 0 None) empty_world)) = Some alarm
    /\ datetime.ltb (Alarm.time alarm) (local_now (sample_clock 1)) = false.
Proof.
  assert (Hv : datetime.valid (local_now (clock empty_world (S (ticks empty_world)))))
    by (cbv; intuition discriminate).
  destruct (alarm_target_never_before_now empty_world 7 0 0 None
              ltac:(lia) ltac:(lia) Hv eq_refl) as (id & alarm & _ & Hget & Hfut & _).
  exists id, alarm. split; [exact Hget|]. exact (proj1 (Hfut ltac:(lia))).
Defined.

(* ================================================================== *)
(** * What every reachable registry satisfies *)

Section Keeps.
Variable P : World -> Prop.

Lemma keeps_ret {A} (a : A) : keeps P (ret a).
Proof. intros w H. exact H. Qed.

Lemma keeps_raise {A} (e : Exn) : keeps P (@raise A e).
Proof. intros w H. exact H. Qed.

Lemma keeps_gets {A} (f : World -> A) : keeps P (gets f).
Proof. intros w H. exact H. Qed.

Lemma keeps_bind {A B} (m : M A) (k : A -> M B) :
  keeps P m -> (forall a, keeps P (k a)) -> keeps P (bind m k).
Proof.
  intros Hm Hk w H. unfold bind. specialize (Hm w H).
  destruct (m w) as [[a|e] w1]; cbn [snd] in *; [now apply Hk | exact Hm].
Qed.

Lemma keeps_try_except {A} (body : M A) (handler : Exn -> M A) :
  keeps P body -> (forall e, keeps P (handler e)) -> keeps P (try_except body handler).
Proof.
  intros Hb Hh w H. unfold try_except. specialize (Hb w H).
  destruct (body w) as [[a|e] w1]; cbn [snd] in *; [exact Hb | now apply Hh].
Qed.

Lemma keeps_for_each {V} (items : list (string * V)) (body : string -> V -> M unit) :
  (forall k v, keeps P (body k v)) -> keeps P (for_each items body).
Proof.
  intros Hb. induction items as [|[k v] items IH]; simpl.
  - apply keeps_ret.
  - apply keeps_bind; auto.
Qed.
End Keeps.

(** Take a computation apart along its binds and branches. *)
Ltac keeps_step :=
  first
    [ assumption
    | apply keeps_ret | apply keeps_raise | apply keeps_gets
    | apply keeps_bind; [|intros ?]
    | apply keeps_try_except; [|intros ?]
    | apply keeps_for_each; intros ? ?
    | match goal with
      | |- keeps _ (if ?b then _ else _) => destruct b
      | |- keeps _ (match ?x with _ => _ end) => destruct x
      end ].

Ltac keeps_split := repeat keeps_step.

Lemma futures_extend_refl fs : futures_extend fs fs.
Proof. intros h f H. eauto. Qed.

Lemma futures_extend_app fs new : futures_extend fs (fs ++ new).
Proof.
  intros h f H. exists f. split; [|reflexivity].
  rewrite nth_error_app1; [exact H|]. apply nth_error_Some. congruence.
Qed.

Lemma futures_extend_update fs h f s :
  nth_error fs h = Some f ->
  futures_extend fs (list_update h (mkFuture (coro f) s) fs).
Proof.
  intros Hh h' f' H'. destruct (Nat.eq_dec h h') as [<-|Hne].
  - rewrite (nth_error_list_update_same _ _ f) by exact Hh.
    eexists. split; [reflexivity|]. cbn. congruence.
  - rewrite nth_error_list_update_other by exact Hne. eauto.
Qed.

Lemma futures_extend_cancel task fs : futures_extend fs (cancel_in task fs).
Proof.
  unfold cancel_in. destruct task as [h|]; [|apply futures_extend_refl].
  destruct (nth_error fs h) as [f|] eqn:E; [|apply futures_extend_refl].
  destruct (done f); [apply futures_extend_refl|].
  now apply futures_extend_update.
Qed.

Lemma timer_inv_extend fs fs' id t :
  futures_extend fs fs' -> timer_inv fs id t -> timer_inv fs' id t.
Proof.
  intros Hx (Hd & Hr & He & [Hn|(h & f & conn & Ht & Hf & Hc)]).
  - split; [exact Hd|]. split; [exact Hr|]. split; [exact He|]. now left.
  - destruct (Hx h f Hf) as (f' & Hf' & Hc').
    split; [exact Hd|]. split; [exact Hr|]. split; [exact He|].
    right. exists h, f', conn. rewrite Hc'. auto.
Qed.

Lemma alarm_inv_extend fs fs' id a :
  futures_extend fs fs' -> alarm_inv fs id a -> alarm_inv fs' id a.
Proof.
  intros Hx (H1 & H2 & H3 & H4 & H5 & H6 & H7 & H8 & h & f & conn & Ht & Hf & Hc).
  destruct (Hx h f Hf) as (f' & Hf' & Hc').
  repeat (split; [assumption|]).
  exists h, f', conn. rewrite Hc'. auto.
Qed.

(** The invariant looks at the two dictionaries and the futures only. *)
Lemma registry_inv_frame w w' :
  timers w' = timers w -> alarms w' = alarms w -> futures_extend (futures w) (futures w') ->
  registry_inv w -> registry_inv w'.
Proof.
  intros Et Ea Hx (Hwt & Hwa & Ht & Ha). unfold registry_inv. rewrite Et, Ea.
  split; [exact Hwt|]. split; [exact Hwa|]. split.
  - intros k t H. eapply timer_inv_extend; eauto.
  - intros k a H. eapply alarm_inv_extend; eauto.
Qed.

Lemma registry_inv_del_timer k w :
  registry_inv w -> registry_inv (with_timers w (dict_del k (timers w))).
Proof.
  intros (Hwt & Hwa & Ht & Ha). unfold registry_inv, with_timers.
  cbn [timers alarms futures].
  split; [now apply dict_wf_del|]. split; [exact Hwa|]. split; [|exact Ha].
  intros k' t H. apply Ht. destruct (string_dec k' k) as [->|Hne].
  - now rewrite dict_get_del_same in H.
  - now rewrite dict_get_del_other in H by exact Hne.
Qed.

Lemma registry_inv_del_alarm k w :
  registry_inv w -> registry_inv (with_alarms w (dict_del k (alarms w))).
Proof.
  intros (Hwt & Hwa & Ht & Ha). unfold registry_inv, with_alarms.
  cbn [timers alarms futures].
  split; [exact Hwt|]. split; [now apply dict_wf_del|]. split; [exact Ht|].
  intros k' a H. apply Ha. destruct (string_dec k' k) as [->|Hne].
  - now rewrite dict_get_del_same in H.
  - now rewrite dict_get_del_other in H by exact Hne.
Qed.

Lemma keeps_inv_time_time : keeps registry_inv time_time.
Proof.
  intros w H. eapply registry_inv_frame; eauto; try reflexivity.
  apply futures_extend_refl.
Qed.

Lemma keeps_inv_datetime_now : keeps registry_inv datetime_now.
Proof.
  intros w H. eapply registry_inv_frame; eauto; try reflexivity.
  apply futures_extend_refl.
Qed.

Lemma keeps_inv_emit e : keeps registry_inv (emit e).
Proof.
  intros w H. eapply registry_inv_frame; eauto; try reflexivity.
  apply futures_extend_refl.
Qed.

Lemma keeps_inv_strftime t : keeps registry_inv (strftime_HMS t).
Proof.
  unfold strftime_HMS. apply keeps_bind; [apply keeps_gets|].
  intros tm. destruct (tm t) as [[[h m] s]|e]; [apply keeps_ret | apply keeps_raise].
Qed.

Lemma keeps_inv_cancel_task task : keeps registry_inv (cancel_task task).
Proof.
  intros w H. rewrite cancel_task_run. cbn [snd].
  apply (registry_inv_frame w);
    [reflexivity | reflexivity | apply futures_extend_cancel | exact H].
Qed.

Lemma keeps_inv_del_timer k : keeps registry_inv (del_timer k).
Proof.
  unfold del_timer, timers_item. keeps_split.
  intros w H. now apply registry_inv_del_timer.
Qed.

Lemma keeps_inv_del_alarm k : keeps registry_inv (del_alarm k).
Proof.
  unfold del_alarm, alarms_item. keeps_split.
  intros w H. now apply registry_inv_del_alarm.
Qed.

Lemma keeps_inv_clear_timers :
  keeps registry_inv (modify (fun w => with_timers w [])).
Proof.
  intros w (Hwt & Hwa & Ht & Ha). unfold registry_inv. cbn.
  split; [constructor|]. split; [exact Hwa|]. split; [discriminate | exact Ha].
Qed.

Lemma keeps_inv_clear_alarms :
  keeps registry_inv (modify (fun w => with_alarms w [])).
Proof.
  intros w (Hwt & Hwa & Ht & Ha). unfold registry_inv. cbn.
  split; [exact Hwt|]. split; [constructor|]. split; [exact Ht | discriminate].
Qed.

Create HintDb keeps_inv.

#[local] Hint Resolve keeps_inv_time_time keeps_inv_datetime_now keeps_inv_emit
  keeps_inv_strftime keeps_inv_cancel_task keeps_inv_del_timer keeps_inv_del_alarm
  keeps_inv_clear_timers keeps_inv_clear_alarms : keeps_inv.

Ltac keeps_inv :=
  unfold logger_info, logger_error, start_sleeper_thread, notify, deliver, submit,
    get_alarms;
  repeat first [ solve [auto with keeps_inv] | keeps_step ].

Lemma keeps_inv_cancel_timer timer_id : keeps registry_inv (cancel_timer timer_id).
Proof. unfold cancel_timer. keeps_inv. Qed.

Lemma keeps_inv_cancel_alarm alarm_id : keeps registry_inv (cancel_alarm alarm_id).
Proof. unfold cancel_alarm. keeps_inv. Qed.

Lemma keeps_inv_get_timers_scan items : forall active,
  keeps registry_inv (get_timers_scan items active).
Proof.
  induction items as [|[k t] items IH]; intros active; cbn [get_timers_scan];
    keeps_inv.
Qed.

Lemma keeps_inv_get_timers : keeps registry_inv get_timers.
Proof. unfold get_timers. keeps_inv. apply keeps_inv_get_timers_scan. Qed.

Lemma keeps_inv_timer_listing items : forall i text,
  keeps registry_inv (timer_listing items i text).
Proof.
  induction items as [|[k t] items IH]; intros i text; cbn [timer_listing];
    keeps_inv.
Qed.

Lemma keeps_inv_alarm_listing items : forall i text,
  keeps registry_inv (alarm_listing items i text).
Proof.
  induction items as [|[k a] items IH]; intros i text; cbn [alarm_listing];
    keeps_inv.
Qed.

#[local] Hint Resolve keeps_inv_cancel_timer keeps_inv_cancel_alarm
  keeps_inv_get_timers keeps_inv_timer_listing keeps_inv_alarm_listing : keeps_inv.

Lemma keeps_inv_check conn check_type response_success response_failure :
  keeps registry_inv
    (check_timers_alarms conn check_type response_success response_failure).
Proof. unfold check_timers_alarms. cbv zeta. keeps_inv. Qed.

Lemma keeps_inv_cancel conn cancel_type response_success response_failure
    timer_id alarm_id :
  keeps registry_inv
    (cancel_timer_alarm conn cancel_type response_success response_failure
       timer_id alarm_id).
Proof. unfold cancel_timer_alarm. cbv zeta. keeps_inv. Qed.

Lemma keeps_inv_run_coroutine c : keeps registry_inv (run_coroutine c).
Proof.
  destruct c; cbn [run_coroutine]; unfold timer_callback, alarm_callback; cbv zeta;
    keeps_inv.
Qed.

Lemma keeps_inv_run_cancelled c : keeps registry_inv (run_cancelled c).
Proof.
  pose proof (fun conn id label =>
                keeps_inv_run_coroutine (TimerCallback conn id label)) as Ht.
  pose proof (fun conn id label =>
                keeps_inv_run_coroutine (AlarmCallback conn id label)) as Ha.
  cbn [run_coroutine] in Ht, Ha.
  destruct c; cbn [run_cancelled];
    unfold timer_callback_cancelled, alarm_callback_cancelled;
    repeat first [ solve [auto with keeps_inv] | keeps_step ].
Qed.

(** The callbacks never touch the futures. *)
Lemma keeps_futures_run_coroutine fs c :
  keeps (fun w' => futures w' = fs) (run_coroutine c).
Proof.
  assert (Hemit : forall e, keeps (fun w' => futures w' = fs) (emit e))
    by (intros e w' H; exact H).
  assert (Hdt : forall k, keeps (fun w' => futures w' = fs) (del_timer k)).
  { intros k. unfold del_timer, timers_item. keeps_split.
    all: intros w' H; exact H. }
  assert (Hda : forall k, keeps (fun w' => futures w' = fs) (del_alarm k)).
  { intros k. unfold del_alarm, alarms_item. keeps_split.
    all: intros w' H; exact H. }
  destruct c; cbn [run_coroutine]; unfold timer_callback, alarm_callback; cbv zeta;
    unfold logger_info, logger_error, notify, deliver, submit;
    repeat first [ solve [auto] | keeps_step ].
Qed.

Lemma run_coroutine_futures c w : futures (snd (run_coroutine c w)) = futures w.
Proof. now apply keeps_futures_run_coroutine. Qed.

Lemma run_cancelled_futures c w : futures (snd (run_cancelled c w)) = futures w.
Proof.
  assert (Hk : keeps (fun w' => futures w' = futures w) (run_cancelled c)).
  { pose proof (fun conn id label =>
                  keeps_futures_run_coroutine (futures w) (TimerCallback conn id label))
      as Ht.
    pose proof (fun conn id label =>
                  keeps_futures_run_coroutine (futures w) (AlarmCallback conn id label))
      as Ha.
    cbn [run_coroutine] in Ht, Ha.
    assert (Hemit : forall e, keeps (fun w' => futures w' = futures w) (emit e))
      by (intros e w' H; exact H).
    destruct c; cbn [run_cancelled];
      unfold timer_callback_cancelled, alarm_callback_cancelled;
      repeat first [ solve [auto] | keeps_step ]. }
  now apply Hk.
Qed.

Lemma keeps_inv_loop_step h : keeps registry_inv (loop_step h).
Proof.
  intros w H. unfold loop_step, bind, gets. cbn [fst snd].
  destruct (nth_error (futures w) h) as [f|] eqn:Ef; [|exact H].
  destruct (fstate f); try exact H.
  - pose proof (keeps_inv_run_coroutine (coro f) w H) as H1.
    pose proof (run_coroutine_futures (coro f) w) as Hf.
    destruct (run_coroutine (coro f) w) as [[[]|e] w1]; cbn [snd] in *; [|exact H1].
    unfold modify. cbn [snd].
    apply (registry_inv_frame w1); [reflexivity | reflexivity | | exact H1].
    unfold with_futures. cbn [futures]. apply futures_extend_update. now rewrite Hf.
  - pose proof (keeps_inv_run_cancelled (coro f) w H) as H1.
    pose proof (run_cancelled_futures (coro f) w) as Hf.
    destruct (run_cancelled (coro f) w) as [[[]|e] w1]; cbn [snd] in *; [|exact H1].
    unfold modify. cbn [snd].
    apply (registry_inv_frame w1); [reflexivity | reflexivity | | exact H1].
    unfold with_futures. cbn [futures]. apply futures_extend_update. now rewrite Hf.
Qed.

Lemma keeps_inv_set_timer conn duration response_success response_failure label :
  keeps registry_inv
    (set_timer conn duration response_success response_failure label).
Proof.
  intros w (Hwt & Hwa & Ht & Ha). destruct (Z.ltb_spec 0 duration) as [Hpos|Hle].
  - destruct (float_range duration) eqn:Hr.
    2: { rewrite (set_timer_overflow conn duration response_success response_failure
                    label w Hpos Hr).
         cbn [snd]. exact (conj Hwt (conj Hwa (conj Ht Ha))). }
    destruct (localtime w (fl (epoch (clock w (S (S (ticks w))))
                               + fl (inject_Z duration)))) as [hms|e] eqn:Hlt.
    + rewrite (set_timer_run conn duration response_success response_failure label w
                 hms Hpos Hr Hlt).
      cbn [snd]. unfold registry_inv. cbn [timers alarms futures].
      split; [now do 2 apply dict_wf_set|]. split; [exact Hwa|]. split.
      * intros k t H.
        set (id := "timer_" ++ _) in H.
        destruct (string_dec k id) as [->|Hne].
        -- rewrite dict_get_set_same in H. injection H as <-.
           split; [exact Hpos|]. split; [exact Hr|]. split; [reflexivity|].
           right. eexists _, _, conn. cbn [Timer.task Timer.with_task Timer.label].
           split; [reflexivity|]. split.
           { rewrite nth_error_app2 by apply Nat.le_refl. rewrite Nat.sub_diag.
             reflexivity. }
           reflexivity.
        -- rewrite !dict_get_set_other in H by exact Hne.
           eapply timer_inv_extend; [apply futures_extend_app | now apply Ht].
      * intros k a H.
        eapply alarm_inv_extend; [apply futures_extend_app | now apply Ha].
    + rewrite (set_timer_unconverted conn duration response_success response_failure
                 label w e Hpos Hr Hlt).
      cbn [snd]. unfold registry_inv. cbn [timers alarms futures].
      split; [now apply dict_wf_set|]. split; [exact Hwa|]. split; [|exact Ha].
      intros k t H.
      set (id := "timer_" ++ _) in H.
      destruct (string_dec k id) as [->|Hne].
      * rewrite dict_get_set_same in H. injection H as <-.
        split; [exact Hpos|]. split; [exact Hr|]. split; [reflexivity|]. now left.
      * rewrite dict_get_set_other in H by exact Hne. now apply Ht.
  - rewrite (set_timer_rejects conn duration response_success response_failure label
               w Hle).
    cbn [snd]. exact (conj Hwt (conj Hwa (conj Ht Ha))).
Qed.

Lemma keeps_inv_set_alarm conn hour minute response_success response_failure
    day_offset label :
  keeps registry_inv
    (set_alarm conn hour minute response_success response_failure day_offset label).
Proof.
  intros w Hinv.
  destruct (Z_le_dec 0 hour) as [Hh0|Hh0];
    [destruct (Z_le_dec hour 23) as [Hh1|Hh1]|].
  2,3: unfold set_alarm, try_except;
       replace ((0 <=? hour) && (hour <=? 23))%Z with false
         by (symmetry; apply andb_false_iff; rewrite !Z.leb_gt; lia);
       exact Hinv.
  destruct (Z_le_dec 0 minute) as [Hm0|Hm0];
    [destruct (Z_le_dec minute 59) as [Hm1|Hm1]|].
  2,3: unfold set_alarm, try_except;
       replace ((0 <=? hour) && (hour <=? 23))%Z with true
         by (symmetry; apply andb_true_iff; rewrite !Z.leb_le; lia);
       replace ((0 <=? minute) && (minute <=? 59))%Z with false
         by (symmetry; apply andb_false_iff; rewrite !Z.leb_gt; lia);
       exact Hinv.
  destruct (Z_le_dec 0 day_offset) as [Hd|Hd].
  2: unfold set_alarm, try_except;
     replace ((0 <=? hour) && (hour <=? 23))%Z with true
       by (symmetry; apply andb_true_iff; rewrite !Z.leb_le; lia);
     replace ((0 <=? minute) && (minute <=? 59))%Z with true
       by (symmetry; apply andb_true_iff; rewrite !Z.leb_le; lia);
     replace (day_offset <? 0)%Z with true by (symmetry; apply Z.ltb_lt; lia);
     exact Hinv.
  destruct (target_exists (local_now (clock w (S (ticks w)))) hour minute day_offset)
    eqn:He.
  2: { rewrite (set_alarm_overflow conn hour minute response_success response_failure
                  day_offset label w (conj Hh0 Hh1) (conj Hm0 Hm1) Hd He).
       cbn [snd]. exact Hinv. }
  destruct Hinv as (Hwt & Hwa & Ht & Ha).
  rewrite (set_alarm_run conn hour minute response_success response_failure
             day_offset label w (conj Hh0 Hh1) (conj Hm0 Hm1) Hd He).
  cbn [snd]. unfold registry_inv. cbn [timers alarms futures].
  split; [exact Hwt|]. split; [now do 2 apply dict_wf_set|]. split.
  - intros k t H. eapply timer_inv_extend; [apply futures_extend_app | now apply Ht].
  - intros k a H.
    set (id := alarm_id_of _ _) in *.
    destruct (string_dec k id) as [->|Hne].
    + rewrite dict_get_set_same in H. injection H as <-.
      unfold alarm_inv.
      cbn [Alarm.hour Alarm.minute Alarm.day_offset Alarm.time Alarm.task
             Alarm.with_task Alarm.label].
      split; [lia|]. split; [lia|].
      unfold target_exists in He.
      apply andb_true_iff in He as [He Hroll]. apply andb_true_iff in He as [Hmax Hin].
      apply Z.leb_le in Hmax.
      split; [lia|].
      split.
      { destruct (datetime.ltb _ _ && (day_offset =? 0)%Z);
          cbn [negb orb datetime.date datetime.combine] in *; assumption. }
      assert (Ht4 : forall b d1 d2,
                let x := if b : bool then datetime.combine d1 hour minute
                         else datetime.combine d2 hour minute in
                datetime.hour x = hour /\ datetime.minute x = minute
                /\ datetime.second x = 0%Z /\ datetime.microsecond x = 0%Z)
        by (intros [] d1 d2; cbn; auto).
      destruct (Ht4 (datetime.ltb
                       (datetime.combine
                          (datetime.date (local_now (clock w (S (ticks w))))
                           + day_offset) hour minute)
                       (local_now (clock w (S (ticks w))))
                     && (day_offset =? 0)%Z)
                  (datetime.date (local_now (clock w (S (ticks w)))) + 1)%Z
                  (datetime.date (local_now (clock w (S (ticks w)))) + day_offset)%Z)
        as (T1 & T2 & T3 & T4).
      split; [exact T1|]. split; [exact T2|]. split; [exact T3|]. split; [exact T4|].
      eexists _, _, conn. split; [reflexivity|]. split.
      { rewrite nth_error_app2 by apply Nat.le_refl. rewrite Nat.sub_diag.
        reflexivity. }
      reflexivity.
    + rewrite !dict_get_set_other in H by exact Hne.
      eapply alarm_inv_extend; [apply futures_extend_app | now apply Ha].
Qed.

(** X5.  Whatever tools are called and whatever futures the loop runs,
    in any order and with any arguments, whether the calls succeed or
    fail, from the start of the process: the ids of each dictionary are
    distinct; every registered timer has a positive duration that a float
    holds, an end that is the binary64 sum of its start and its duration
    and, unless it has no task at all, a firing handle to a future of the
    loop whose coroutine is the timer callback for that id and label;
    every registered alarm has hour, minute and day offset in range, a
    target at hour:minute sharp on a date of the calendar, and a handle
    to its alarm callback. *)
Theorem registry_invariant
    (ops : list Op) (clk : nat -> Reading) (tm : Q -> Outcome (Z * Z * Z)) :
  registry_inv (run ops (fresh_world clk tm)).
Proof.
  assert (Hstep : forall op w, registry_inv w -> registry_inv (step w op)).
  { intros [] w H; cbn [step]; unfold after.
    - now apply keeps_inv_set_timer.
    - now apply keeps_inv_set_alarm.
    - now apply keeps_inv_check.
    - now apply keeps_inv_cancel.
    - now apply keeps_inv_loop_step. }
  assert (H0 : registry_inv (fresh_world clk tm)).
  { unfold registry_inv, fresh_world. cbn.
    split; [constructor|]. split; [constructor|]. split; discriminate. }
  unfold run. revert H0. generalize (fresh_world clk tm).
  induction ops as [|op ops IH]; intros w H; cbn [fold_left]; auto.
Qed.

(* ================================================================== *)
(** * Listing alarms; unknown types; listing both kinds *)

Lemma alarm_listing_run items : forall i text w,
  alarm_listing items i text w =
    (Ok (text ++ lines_text (map alarm_line (alarm_lines (clock w) (ticks w) items i))),
     with_ticks w (ticks w + List.length items)).
Proof.
  induction items as [|[k a] items IH]; intros i text w.
  - simpl. unfold ret. rewrite str_app_nil_r, Nat.add_0_r. now destruct w.
  - cbn [alarm_listing alarm_lines map lines_text alarm_line].
    unfold bind at 1. unfold datetime_now. cbn [fst snd].
    rewrite IH. unfold with_ticks.
    cbn [clock ticks localtime timers alarms futures trace List.length].
    rewrite Nat.add_succ_r. f_equal. f_equal.
    rewrite !str_app_assoc. reflexivity.
Qed.

Lemma alarm_lines_alarms clk items : forall n i,
  map (fun l => snd (fst l)) (alarm_lines clk n items i) = map snd items.
Proof.
  induction items as [|[k a] items IH]; intros n i; simpl; [reflexivity|].
  now rewrite IH.
Qed.

Lemma check_alarms_run conn response_success response_failure w :
  check_timers_alarms conn "alarm" response_success response_failure w =
    (Ok (mkActionResponse RESPONSE
           (strip ("闹钟: " ++ py_str (Z.of_nat (List.length (alarms w))) ++ "个"))
           match alarms w with
           | [] => "没有设置的闹钟。"
           | _ :: _ =>
               ("当前闹钟:" ++ nl)
                 ++ lines_text
                      (map alarm_line (alarm_lines (clock w) (ticks w) (alarms w) 1))
           end),
     with_ticks w (ticks w + List.length (alarms w))).
Proof.
  unfold check_timers_alarms, try_except.
  change (str_in "alarm" ["timer"; "all"]) with false.
  change (str_in "alarm" ["alarm"; "all"]) with true.
  cbv iota. unfold get_alarms. destruct w as [ts al fs tr clk tk tm]. mrun.
  destruct al as [|ka rest].
  - cbn [fst snd app join List.length]. now rewrite Nat.add_0_r.
  - rewrite alarm_listing_run. cbn [fst snd app join]. reflexivity.
Qed.

(** X6.  [check_timers_alarms('alarm')] returns normally and changes
    nothing but the clock position, by one reading per alarm: timers,
    alarms, futures and trace stay as they were.  Unlike timers, alarms
    are never filtered: the listing has one line for every registered
    alarm, in insertion order, whatever its target time; without alarms
    the answer is the fixed "none" text. *)
Theorem check_alarms_lists_every_alarm
    (w : World) (conn : Conn) (response_success response_failure : string) :
  let call := check_timers_alarms conn "alarm" response_success response_failure in
  let w' := after call w in
  let lines := alarm_lines (clock w) (ticks w) (alarms w) 1 in
  exists r,
    outcome call w = Ok r
    /\ response r =
         match alarms w with
         | [] => "没有设置的闹钟。"
         | _ :: _ => ("当前闹钟:" ++ nl) ++ lines_text (map alarm_line lines)
         end
    /\ map (fun l => snd (fst l)) lines = map snd (alarms w)
    /\ timers w' = timers w /\ alarms w' = alarms w /\ futures w' = futures w
    /\ trace w' = trace w
    /\ ticks w' = (ticks w + List.length (alarms w))%nat.
Proof.
  intros call w' lines. subst call w' lines. unfold after, outcome.
  rewrite check_alarms_run. cbn [fst snd]. eexists. split; [reflexivity|].
  cbn [response]. split; [reflexivity|].
  split; [apply alarm_lines_alarms|]. repeat split.
Qed.

(** X7.  A type other than 'timer', 'alarm' and 'all' makes both tools do
    nothing: [check_timers_alarms] answers that no timer or alarm is set,
    whatever the registry holds, and [cancel_timer_alarm] answers with an
    empty text; neither reads the clock or changes the world. *)
Theorem unknown_type_is_ignored
    (w : World) (conn : Conn) (type response_success response_failure : string)
    (timer_id alarm_id : option string)
    (Hunknown : str_in type ["timer"; "alarm"; "all"] = false) :
  check_timers_alarms conn type response_success response_failure w
  = (Ok (mkActionResponse RESPONSE "没有找到计时器或闹钟"
           "您当前没有设置任何计时器或闹钟。"), w)
  /\ cancel_timer_alarm conn type response_success response_failure timer_id alarm_id w
     = (Ok (mkActionResponse RESPONSE "没有找到计时器或闹钟" ""), w).
Proof.
  assert (Ht : str_in type ["timer"; "all"] = false /\ str_in type ["alarm"; "all"] = false).
  { unfold str_in in *. cbn [existsb] in *.
    destruct (String.eqb type "timer"), (String.eqb type "alarm"),
      (String.eqb type "all"); cbn in *; auto; discriminate. }
  destruct Ht as [Ht Ha].
  unfold check_timers_alarms, cancel_timer_alarm, try_except. rewrite Ht, Ha.
  split; reflexivity.
Qed.

Lemma unknown_type_witness :
  check_timers_alarms conn_up "timers" "" "" busy_world
  = (Ok (mkActionResponse RESPONSE "没有找到计时器或闹钟"
           "您当前没有设置任何计时器或闹钟。"), busy_world)
  /\ List.length (timers busy_world) = 2%nat.
Proof.
  split; [|reflexivity].
  exact (proj1 (unknown_type_is_ignored busy_world conn_up "timers" "" "" None None
                  eq_refl)).
Defined.


Lemma first_unconverted_none tm lines :
  (forall i t now, In (i, t, now) lines -> exists hms, tm (Timer.end_time t) = Ok hms) ->
  first_unconverted tm lines = None.
Proof.
  induction lines as [|[[i t] now] lines IH]; intros H; cbn [first_unconverted];
    [reflexivity|].
  destruct (H i t now (or_introl eq_refl)) as [hms ->].
  apply IH. intros i' t' now' Hin. apply (H i' t' now'). now right.
Qed.

(** Where [localtime] converts the end of every registered timer, the
    listing does not raise. *)
Lemma listing_converts w n i :
  dict_wf (timers w) ->
  (forall k t, dict_get k (timers w) = Some t ->
               exists hms, localtime w (Timer.end_time t) = Ok hms) ->
  first_unconverted (localtime w)
    (listed (clock w) n (set_all (scan_active (clock w) (ticks w) (timers w)) []) i)
  = None.
Proof.
  intros Hwf Hconv. apply first_unconverted_none. intros i' t now Hin.
  destruct (listed_In _ _ _ _ _ _ _ Hin) as (j & k & Hj & _ & _).
  apply nth_error_In in Hj. apply set_all_In_inv in Hj as [Hj|[]].
  apply scan_active_incl in Hj.
  apply (Hconv k t). now apply In_dict_get.
Qed.

(** The text of the timer section for given active timers and first
    reading; the text of the alarm section likewise. *)
Lemma check_timers_run_world conn response_success response_failure w :
  dict_wf (timers w) ->
  let active := set_all (scan_active (clock w) (ticks w) (timers w)) [] in
  let n1 := (ticks w + List.length (timers w))%nat in
  first_unconverted (localtime w) (listed (clock w) n1 active 1) = None ->
  check_timers_alarms conn "timer" response_success response_failure w
  = (Ok (mkActionResponse RESPONSE
           (strip ("计时器: " ++ py_str (Z.of_nat (List.length active)) ++ "个 "))
           match active with
           | [] => "没有正在进行的计时器。"
           | _ :: _ =>
               ("当前计时器:" ++ nl)
                 ++ lines_text
                      (map (timer_line (localtime w)) (listed (clock w) n1 active 1))
           end),
     mkWorld (del_all (scan_expired (clock w) (ticks w) (timers w)) (timers w))
       (alarms w)
       (cancel_all (scan_expired (clock w) (ticks w) (timers w)) (futures w))
       (trace w) (clock w) (n1 + List.length active) (localtime w)).
Proof.
  intros Hwf active n1 Hconv. subst n1. unfold check_timers_alarms, try_except.
  change (str_in "timer" ["timer"; "all"]) with true.
  change (str_in "timer" ["alarm"; "all"]) with false.
  cbv iota. unfold bind at 1. unfold bind at 1. unfold bind at 1.
  rewrite (get_timers_run w Hwf). fold active.
  destruct active as [|kt rest] eqn:Ea.
  - mrun. cbn [fst snd app join List.length]. now rewrite Nat.add_0_r.
  - unfold bind at 1.
    match goal with
    | |- context [timer_listing ?items ?i ?txt ?w1] =>
        pose proof (timer_listing_run items i txt w1) as Hl
    end.
    cbn [clock ticks localtime] in Hl. rewrite Hconv in Hl. rewrite Hl. mrun.
    cbn [fst snd app join]. reflexivity.
Qed.

Lemma check_all_run conn response_success response_failure w :
  dict_wf (timers w) ->
  let active := set_all (scan_active (clock w) (ticks w) (timers w)) [] in
  let n1 := (ticks w + List.length (timers w))%nat in
  let n2 := (n1 + List.length active)%nat in
  first_unconverted (localtime w) (listed (clock w) n1 active 1) = None ->
  exists summary,
    check_timers_alarms conn "all" response_success response_failure w
    = (Ok (mkActionResponse RESPONSE summary
             (match active with
              | [] => "没有正在进行的计时器。"
              | _ :: _ =>
                  ("当前计时器:" ++ nl)
                    ++ lines_text
                         (map (timer_line (localtime w)) (listed (clock w) n1 active 1))
              end
              ++ (nl ++ nl)
              ++ match alarms w with
                 | [] => "没有设置的闹钟。"
                 | _ :: _ =>
                     ("当前闹钟:" ++ nl)
                       ++ lines_text
                            (map alarm_line (alarm_lines (clock w) n2 (alarms w) 1))
                 end)),
       mkWorld (del_all (scan_expired (clock w) (ticks w) (timers w)) (timers w))
         (alarms w)
         (cancel_all (scan_expired (clock w) (ticks w) (timers w)) (futures w))
         (trace w) (clock w) (n2 + List.length (alarms w)) (localtime w)).
Proof.
  intros Hwf active n1 n2 Hconv. subst n1 n2. unfold check_timers_alarms, try_except.
  change (str_in "all" ["timer"; "all"]) with true.
  change (str_in "all" ["alarm"; "all"]) with true.
  cbv iota. unfold bind at 1. unfold bind at 1. unfold bind at 1.
  rewrite (get_timers_run w Hwf). fold active.
  remember (del_all (scan_expired (clock w) (ticks w) (timers w)) (timers w)) as ts1.
  remember (cancel_all (scan_expired (clock w) (ticks w) (timers w)) (futures w))
    as fs1.
  clearbody active. clear Heqts1 Heqfs1 Hwf.
  destruct w as [ts al fs tr clk tk tm].
  cbn [timers alarms futures trace clock ticks localtime] in Hconv |- *.
  unfold get_alarms.
  destruct active as [|kt rest]; destruct al as [|ka arest].
  - mrun. cbn [fst snd app join response List.length].
    rewrite !Nat.add_0_r. eexists. reflexivity.
  - mrun. rewrite alarm_listing_run. mrun.
    cbn [fst snd app join response List.length].
    rewrite !Nat.add_0_r. eexists. reflexivity.
  - unfold bind at 1. unfold bind at 1.
    match goal with
    | |- context [timer_listing ?items ?i ?txt ?w1] =>
        pose proof (timer_listing_run items i txt w1) as Hl
    end.
    cbn [clock ticks localtime] in Hl. rewrite Hconv in Hl. rewrite Hl. mrun.
    cbn [fst snd app join response List.length].
    rewrite !Nat.add_0_r. eexists. reflexivity.
  - unfold bind at 1. unfold bind at 1.
    match goal with
    | |- context [timer_listing ?items ?i ?txt ?w1] =>
        pose proof (timer_listing_run items i txt w1) as Hl
    end.
    cbn [clock ticks localtime] in Hl. rewrite Hconv in Hl. rewrite Hl. mrun.
    rewrite alarm_listing_run. mrun.
    cbn [fst snd app join response List.length]. eexists. reflexivity.
Qed.

(** X8.  On a registry with distinct ids whose timers all have an end
    that [localtime] converts, [check_timers_alarms('all')] is the timer
    listing followed by the alarm listing: its text is the text of the
    'timer' call, a blank line, and the text the 'alarm' call gives in
    the world the 'timer' call leaves; and it leaves the world those two
    calls leave. *)
Theorem check_all_is_timer_then_alarm
    (w : World) (conn : Conn) (response_success response_failure : string)
    (Hwf : dict_wf (timers w))
    (Hconv : forall k t, dict_get k (timers w) = Some t ->
                         exists hms, localtime w (Timer.end_time t) = Ok hms) :
  let check type := check_timers_alarms conn type response_success response_failure in
  exists rt ra rall,
    outcome (check "timer") w = Ok rt
    /\ outcome (check "alarm") (after (check "timer") w) = Ok ra
    /\ outcome (check "all") w = Ok rall
    /\ response rall = response rt ++ (nl ++ nl) ++ response ra
    /\ after (check "all") w = after (check "alarm") (after (check "timer") w).
Proof.
  intros check. subst check. unfold after, outcome. cbv beta.
  destruct (check_all_run conn response_success response_failure w Hwf
              (listing_converts w _ _ Hwf Hconv))
    as (summary & Hall).
  rewrite Hall.
  rewrite (check_timers_run_world conn response_success response_failure w Hwf
             (listing_converts w _ _ Hwf Hconv)).
  cbn [fst snd]. rewrite check_alarms_run.
  cbn [fst snd timers alarms futures trace clock ticks localtime with_ticks].
  do 3 eexists. split; [reflexivity|]. split; [reflexivity|].
  split; [reflexivity|]. cbn [response]. split; reflexivity.
Qed.

Lemma check_all_witness :
  exists rall,
    outcome (check_timers_alarms conn_up "all" "" "") stale_world = Ok rall
    /\ after (check_timers_alarms conn_up "all" "" "") stale_world
       = after (check_timers_alarms conn_up "alarm" "" "")
           (after (check_timers_alarms conn_up "timer" "" "") stale_world).
Proof.
  assert (Hconv : forall k t, dict_get k (timers stale_world) = Some t ->
                     exists hms, localtime stale_world (Timer.end_time t) = Ok hms).
  { intros k t H. cbn in H.
    destruct (String.eqb k "timer_100_0"); [injection H as <-; eexists; reflexivity|].
    destruct (String.eqb k "timer_500_1"); [injection H as <-; eexists; reflexivity|].
    discriminate. }
  destruct (check_all_is_timer_then_alarm stale_world conn_up "" "" stale_world_wf Hconv)
    as (rt & ra & rall & _ & _ & Hall & _ & Hw).
  exists rall. split; assumption.
Defined.

(* ================================================================== *)
(** * The three answers of a cancellation by id *)

(** X9.  [cancel_timer_alarm('alarm', alarm_id=id)] never reads the clock
    and never touches the timers (no pruning happens on this path), and
    any timer id passed along is ignored.  If the id is registered it
    answers "cancelled 1 alarm", removes that alarm and cancels its
    future; if not, it leaves the world as it was and answers "no alarms
    set" when there are none and "specified alarm not found" when there
    are others. *)
Theorem cancel_alarm_type_by_id
    (w : World) (conn : Conn) (response_success response_failure : string)
    (timer_id : option string) (id : string) :
  let call :=
    cancel_timer_alarm conn "alarm" response_success response_failure timer_id
      (Some id) in
  match dict_get id (alarms w) with
  | Some alarm =>
      id <> "" ->
      outcome call w = Ok (mkActionResponse RESPONSE "取消成功" "已取消1个闹钟。")
      /\ alarms (after call w) = dict_del id (alarms w)
      /\ futures (after call w) = cancel_in (Alarm.task alarm) (futures w)
      /\ timers (after call w) = timers w
      /\ ticks (after call w) = ticks w
  | None =>
      call w =
        (Ok (mkActionResponse RESPONSE "没有找到计时器或闹钟"
               match alarms w with
               | [] => "没有设置的闹钟。"
               | _ :: _ => "未找到指定的闹钟。"
               end), w)
  end.
Proof.
  intros call. subst call. unfold after, outcome.
  unfold cancel_timer_alarm, try_except.
  change (str_in "alarm" ["timer"; "all"]) with false.
  change (str_in "alarm" ["alarm"; "all"]) with true.
  cbv iota. unfold bind, get_alarms, gets, ret. cbn [fst snd].
  destruct (dict_get id (alarms w)) as [alarm|] eqn:E.
  - intros Hid. rewrite (cancel_alarm_present id alarm w E).
    destruct id as [|c id]; [contradiction|]. cbn. repeat split.
  - rewrite (cancel_alarm_absent id w E).
    destruct (alarms w) as [|ka rest]; reflexivity.
Qed.

Lemma cancel_alarm_type_witness :
  outcome (cancel_timer_alarm conn_up "alarm" "" "" None (Some "alarm_100_0")) busy_world
  = Ok (mkActionResponse RESPONSE "取消成功" "已取消1个闹钟。")
  /\ timers (after (cancel_timer_alarm conn_up "alarm" "" "" None (Some "alarm_100_0"))
               busy_world)
     = timers busy_world.
Proof.
  pose proof (cancel_alarm_type_by_id busy_world conn_up "" "" None "alarm_100_0") as H.
  cbv zeta in H.
  change (dict_get "alarm_100_0" (alarms busy_world))
    with (Some (Alarm.mk 7 0 0 (datetime.mk 738001 7 0 0 0) None (Some 2%nat))) in H.
  cbv iota in H.
  destruct (H ltac:(discriminate)) as (Hout & _ & _ & Ht & _).
  split; assumption.
Defined.

(** X10.  On a registry with distinct ids,
    [cancel_timer_alarm('timer', timer_id=id)] first prunes, then answers
    by what [get_timers] returned: "cancelled 1 timer" if the id is among
    the active timers, else "no timers running" when none is active and
    "specified timer not found" when others are.  So naming a timer that
    has expired but is still registered removes it, by the pruning, and
    yet reports a failure.  Alarms are not touched. *)
Theorem cancel_timer_type_by_id
    (w : World) (conn : Conn) (response_success response_failure : string)
    (id : string) (alarm_id : option string) (Hwf : dict_wf (timers w)) :
  let call :=
    cancel_timer_alarm conn "timer" response_success response_failure (Some id)
      alarm_id in
  exists active,
    outcome get_timers w = Ok active
    /\ match dict_get id active with
       | Some t =>
           id <> "" ->
           outcome call w = Ok (mkActionResponse RESPONSE "取消成功" "已取消1个计时器。")
       | None =>
           outcome call w =
             Ok (mkActionResponse RESPONSE "没有找到计时器或闹钟"
                   match active with
                   | [] => "没有正在进行的计时器。"
                   | _ :: _ => "未找到指定的计时器。"
                   end)
           /\ after call w = after get_timers w
       end
    /\ dict_get id (timers (after call w)) = None
    /\ (forall k, k <> id ->
          dict_get k (timers (after call w)) = dict_get k active)
    /\ alarms (after call w) = alarms w.
Proof.
  intros call. subst call. unfold after, outcome.
  destruct (get_timers_entries w Hwf) as (_ & _ & Hreg).
  unfold cancel_timer_alarm, try_except.
  change (str_in "timer" ["timer"; "all"]) with true.
  change (str_in "timer" ["alarm"; "all"]) with false.
  cbv iota. unfold bind, ret. rewrite (get_timers_run w Hwf). cbn [fst snd].
  set (active := set_all (scan_active (clock w) (ticks w) (timers w)) []) in *.
  set (w1 := mkWorld _ _ _ _ _ _ _).
  assert (Hg : forall k, dict_get k (timers w1) = dict_get k active) by exact Hreg.
  exists active. split; [reflexivity|].
  destruct (dict_get id active) as [t|] eqn:E.
  - rewrite <- Hg in E. rewrite (cancel_timer_present id t w1 E).
    cbn [fst snd timers alarms with_timers with_futures].
    split; [|split; [apply dict_get_del_same|split; [|reflexivity]]].
    + intros Hid. destruct id as [|c id]; [contradiction|]. reflexivity.
    + intros k Hk. rewrite dict_get_del_other by exact Hk. apply Hg.
  - rewrite <- Hg in E. rewrite (cancel_timer_absent id w1 E). cbn [fst snd].
    split; [|split; [exact E|split; [|reflexivity]]].
    + split; [|reflexivity]. destruct active as [|kt rest]; reflexivity.
    + intros k Hk. apply Hg.
Qed.

Lemma cancel_timer_type_witness :
  (* the tea timer of the stale world has expired: it is removed, and the
     answer is that the specified timer was not found *)
  dict_mem "timer_100_0" (timers stale_world) = true
  /\ dict_get "timer_100_0"
       (timers (after (cancel_timer_alarm conn_up "timer" "" "" (Some "timer_100_0") None)
                  stale_world))
     = None
  /\ outcome (cancel_timer_alarm conn_up "timer" "" "" (Some "timer_100_0") None)
       stale_world
     = Ok (mkActionResponse RESPONSE "没有找到计时器或闹钟" "未找到指定的计时器。").
Proof.
  destruct (cancel_timer_type_by_id stale_world conn_up "" "" "timer_100_0" None
              stale_world_wf) as (active & Hact & _ & Hgone & _).
  split; [reflexivity|]. split; [exact Hgone|]. reflexivity.
Defined.

(* ================================================================== *)
(** * Cancelling before the callback runs; a callback that delivers *)

Lemma timer_callback_absent conn id label w :
  dict_get id (timers w) = None -> timer_callback conn id label w = (Ok tt, w).
Proof.
  intros H. unfold timer_callback, try_except, bind, gets. cbn [fst snd].
  now rewrite H.
Qed.

Lemma alarm_callback_absent conn id label w :
  dict_get id (alarms w) = None -> alarm_callback conn id label w = (Ok tt, w).
Proof.
  intros H. unfold alarm_callback, try_except, bind, gets. cbn [fst snd].
  now rewrite H.
Qed.

Lemma loop_step_settled h f w :
  nth_error (futures w) h = Some f ->
  fstate f = Finished \/ fstate f = CancelledStarted ->
  loop_step h w = (Ok tt, w).
Proof.
  intros Hf Hs. unfold loop_step, bind, gets. cbn [fst snd]. rewrite Hf.
  destruct Hs as [-> | ->]; reflexivity.
Qed.

(** A turn of the loop on a cancelled timer future whose id is not
    registered: the task is started, finds no entry, and ends. *)
Lemma loop_step_cancelled_absent h f conn id label w :
  nth_error (futures w) h = Some f ->
  fstate f = Cancelled ->
  coro f = TimerCallback conn id label ->
  dict_get id (timers w) = None ->
  loop_step h w =
    (Ok tt,
     with_futures w (list_update h (mkFuture (coro f) CancelledStarted) (futures w))).
Proof.
  intros Hf Hs Hc Hn. unfold loop_step, bind, gets. cbn [fst snd].
  rewrite Hf, Hs, Hc. cbn [run_cancelled].
  unfold timer_callback_cancelled, bind, gets. cbn [fst snd]. rewrite Hn.
  now rewrite (timer_callback_absent conn id label w Hn).
Qed.

(** X11.  Once [cancel_timer(id)] has returned for a registered timer
    whose future was pending, the future is cancelled; the loop still
    starts its task, and that first step finds no entry under the id and
    ends: the turn returns normally and leaves the dictionaries, the
    trace and the clock as they were, so nothing is sent, submitted or
    logged; only the future is marked as started.  Likewise the callback
    itself, on whatever connection and label it is invoked for that id,
    changes nothing.  This is the state the cancellation leaves; the
    entry a later [set_timer] registers under the same id is another
    matter.  After [cancel_timer()] the callback changes nothing for any
    id. *)
Theorem cancelled_callback_finds_no_entry
    (w : World) (id : string) (timer : Timer.t)
    (Hreg : dict_get id (timers w) = Some timer) :
  (let w1 := after (cancel_timer (Some id)) w in
   (forall conn label, timer_callback conn id label w1 = (Ok tt, w1))
   /\ (forall h f conn label,
         Timer.task timer = Some h ->
         nth_error (futures w) h = Some f ->
         fstate f = Pending ->
         coro f = TimerCallback conn id label ->
         let w2 := after (loop_step h) w1 in
         state_of (futures w1) h = Some Cancelled
         /\ outcome (loop_step h) w1 = Ok tt
         /\ timers w2 = timers w1 /\ alarms w2 = alarms w1
         /\ trace w2 = trace w1 /\ ticks w2 = ticks w1
         /\ state_of (futures w2) h = Some CancelledStarted
         /\ (forall h', h' <> h ->
               nth_error (futures w2) h' = nth_error (futures w1) h')))
  /\
  (let w2 := after (cancel_timer None) w in
   forall conn any_id label, timer_callback conn any_id label w2 = (Ok tt, w2)).
Proof.
  split.
  - intros w1. subst w1. unfold after.
    rewrite (cancel_timer_present id timer w Hreg). cbn [snd]. split.
    + intros conn label. apply timer_callback_absent. cbn. apply dict_get_del_same.
    + intros h f conn label Hh Hf Hp Hc.
      set (w1 := with_timers _ _).
      assert (Hf1 : nth_error (futures w1) h = Some (mkFuture (coro f) Cancelled)).
      { subst w1. cbn [futures with_timers with_futures].
        unfold cancel_in. rewrite Hh, Hf. unfold done. rewrite Hp.
        now apply nth_error_list_update_same with (y := f). }
      assert (Hn : dict_get id (timers w1) = None)
        by (subst w1; cbn; apply dict_get_del_same).
      unfold after, outcome.
      rewrite (loop_step_cancelled_absent h _ conn id label w1 Hf1 eq_refl Hc Hn).
      cbn [fst snd timers alarms trace ticks futures with_futures coro].
      split; [unfold state_of; now rewrite Hf1|].
      split; [reflexivity|]. split; [reflexivity|]. split; [reflexivity|].
      split; [reflexivity|]. split; [reflexivity|]. split.
      * unfold state_of.
        now rewrite (nth_error_list_update_same _ _ (mkFuture (coro f) Cancelled)).
      * intros h' Hne. apply nth_error_list_update_other. congruence.
  - intros w2 conn any_id label. subst w2. unfold after. rewrite cancel_timer_all.
    cbn [snd]. now apply timer_callback_absent.
Qed.

Lemma cancelled_callback_witness :
  state_of (futures (after (cancel_timer (Some "timer_100_0")) busy_world)) 0
  = Some Cancelled
  /\ trace (after (loop_step 0) (after (cancel_timer (Some "timer_100_0")) busy_world))
     = trace busy_world
  /\ state_of
       (futures (after (loop_step 0)
                   (after (cancel_timer (Some "timer_100_0")) busy_world))) 0
     = Some CancelledStarted.
Proof.
  destruct (cancelled_callback_finds_no_entry busy_world "timer_100_0" tea_timer eq_refl)
    as [[_ Hh] _].
  destruct (Hh 0%nat _ conn_up (Some "tea") eq_refl eq_refl eq_refl eq_refl)
    as (Hc & _ & _ & _ & Htr & _ & Hs & _).
  split; [exact Hc|]. split; [|exact Hs]. rewrite Htr. reflexivity.
Defined.

Lemma alarm_callback_delivers conn id label alarm w :
  has_websocket conn = true ->
  dict_get id (alarms w) = Some alarm ->
  send_stt_message conn (alarm_message alarm label) = None ->
  executor_submit conn
    (if use_function_call_mode conn then chat_with_function_calling else chat)
    (alarm_message alarm label) = None ->
  alarm_callback conn id label w =
    (Ok tt,
     with_trace (with_alarms w (dict_del id (alarms w)))
       (trace w ++ [SttMessage (alarm_message alarm label);
                    Submitted (if use_function_call_mode conn
                               then chat_with_function_calling else chat)
                      (alarm_message alarm label);
                    LogInfo ("闹钟 " ++ id ++ " 已触发: " ++ alarm_message alarm label)])%list).
Proof.
  intros Hws H Hs He. unfold alarm_callback, try_except, bind, gets. cbn [fst snd].
  rewrite H. rewrite notify_delivers by assumption.
  rewrite (del_alarm_present id alarm) by exact H.
  unfold logger_info, emit, modify, with_trace, with_alarms. cbn.
  now rewrite <- app_assoc.
Qed.

(** X12.  On a connection with a truthy websocket whose send and submit do
    not raise, a callback whose entry is registered sends the reminder
    once, then hands the same text to the conversation once, through
    [chat_with_function_calling] when the connection is in function-call
    mode and through [chat] otherwise, then removes the entry and logs;
    the other dictionary, the futures and the clock are untouched. *)
Theorem callback_delivers_then_removes
    (w : World) (conn : Conn) (id : string) (label : option string)
    (Hws : has_websocket conn = true)
    (Hsend : forall m, send_stt_message conn m = None)
    (Hsubmit : forall method m, executor_submit conn method m = None) :
  let method :=
    if use_function_call_mode conn then chat_with_function_calling else chat in
  (forall timer, dict_get id (timers w) = Some timer ->
     let w' := after (timer_callback conn id label) w in
     outcome (timer_callback conn id label) w = Ok tt
     /\ notifications (trace w') =
          (notifications (trace w)
             ++ [SttMessage (timer_message label);
                 Submitted method (timer_message label)])%list
     /\ timers w' = dict_del id (timers w)
     /\ alarms w' = alarms w /\ futures w' = futures w /\ ticks w' = ticks w)
  /\
  (forall alarm, dict_get id (alarms w) = Some alarm ->
     let w' := after (alarm_callback conn id label) w in
     outcome (alarm_callback conn id label) w = Ok tt
     /\ notifications (trace w') =
          (notifications (trace w)
             ++ [SttMessage (alarm_message alarm label);
                 Submitted method (alarm_message alarm label)])%list
     /\ alarms w' = dict_del id (alarms w)
     /\ timers w' = timers w /\ futures w' = futures w /\ ticks w' = ticks w).
Proof.
  intros method. subst method. split.
  - intros timer H w'. subst w'. unfold after, outcome.
    rewrite (timer_callback_delivers conn id label timer w Hws H (Hsend _)
               (Hsubmit _ _)).
    cbn [fst snd]. split; [reflexivity|]. split; [|repeat split].
    unfold notifications, with_trace. cbn [trace]. rewrite filter_app. reflexivity.
  - intros alarm H w'. subst w'. unfold after, outcome.
    rewrite (alarm_callback_delivers conn id label alarm w Hws H (Hsend _)
               (Hsubmit _ _)).
    cbn [fst snd]. split; [reflexivity|]. split; [|repeat split].
    unfold notifications, with_trace. cbn [trace]. rewrite filter_app. reflexivity.
Qed.

Lemma callback_delivers_witness :
  notifications
    (trace (after (timer_callback conn_up "timer_100_0" (Some "tea")) busy_world))
  = [SttMessage "您设置的 tea 计时器时间到了！";
     Submitted chat "您设置的 tea 计时器时间到了！"]
  /\ dict_get "timer_100_0"
       (timers (after (timer_callback conn_up "timer_100_0" (Some "tea")) busy_world))
     = None.
Proof.
  destruct (callback_delivers_then_removes busy_world conn_up "timer_100_0" (Some "tea")
              eq_refl (fun _ => eq_refl) (fun _ _ => eq_refl)) as [Ht _].
  destruct (Ht tea_timer eq_refl) as (_ & Hn & Hd & _).
  split; [exact Hn|]. rewrite Hd. reflexivity.
Defined.

(* ================================================================== *)
(** * Listing twice *)

(** X13.  On a registry with distinct ids, a second [get_timers] right
    after a first one returns normally and returns only timers the first
    one returned: pruning is never undone and a later listing can only be
    shorter. *)
Theorem get_timers_twice_shrinks (w : World) (Hwf : dict_wf (timers w)) :
  exists first second,
    outcome get_timers w = Ok first
    /\ outcome get_timers (after get_timers w) = Ok second
    /\ (forall k t, dict_get k second = Some t -> dict_get k first = Some t)
    /\ (List.length second <= List.length first)%nat.
Proof.
  pose proof (get_timers_wf w Hwf) as Hwf1.
  destruct (get_timers_entries w Hwf) as (_ & _ & Hreg).
  destruct (get_timers_entries _ Hwf1) as (Hact1 & _ & _).
  unfold after, outcome in *.
  rewrite (get_timers_run _ Hwf1). rewrite (get_timers_run w Hwf) in *.
  cbn [fst snd timers clock ticks] in *.
  do 2 eexists. split; [reflexivity|]. split; [reflexivity|]. split.
  - intros k t H. destruct (Hact1 k t H) as (Hget & _). now rewrite Hreg in Hget.
  - set (d1 := del_all _ (timers w)) in *.
    set (first := set_all (scan_active (clock w) (ticks w) (timers w)) []) in *.
    set (second := set_all (scan_active _ _ d1) []) in *.
    assert (Hwf2 : dict_wf second).
    { subst second. generalize (scan_active (clock w)
                                  (ticks w + Datatypes.length (timers w)) d1).
      intros l. unfold set_all.
      assert (G : forall d, dict_wf d ->
                    dict_wf (fold_left (fun d kt => dict_set (fst kt) (snd kt) d) l d)).
      { induction l as [|[k t] l IH]; intros d Hd; simpl; auto.
        apply IH. now apply dict_wf_set. }
      apply G. constructor. }
    apply NoDup_incl_length with (l := dict_keys second) (l' := dict_keys first) in Hwf2.
    + unfold dict_keys in Hwf2. now rewrite !length_map in Hwf2.
    + intros k Hk. apply In_keys in Hk as (t & Ht).
      apply (In_dict_get k t second) in Ht.
      * destruct (Hact1 k t Ht) as (Hget & _). rewrite Hreg in Hget.
        apply In_keys. exists t. now apply dict_get_In.
      * subst second. clear -Hwf1.
        generalize (scan_active (clock w) (ticks w + Datatypes.length (timers w)) d1).
        intros l. unfold set_all.
        assert (G : forall d, dict_wf d ->
                      dict_wf (fold_left (fun d kt => dict_set (fst kt) (snd kt) d) l d)).
        { induction l as [|[k' t'] l IH]; intros d Hd; simpl; auto.
          apply IH. now apply dict_wf_set. }
        apply G. constructor.
Qed.

Lemma get_timers_twice_witness :
  exists first second,
    outcome get_timers stale_world = Ok first
    /\ outcome get_timers (after get_timers stale_world) = Ok second
    /\ (List.length second <= List.length first)%nat.
Proof.
  destruct (get_timers_twice_shrinks stale_world stale_world_wf)
    as (first & second & H1 & H2 & _ & Hlen).
  exists first, second. repeat split; assumption.
Defined.

(* ================================================================== *)
(** * Response templates *)

Lemma str_mem_app c (a b : string) : str_mem c (a ++ b) = str_mem c a || str_mem c b.
Proof.
  induction a as [|x a IH]; simpl; [reflexivity|]. now rewrite IH, orb_assoc.
Qed.

Lemma replace_from_skip old new (x b : string) :
  replace_from old new (x ++ b) (String.length x) = replace_from old new b 0.
Proof. induction x as [|c x IH]; simpl; [reflexivity | exact IH]. Qed.

Lemma startswith_app (p s : string) : startswith p (p ++ s) = true.
Proof.
  induction p as [|c p IH]; simpl; [reflexivity|]. now rewrite Ascii.eqb_refl.
Qed.

(** Where the first character of the pattern does not occur, nothing is
    replaced. *)
Lemma replace_absent c old' new (s : string) :
  str_mem c s = false -> replace (String c old') new s = s.
Proof.
  unfold replace. induction s as [|a s IH]; simpl; [reflexivity|].
  intros H. apply orb_false_iff in H as [Ha Hs].
  rewrite Ha. cbn [andb]. now rewrite IH.
Qed.

(** The first occurrence is replaced and the scan goes on behind it. *)
Lemma replace_first c old' new (a b : string) :
  str_mem c a = false ->
  replace (String c old') new (a ++ String c old' ++ b)
  = a ++ new ++ replace (String c old') new b.
Proof.
  unfold replace. change (String c old' ++ b) with (String c (old' ++ b)).
  induction a as [|x a IH]; intros H.
  - cbn [append replace_from].
    replace (startswith (String c old') (String c (old' ++ b))) with true
      by (symmetry; apply (startswith_app (String c old') b)).
    cbn [String.length].
    replace (S (String.length old') - 1)%nat with (String.length old') by lia.
    now rewrite replace_from_skip.
  - cbn [str_mem] in H. apply orb_false_iff in H as [Hx Ha].
    cbn [append replace_from startswith]. rewrite Hx. cbn [andb].
    now rewrite IH.
Qed.

(** A placeholder of another name is left alone. *)
Lemma replace_mismatch c old' new (a rest : string) :
  str_mem c a = false ->
  startswith (String c old') (String c rest) = false ->
  str_mem c rest = false ->
  replace (String c old') new (a ++ String c rest) = a ++ String c rest.
Proof.
  intros Ha Hs Hr. unfold replace. induction a as [|x a IH].
  - cbn [append replace_from]. rewrite Hs.
    f_equal. exact (replace_absent c old' new rest Hr).
  - cbn [str_mem] in Ha. apply orb_false_iff in Ha as [Hx Ha].
    cbn [append replace_from startswith]. rewrite Hx. cbn [andb].
    now rewrite IH.
Qed.

Lemma int_chars_without c (s : string) :
  is_int_char c = false -> str_forall is_int_char s = true -> str_mem c s = false.
Proof.
  intros Hc. induction s as [|a s IH]; simpl; auto.
  intros H. apply andb_true_iff in H as [Ha Hs]. rewrite (IH Hs), orb_false_r.
  destruct (Ascii.eqb c a) eqn:E; auto.
  apply Ascii.eqb_eq in E. subst a. congruence.
Qed.

Lemma py_str_brace_free n : str_mem "{" (py_str n) = false.
Proof. apply int_chars_without; [reflexivity | apply py_str_chars]. Qed.

Lemma format_time_duration_brace_free n :
  str_mem "{" (format_time_duration n) = false.
Proof.
  unfold format_time_duration.
  repeat match goal with |- context [if ?b then _ else _] => destruct b end;
    rewrite ?str_mem_app, ?py_str_brace_free; reflexivity.
Qed.

Lemma fmt_02d_brace_free n : str_mem "{" (fmt_02d n) = false.
Proof.
  unfold fmt_02d. destruct (_ <? _)%nat;
    rewrite ?str_mem_app, ?py_str_brace_free; reflexivity.
Qed.

Lemma strftime_brace_free h m s :
  str_mem "{" (fmt_02d h ++ ":" ++ fmt_02d m ++ ":" ++ fmt_02d s) = false.
Proof. rewrite !str_mem_app, !fmt_02d_brace_free. reflexivity. Qed.

(** X14.  How [set_timer] fills its success template when it sets the
    timer (a positive duration that a float holds, an end that
    [localtime] converts), for text around the placeholder that holds no
    brace.  A template without any brace comes back as it is.
    [{duration}] becomes the formatted duration and [{end_time}] the
    HH:MM:SS [localtime] gives for the end.  [{label}] becomes the label,
    and disappears when the label is missing or empty. *)
Theorem set_timer_fills_template
    (w : World) (conn : Conn) (duration : Z) (response_failure : string)
    (label : option string) (pre post : string) (hh mm ss : Z)
    (Hpos : (0 < duration)%Z)
    (Hrange : float_range duration = true)
    (Hlocal : localtime w (fl (epoch (clock w (S (S (ticks w))))
                               + fl (inject_Z duration))) = Ok (hh, mm, ss))
    (Hpre : str_mem "{" pre = false) (Hpost : str_mem "{" post = false) :
  let answer template :=
    option_map response
      (match outcome (set_timer conn duration template response_failure label) w with
       | Ok r => Some r
       | Raised _ => None
       end) in
  let end_time_str := fmt_02d hh ++ ":" ++ fmt_02d mm ++ ":" ++ fmt_02d ss in
  answer pre = Some pre
  /\ answer (pre ++ "{duration}" ++ post)
     = Some (pre ++ format_time_duration duration ++ post)
  /\ answer (pre ++ "{end_time}" ++ post) = Some (pre ++ end_time_str ++ post)
  /\ answer (pre ++ "{label}" ++ post) = Some (pre ++ label_or_empty label ++ post).
Proof.
  intros answer end_time_str. subst answer. cbv beta. unfold outcome.
  assert (Hrun : forall template,
            option_map response
              (match fst (set_timer conn duration template response_failure label w)
               with Ok r => Some r | Raised _ => None end)
            = Some (timer_response template (format_time_duration duration)
                      end_time_str label)).
  { intros template.
    now rewrite (set_timer_run conn duration template response_failure label w
                   (hh, mm, ss) Hpos Hrange Hlocal). }
  rewrite !Hrun. clear Hrun. unfold timer_response.
  assert (Hets : str_mem "{" end_time_str = false).
  { subst end_time_str. apply strftime_brace_free. }
  assert (Hlabel : forall s, str_mem "{" s = false ->
            (if truthy label then replace "{label}" (label_or_empty label) s
             else replace "{label}" "" (replace "{label}" "" s)) = s).
  { intros s Hs. destruct (truthy label);
      now rewrite ?(replace_absent "{" "label}" _ s Hs),
                  ?(replace_absent "{" "label}" _ s Hs). }
  assert (Hfree2 : forall x, str_mem "{" x = false ->
            str_mem "{" (pre ++ x ++ post) = false).
  { intros x Hx. now rewrite !str_mem_app, Hpre, Hx, Hpost. }
  split; [|split; [|split]].
  - rewrite (replace_absent "{" "duration}" _ pre Hpre).
    rewrite (replace_absent "{" "end_time}" _ pre Hpre).
    now rewrite (Hlabel pre Hpre).
  - rewrite (replace_first "{" "duration}" _ pre post Hpre).
    rewrite (replace_absent "{" "duration}" _ post Hpost).
    rewrite (replace_absent "{" "end_time}" _ _
               (Hfree2 _ (format_time_duration_brace_free duration))).
    now rewrite (Hlabel _ (Hfree2 _ (format_time_duration_brace_free duration))).
  - change (pre ++ "{end_time}" ++ post)
      with (pre ++ String "{" ("end_time}" ++ post)).
    rewrite (replace_mismatch "{" "duration}" _ pre ("end_time}" ++ post) Hpre)
      by (try reflexivity; rewrite str_mem_app, Hpost; reflexivity).
    change (pre ++ String "{" ("end_time}" ++ post))
      with (pre ++ "{end_time}" ++ post).
    rewrite (replace_first "{" "end_time}" _ pre post Hpre).
    rewrite (replace_absent _ _ _ post Hpost).
    now rewrite Hlabel by (apply Hfree2, Hets).
  - change (pre ++ "{label}" ++ post)
      with (pre ++ String "{" ("label}" ++ post)).
    rewrite (replace_mismatch "{" "duration}" _ pre ("label}" ++ post) Hpre)
      by (try reflexivity; rewrite str_mem_app, Hpost; reflexivity).
    rewrite (replace_mismatch "{" "end_time}" _ pre ("label}" ++ post) Hpre)
      by (try reflexivity; rewrite str_mem_app, Hpost; reflexivity).
    change (pre ++ String "{" ("label}" ++ post)) with (pre ++ "{label}" ++ post).
    destruct label as [[|c l]|]; cbn [truthy label_or_empty].
    + rewrite (replace_first "{" "label}" _ pre post Hpre).
      rewrite (replace_absent _ _ _ post Hpost).
      rewrite replace_absent; [reflexivity|].
      rewrite !str_mem_app, Hpre, Hpost. reflexivity.
    + rewrite (replace_first "{" "label}" _ pre post Hpre).
      now rewrite (replace_absent _ _ _ post Hpost).
    + rewrite (replace_first "{" "label}" _ pre post Hpre).
      rewrite (replace_absent _ _ _ post Hpost).
      rewrite replace_absent; [reflexivity|].
      rewrite !str_mem_app, Hpre, Hpost. reflexivity.
Qed.

Lemma set_timer_fills_template_witness :
  option_map response
    (match outcome (set_timer conn_up 90 "Timer for {duration} set." "" None)
             empty_world with
     | Ok r => Some r
     | Raised _ => None
     end)
  = Some "Timer for 1分钟30秒 set.".
Proof.
  exact (proj1 (proj2 (set_timer_fills_template empty_world conn_up 90 "" None
                         "Timer for " " set." 0 3 10 ltac:(lia) eq_refl eq_refl
                         eq_refl eq_refl))).
Defined.

(* ================================================================== *)
(** * Formatting a duration *)

(** X15.  [format_time_duration] shows the hours, minutes and seconds that
    make up the number of seconds, each as a plain decimal: for
    [3600 h + 60 m + s] with [m] and [s] below 60, seconds alone below a
    minute; below an hour the minutes, and the seconds unless they are
    zero; from an hour on the hours, then nothing more on the full hour,
    the minutes alone when the seconds are zero, and otherwise minutes and
    seconds, the minutes also when they are zero. *)
Theorem format_time_duration_units (h m s : Z)
    (Hh : (0 <= h)%Z) (Hm : (0 <= m < 60)%Z) (Hs : (0 <= s < 60)%Z) :
  format_time_duration (3600 * h + 60 * m + s) =
    if (h =? 0)%Z then
      if (m =? 0)%Z then py_str s ++ "秒"
      else if (s =? 0)%Z then py_str m ++ "分钟"
      else py_str m ++ "分钟" ++ py_str s ++ "秒"
    else
      if ((m =? 0) && (s =? 0))%Z then py_str h ++ "小时"
      else if (s =? 0)%Z then py_str h ++ "小时" ++ py_str m ++ "分钟"
      else py_str h ++ "小时" ++ py_str m ++ "分钟" ++ py_str s ++ "秒".
Proof.
  set (n := (3600 * h + 60 * m + s)%Z).
  assert (Hdiv : (n / 3600 = h)%Z).
  { subst n. symmetry. apply (Z.div_unique _ 3600 h (60 * m + s)); lia. }
  assert (Hmod : (n mod 3600 = 60 * m + s)%Z).
  { subst n. symmetry. apply (Z.mod_unique _ 3600 h (60 * m + s)); lia. }
  assert (Hs60 : (n mod 60 = s)%Z).
  { subst n. symmetry. apply (Z.mod_unique _ 60 (60 * h + m) s); lia. }
  assert (Hm60 : ((n mod 3600) / 60 = m)%Z).
  { rewrite Hmod. symmetry. apply (Z.div_unique _ 60 m s); lia. }
  unfold format_time_duration. cbv zeta. rewrite Hdiv, Hs60, Hm60.
  destruct (Z.eqb_spec h 0) as [Eh|Eh].
  - assert (Hn60 : (n / 60 = m)%Z).
    { subst n h. symmetry. apply (Z.div_unique _ 60 m s); lia. }
    rewrite Hn60.
    destruct (Z.eqb_spec m 0) as [Em|Em].
    + replace (n <? 60)%Z with true by (symmetry; apply Z.ltb_lt; lia).
      f_equal. f_equal. lia.
    + replace (n <? 60)%Z with false by (symmetry; apply Z.ltb_ge; lia).
      replace (n <? 3600)%Z with true by (symmetry; apply Z.ltb_lt; lia).
      reflexivity.
  - replace (n <? 60)%Z with false by (symmetry; apply Z.ltb_ge; lia).
    replace (n <? 3600)%Z with false by (symmetry; apply Z.ltb_ge; lia).
    reflexivity.
Qed.

Lemma format_time_duration_units_witness :
  format_time_duration 3725 = "1小时2分钟5秒"
  /\ format_time_duration 3605 = "1小时0分钟5秒"
  /\ format_time_duration 120 = "2分钟".
Proof.
  split; [|split].
  - exact (format_time_duration_units 1 2 5 ltac:(lia) ltac:(lia) ltac:(lia)).
  - exact (format_time_duration_units 1 0 5 ltac:(lia) ltac:(lia) ltac:(lia)).
  - exact (format_time_duration_units 0 2 0 ltac:(lia) ltac:(lia) ltac:(lia)).
Defined.

(* ================================================================== *)
(** * Witnesses of two earlier facts *)

Lemma set_timer_fires_at_once_witness :
  exists timer_id timer,
    dict_get timer_id
      (timers (after (set_timer conn_up 3600 "" "" (Some "tea")) empty_world))
    = Some timer
    /\ Timer.duration timer = 3600%Z
    /\ dict_get timer_id
         (timers (after (loop_step 0)
                    (after (set_timer conn_up 3600 "" "" (Some "tea")) empty_world)))
       = None.
Proof.
  destruct (set_timer_fires_at_once empty_world conn_up 3600 "" "" (Some "tea")
              ltac:(lia) eq_refl (ex_intro _ (1, 1, 40)%Z eq_refl)
              eq_refl eq_refl eq_refl)
    as (id & timer & Hget & Hdur & _ & _ & Hgone & _).
  exists id, timer. repeat split; assumption.
Defined.

Lemma submit_failure_witness :
  dict_mem "timer_100_0"
    (timers (after (timer_callback conn_submit_fails "timer_100_0" (Some "tea"))
               busy_world)) = true
  /\ notifications
       (trace (after (timer_callback conn_submit_fails "timer_100_0" (Some "tea"))
                 busy_world))
     = [SttMessage "您设置的 tea 计时器时间到了！"].
Proof.
  pose proof (submit_failure_is_contained busy_world conn_submit_fails "timer_100_0"
                (Some "tea") (ConnectionError "executor shut down") tea_timer
                eq_refl eq_refl eq_refl eq_refl) as H.
  unfold after. rewrite H. split; reflexivity.
Defined.

(* ================================================================== *)
(** * Listing a registry of running timers *)

Lemma set_all_append entries : forall d,
  dict_wf (d ++ entries)%list -> set_all entries d = (d ++ entries)%list.
Proof.
  unfold set_all, dict_wf, dict_keys.
  induction entries as [|[k t] entries IH]; intros d Hwf; simpl.
  - now rewrite app_nil_r.
  - assert (Hset : dict_set k t d = (d ++ [(k, t)])%list).
    { rewrite map_app in Hwf. apply NoDup_remove_2 in Hwf.
      assert (Hk : ~ In k (map fst d)) by (intros H; apply Hwf, in_or_app; auto).
      clear -Hk. induction d as [|[k' v'] d IHd]; simpl; [reflexivity|].
      simpl in Hk. destruct (String.eqb k k') eqn:E.
      - apply String.eqb_eq in E. subst. tauto.
      - rewrite IHd by tauto. reflexivity. }
    rewrite Hset. rewrite IH; rewrite <- app_assoc; [reflexivity | exact Hwf].
Qed.

Lemma scan_all_live clk items : forall n,
  (forall k t i, In (k, t) items -> (n <= i < n + List.length items)%nat ->
                 (epoch (clk i) < Timer.end_time t)%Q) ->
  scan_active clk n items = items /\ scan_expired clk n items = [].
Proof.
  induction items as [|[k t] items IH]; intros n Hlive; simpl; [auto|].
  assert (E : is_expired (epoch (clk n)) t = false).
  { apply is_expired_false. apply (Hlive k t n); [now left | simpl; lia]. }
  rewrite E. destruct (IH (S n)) as [Ha He].
  - intros k' t' i Hin Hi. apply (Hlive k' t' i); [now right | simpl; lia].
  - now rewrite Ha, He.
Qed.

(** X18.  On a registry with distinct ids whose timers all end later than
    the readings the clock gives during the call, [get_timers] returns
    the dictionary as it is, in insertion order, deletes nothing, cancels
    nothing, and only moves the clock on by one reading per timer. *)
Theorem get_timers_all_running (w : World)
    (Hwf : dict_wf (timers w))
    (Hlive : forall k t i, In (k, t) (timers w) ->
               (ticks w <= i < ticks w + List.length (timers w))%nat ->
               (epoch (clock w i) < Timer.end_time t)%Q) :
  get_timers w =
    (Ok (timers w), with_ticks w (ticks w + List.length (timers w))).
Proof.
  rewrite (get_timers_run w Hwf).
  destruct (scan_all_live (clock w) (timers w) (ticks w) Hlive) as [Ha He].
  rewrite Ha, He. rewrite set_all_append by exact Hwf. reflexivity.
Qed.

Lemma get_timers_all_running_witness :
  get_timers (with_timers empty_world [("timer_100_0", tea_timer)])
  = (Ok [("timer_100_0", tea_timer)],
     with_ticks (with_timers empty_world [("timer_100_0", tea_timer)]) 1).
Proof.
  apply (get_timers_all_running (with_timers empty_world [("timer_100_0", tea_timer)])).
  - repeat constructor. intros [].
  - intros k t i [H|[]] Hi. injection H as <- <-. cbn in Hi.
    assert (i = 0%nat) as -> by lia. reflexivity.
Defined.

(* ================================================================== *)
(** * The day named in the confirmation and in the listing *)

(** X19.  When an alarm is asked for today at a time of day that has
    passed, and tomorrow is a date of the calendar, [set_alarm] stores it
    for tomorrow but still confirms it with the text for day offset 0,
    "today"; the listing, which names the day by the difference of dates,
    shows the same alarm as "tomorrow" for as long as the date has not
    changed. *)
Theorem rollover_is_confirmed_as_today
    (w : World) (conn : Conn) (hour minute : Z)
    (response_success response_failure : string) (label : option string)
    (Hhour : (0 <= hour <= 23)%Z) (Hminute : (0 <= minute <= 59)%Z)
    (Hpast : datetime.ltb
               (datetime.combine (datetime.date (local_now (clock w (S (ticks w)))))
                  hour minute)
               (local_now (clock w (S (ticks w)))) = true)
    (Hdate : target_exists (local_now (clock w (S (ticks w)))) hour minute 0 = true) :
  let now := local_now (clock w (S (ticks w))) in
  let call := set_alarm conn hour minute response_success response_failure 0 label in
  let time_str := fmt_02d hour ++ ":" ++ fmt_02d minute in
  exists alarm_id alarm response_text,
    outcome call w =
      Ok (mkActionResponse RESPONSE ("闹钟已设置: 今天 " ++ time_str) response_text)
    /\ dict_get alarm_id (alarms (after call w)) = Some alarm
    /\ datetime.date (Alarm.time alarm) = (datetime.date now + 1)%Z
    /\ forall i reading,
         datetime.date reading = datetime.date now ->
         alarm_line (i, alarm, reading)
         = py_str i ++ ". 明天 " ++ time_str ++ label_text label ++ nl.
Proof.
  intros now call time_str. subst call time_str. unfold after, outcome.
  rewrite (set_alarm_run conn hour minute response_success response_failure 0 label w
             Hhour Hminute ltac:(lia) Hdate).
  cbn [fst snd alarms]. do 3 eexists. split; [reflexivity|].
  split; [apply dict_get_set_same|].
  cbn [Alarm.time Alarm.with_task Alarm.hour Alarm.minute Alarm.label].
  fold now. rewrite Z.add_0_r. fold now in Hpast. rewrite Hpast.
  cbn [andb Z.eqb datetime.date datetime.combine]. split; [reflexivity|].
  intros i reading Hd. unfold alarm_line.
  cbn [Alarm.time Alarm.with_task Alarm.hour Alarm.minute Alarm.label
       datetime.date datetime.combine].
  rewrite Hd. replace (datetime.date now + 1 - datetime.date now)%Z with 1%Z by lia.
  cbn [format_day_text Z.eqb]. rewrite !str_app_assoc. reflexivity.
Qed.

Lemma rollover_witness :
  exists alarm_id alarm response_text,
    outcome (set_alarm conn_up 7 0 "" "" 0 None) empty_world =
      Ok (mkActionResponse RESPONSE "闹钟已设置: 今天 07:00" response_text)
    /\ dict_get alarm_id (alarms (after (set_alarm conn_up 7 0 "" "" 0 None) empty_world))
       = Some alarm
    /\ datetime.date (Alarm.time alarm) = 738001%Z.
Proof.
  destruct (rollover_is_confirmed_as_today empty_world conn_up 7 0 "" "" None
              ltac:(lia) ltac:(lia) eq_refl eq_refl)
    as (id & alarm & txt & Hout & Hget & Hdate & _).
  exists id, alarm, txt. repeat split; assumption.
Defined.

(* ================================================================== *)
(** * Where set_timer fails *)

(** X21.  [set_timer] with a positive duration fails in two places.  For a
    duration beyond the floats, [add_timer] raises where it adds the
    duration to the start time: the answer is the failure response and
    nothing is registered.  For a duration a float holds whose end
    [localtime] does not convert, the exception comes after [add_timer]
    has stored the entry: the answer is the failure response, with the
    text of the exception as its result, and the entry stays registered
    under the generated id, without a task; no future is created and no
    thread started, so this timer never fires, and nothing but a
    cancellation or the pruning at its end removes it. *)
Theorem set_timer_failure_leaves_entry
    (w : World) (conn : Conn) (duration : Z)
    (response_success response_failure : string) (label : option string)
    (Hpos : (0 < duration)%Z) :
  let call := set_timer conn duration response_success response_failure label in
  let w' := after call w in
  let timer_id :=
    timer_id_of (py_int (epoch (clock w (ticks w)))) (List.length (timers w)) in
  let end_time := fl (epoch (clock w (S (S (ticks w)))) + fl (inject_Z duration)) in
  (float_range duration = false ->
   outcome call w =
     Ok (mkActionResponse RESPONSE "错误: int too large to convert to float"
           response_failure)
   /\ timers w' = timers w /\ alarms w' = alarms w /\ futures w' = futures w)
  /\
  (float_range duration = true ->
   forall e, localtime w end_time = Raised e ->
   outcome call w =
     Ok (mkActionResponse RESPONSE ("错误: " ++ exn_str e) response_failure)
   /\ (exists timer,
         dict_get timer_id (timers w') = Some timer
         /\ Timer.duration timer = duration /\ Timer.label timer = label
         /\ Timer.task timer = None)
   /\ (forall k, k <> timer_id -> dict_get k (timers w') = dict_get k (timers w))
   /\ alarms w' = alarms w /\ futures w' = futures w
   /\ trace w' = (trace w ++ [LogError ("设置计时器错误: " ++ exn_str e)])%list).
Proof.
  intros call w' timer_id end_time. subst call w' timer_id end_time.
  unfold after, outcome. split.
  - intros Hr.
    rewrite (set_timer_overflow conn duration response_success response_failure label
               w Hpos Hr).
    cbn [fst snd timers alarms futures]. repeat split.
  - intros Hr e Hlt.
    rewrite (set_timer_unconverted conn duration response_success response_failure
               label w e Hpos Hr Hlt).
    cbn [fst snd timers alarms futures trace]. unfold timer_id_of.
    split; [reflexivity|]. split.
    { eexists. split; [apply dict_get_set_same|]. repeat split. }
    split; [|repeat split].
    intros k Hk. now apply dict_get_set_other.
Qed.

Lemma set_timer_failure_witness :
  (* 2^60 seconds on the sample platform, whose localtime stops at 2^55 *)
  outcome (set_timer conn_up (2 ^ 60) "ok" "failed" (Some "tea")) empty_world
  = Ok (mkActionResponse RESPONSE
          "错误: [Errno 75] Value too large for defined data type" "failed")
  /\ option_map Timer.task
       (dict_get "timer_100_0"
          (timers (after (set_timer conn_up (2 ^ 60) "ok" "failed" (Some "tea"))
                     empty_world)))
     = Some None
  /\ futures (after (set_timer conn_up (2 ^ 60) "ok" "failed" (Some "tea")) empty_world)
     = [].
Proof.
  destruct (proj2 (set_timer_failure_leaves_entry empty_world conn_up (2 ^ 60)
                     "ok" "failed" (Some "tea") ltac:(lia))
              eq_refl
              (OSError "[Errno 75] Value too large for defined data type") eq_refl)
    as (Hout & (timer & Hget & _ & _ & Htask) & _ & _ & Hf & _).
  split; [exact Hout|]. split; [|exact Hf].
  change (timer_id_of _ _) with "timer_100_0" in Hget.
  rewrite Hget. cbn [option_map]. now rewrite Htask.
Defined.

(* ================================================================== *)
(** * A cancelled callback and a reused id *)

Lemma timer_callback_returns conn id label w :
  fst (timer_callback conn id label w) = Ok tt.
Proof.
  unfold timer_callback, try_except.
  match goal with
  | |- context [match ?m w with _ => _ end] => destruct (m w) as [[[]|e] w1]
  end; reflexivity.
Qed.

Lemma loop_step_cancelled_present h f conn id label timer w :
  nth_error (futures w) h = Some f ->
  fstate f = Cancelled ->
  coro f = TimerCallback conn id label ->
  dict_get id (timers w) = Some timer ->
  loop_step h w =
    let w1 :=
      snd (if has_websocket conn && send_suspends conn
           then emit (SttInterrupted (timer_message label)) w
           else timer_callback conn id label w) in
    (Ok tt,
     with_futures w1 (list_update h (mkFuture (coro f) CancelledStarted) (futures w1))).
Proof.
  intros Hf Hs Hc Hreg. unfold loop_step, bind, gets. cbn [fst snd].
  rewrite Hf, Hs, Hc. cbn [run_cancelled].
  unfold timer_callback_cancelled, bind, gets. cbn [fst snd]. rewrite Hreg.
  destruct (has_websocket conn && send_suspends conn).
  - reflexivity.
  - cbv zeta. pose proof (timer_callback_returns conn id label w) as Hok.
    destruct (timer_callback conn id label w) as [o w1]. cbn [fst snd] in *.
    subst o. reflexivity.
Qed.

(** X22.  A cancelled timer can still announce itself, for another timer.
    The loop starts the task of a future that was cancelled before it
    turned; when a timer is registered under the id of that callback, as
    happens when the id has been generated again since the cancellation,
    the callback takes it for its own.  On a connection with a truthy
    websocket whose send returns without waiting and whose send and
    submit do not raise, it sends the reminder with the label of the
    cancelled timer, hands it to the conversation and deletes the
    registered timer.  When the send waits, the cancellation reaches the
    callback there: the send is interrupted, nothing is submitted or
    logged, and the registered timer stays. *)
Theorem stale_callback_takes_reused_id
    (w : World) (h : nat) (f : Future) (conn : Conn) (id : string)
    (label : option string) (timer : Timer.t)
    (Hf : nth_error (futures w) h = Some f)
    (Hs : fstate f = Cancelled)
    (Hc : coro f = TimerCallback conn id label)
    (Hreg : dict_get id (timers w) = Some timer)
    (Hws : has_websocket conn = true)
    (Hsend : send_stt_message conn (timer_message label) = None)
    (Hsubmit : forall method, executor_submit conn method (timer_message label) = None) :
  let w' := after (loop_step h) w in
  let method :=
    if use_function_call_mode conn then chat_with_function_calling else chat in
  outcome (loop_step h) w = Ok tt
  /\ state_of (futures w') h = Some CancelledStarted
  /\ alarms w' = alarms w
  /\ (send_suspends conn = false ->
      notifications (trace w') =
        (notifications (trace w)
           ++ [SttMessage (timer_message label); Submitted method (timer_message label)])%list
      /\ timers w' = dict_del id (timers w))
  /\ (send_suspends conn = true ->
      trace w' = (trace w ++ [SttInterrupted (timer_message label)])%list
      /\ timers w' = timers w).
Proof.
  intros w' method. subst w' method. unfold after, outcome.
  rewrite (loop_step_cancelled_present h f conn id label timer w Hf Hs Hc Hreg).
  cbv zeta. rewrite Hws. cbn [andb fst snd].
  destruct (send_suspends conn) eqn:Hw.
  - unfold emit, modify, with_trace, with_futures.
    cbn [fst snd timers alarms futures trace]. split; [reflexivity|].
    split.
    { unfold state_of. now rewrite (nth_error_list_update_same _ _ f) by exact Hf. }
    split; [reflexivity|]. split; [discriminate|]. intros _. split; reflexivity.
  - rewrite (timer_callback_delivers conn id label timer w Hws Hreg Hsend (Hsubmit _)).
    unfold with_trace, with_timers, with_futures.
    cbn [fst snd timers alarms futures trace]. split; [reflexivity|].
    split.
    { unfold state_of. now rewrite (nth_error_list_update_same _ _ f) by exact Hf. }
    split; [reflexivity|]. split; [|discriminate]. intros _. split; [|reflexivity].
    unfold notifications. rewrite filter_app. reflexivity.
Qed.

Lemma stale_callback_witness :
  (* the loop turns on the cancelled future of tea while eggs is
     registered under its id *)
  option_map Timer.label (dict_get "timer_100_0" (timers reused_world))
  = Some (Some "eggs")
  /\ state_of (futures reused_world) 0 = Some Cancelled
  /\ notifications (trace (after (loop_step 0) reused_world))
     = [SttMessage "您设置的 tea 计时器时间到了！";
        Submitted chat "您设置的 tea 计时器时间到了！"]
  /\ timers (after (loop_step 0) reused_world) = [].
Proof.
  destruct (stale_callback_takes_reused_id reused_world 0
              (mkFuture (TimerCallback conn_up "timer_100_0" (Some "tea")) Cancelled)
              conn_up "timer_100_0" (Some "tea")
              (Timer.mk 600 (804 # 8) (1401 # 2) (Some "eggs") (Some 1%nat))
              eq_refl eq_refl eq_refl eq_refl eq_refl eq_refl (fun _ => eq_refl))
    as (_ & _ & _ & Hfire & _).
  destruct (Hfire eq_refl) as (Hn & Ht).
  split; [reflexivity|]. split; [reflexivity|].
  split; [rewrite Hn; reflexivity | rewrite Ht; reflexivity].
Defined.

(* ================================================================== *)
(** * A listing that fails *)

Lemma listed_intro clk items : forall n i0 j k t,
  nth_error items j = Some (k, t) ->
  Qle_bool (float_sub (Timer.end_time t) (epoch (clk (n + j)%nat))) 0 = false ->
  exists i, In (i, t, epoch (clk (n + j)%nat)) (listed clk n items i0).
Proof.
  induction items as [|[k0 t0] items IH]; intros n i0 [|j] k t; cbn [nth_error listed];
    try discriminate.
  - intros [= <- <-] H. rewrite Nat.add_0_r in *. rewrite H.
    exists i0. now left.
  - intros Hj H. rewrite Nat.add_succ_r in *.
    destruct (IH (S n) (i0 + 1)%Z j k t Hj H) as [i Hin].
    exists i. change (S n + j)%nat with (S (n + j)) in Hin.
    destruct (Qle_bool (float_sub (Timer.end_time t0) (epoch (clk n))) 0);
      [exact Hin | now right].
Qed.

(** A timer with a second left has a line. *)
Lemma second_left_listed (end_time now : Q) :
  (now + 1 <= end_time)%Q -> Qle_bool (float_sub end_time now) 0 = false.
Proof.
  intros H. destruct (Qle_bool _ 0) eqn:E; [|reflexivity].
  apply Qle_bool_iff in E. unfold float_sub in E.
  assert (Hp : (0 < fl (end_time - now))%Q).
  { apply fl_pos. apply Qle_trans with 1%Q; [discriminate | lra]. }
  lra.
Qed.

(** The timer part of [check_timers_alarms], for type 'timer' or 'all',
    when [get_timers] returns timers and the listing raises. *)
Lemma check_listing_raises conn check_type response_success response_failure w
    active w0 e w1 :
  check_type = "timer" \/ check_type = "all" ->
  get_timers w = (Ok active, w0) ->
  active <> [] ->
  timer_listing active 1 ("当前计时器:" ++ nl) w0 = (Raised e, w1) ->
  check_timers_alarms conn check_type response_success response_failure w =
    (Ok (mkActionResponse RESPONSE ("错误: " ++ exn_str e) response_failure),
     with_trace w1 (trace w1 ++ [LogError ("查询计时器和闹钟错误: " ++ exn_str e)])%list).
Proof.
  intros Htype Hget Hne Hlist. unfold check_timers_alarms, try_except.
  assert (Hin : str_in check_type ["timer"; "all"] = true)
    by (destruct Htype as [-> | ->]; reflexivity).
  rewrite Hin. cbv iota. unfold bind at 1. unfold bind at 1. unfold bind at 1.
  rewrite Hget. cbn [fst snd]. destruct active as [|kt rest]; [congruence|].
  unfold bind at 1. rewrite Hlist. reflexivity.
Qed.

(** X23.  On a registry with distinct ids whose timers all have a second
    or more left through the call, [check_timers_alarms] for type 'timer'
    or 'all' fails as soon as [localtime] raises on the end of one of
    them: it logs the exception and answers with the failure response,
    the text of the exception as its result, for the first such timer in
    insertion order.  No timer is listed, not even the ones before it,
    and for type 'all' the alarms are not listed either.  Registry and
    futures are left as they were. *)
Theorem listing_fails_on_unconverted_end
    (w : World) (conn : Conn) (check_type response_success response_failure : string)
    (k : string) (t : Timer.t) (e : Exn)
    (Hwf : dict_wf (timers w))
    (Htype : check_type = "timer" \/ check_type = "all")
    (Hleft : forall k' t' i, dict_get k' (timers w) = Some t' ->
               (i < 2 * List.length (timers w))%nat ->
               (epoch (clock w (ticks w + i)) + 1 <= Timer.end_time t')%Q)
    (Hget : dict_get k (timers w) = Some t)
    (Hraise : localtime w (Timer.end_time t) = Raised e) :
  let call := check_timers_alarms conn check_type response_success response_failure in
  let w' := after call w in
  exists e' t',
    (exists k', dict_get k' (timers w) = Some t')
    /\ localtime w (Timer.end_time t') = Raised e'
    /\ outcome call w =
         Ok (mkActionResponse RESPONSE ("错误: " ++ exn_str e') response_failure)
    /\ timers w' = timers w /\ alarms w' = alarms w /\ futures w' = futures w
    /\ trace w' = (trace w ++ [LogError ("查询计时器和闹钟错误: " ++ exn_str e')])%list.
Proof.
  intros call w'. subst call w'.
  set (len := List.length (timers w)).
  (* the scan finds every timer running *)
  assert (Hlive : forall k' t' i, In (k', t') (timers w) ->
            (ticks w <= i < ticks w + len)%nat ->
            (epoch (clock w i) < Timer.end_time t')%Q).
  { intros k' t' i Hin Hi.
    pose proof (Hleft k' t' (i - ticks w)%nat (In_dict_get _ _ _ Hwf Hin)
                  ltac:(fold len; lia)) as H.
    replace (ticks w + (i - ticks w))%nat with i in H by lia. lra. }
  destruct (scan_all_live (clock w) (timers w) (ticks w) Hlive) as [Ha He].
  pose proof (get_timers_run w Hwf) as Hrun.
  rewrite Ha, He, (set_all_append _ [] Hwf) in Hrun.
  cbn [del_all cancel_all fold_left app] in Hrun. fold len in Hrun.
  (* the listing has a line for every timer *)
  set (w0 := mkWorld (timers w) (alarms w) (futures w) (trace w) (clock w)
               (ticks w + len) (localtime w)) in Hrun.
  destruct (In_nth_error _ _ (dict_get_In _ _ _ Hget)) as [j Hj].
  assert (Hjlen : (j < len)%nat) by (apply nth_error_Some; congruence).
  destruct (listed_intro (clock w) (timers w) (ticks w + len) 1 j k t Hj) as [i Hin].
  { apply second_left_listed. rewrite <- Nat.add_assoc.
    apply (Hleft k t); [exact Hget | fold len; lia]. }
  destruct (first_unconverted_some (localtime w) _ _ _ _ e Hin Hraise) as [e' Hfirst].
  destruct (first_unconverted_some_inv _ _ _ Hfirst) as (i' & t' & now' & Hin' & Hr').
  destruct (listed_In _ _ _ _ _ _ _ Hin') as (j' & k' & Hj' & _ & _).
  pose proof (timer_listing_run (timers w) 1 ("当前计时器:" ++ nl) w0) as Hl.
  cbn [w0 clock ticks localtime] in Hl. rewrite Hfirst in Hl. destruct Hl as [n Hl].
  unfold after, outcome.
  rewrite (check_listing_raises conn check_type response_success response_failure w
             (timers w) w0 e' (with_ticks w0 n) Htype Hrun
             ltac:(intros E; rewrite E in Hget; discriminate) Hl).
  exists e', t'. split.
  { exists k'. apply In_dict_get; [exact Hwf|]. eapply nth_error_In; eauto. }
  split; [exact Hr'|]. repeat split.
Qed.

Lemma unconverted_world_wf : dict_wf (timers unconverted_world).
Proof.
  unfold dict_wf. cbn. repeat constructor; cbn; intuition discriminate.
Qed.

Lemma listing_fails_witness :
  (* the timer of 2^60 seconds hides the alarms of a query for 'all' *)
  outcome (check_timers_alarms conn_up "all" "ok" "failed") unconverted_world
  = Ok (mkActionResponse RESPONSE
          "错误: [Errno 75] Value too large for defined data type" "failed")
  /\ timers (after (check_timers_alarms conn_up "all" "ok" "failed") unconverted_world)
     = timers unconverted_world.
Proof.
  assert (Hleft : forall k' t' i,
            dict_get k' (timers unconverted_world) = Some t' ->
            (i < 2 * List.length (timers unconverted_world))%nat ->
            (epoch (clock unconverted_world (ticks unconverted_world + i)) + 1
             <= Timer.end_time t')%Q).
  { intros k' t' i Hget Hi. cbn [unconverted_world timers dict_get] in Hget.
    destruct (String.eqb k' "timer_100_0"); [|discriminate].
    injection Hget as <-.
    destruct i as [|[|i]]; [vm_compute; discriminate | vm_compute; discriminate|].
    cbn in Hi. lia. }
  destruct (listing_fails_on_unconverted_end unconverted_world conn_up "all" "ok"
              "failed" "timer_100_0"
              (Timer.mk (2 ^ 60) (801 # 8) (inject_Z (2 ^ 60)) (Some "tea") None)
              (OSError "[Errno 75] Value too large for defined data type")
              unconverted_world_wf (or_intror eq_refl) Hleft eq_refl eq_refl)
    as (e' & t' & _ & _ & Hout & Ht & _).
  split; [|exact Ht]. reflexivity.
Defined.
